(** * Cobolt 06-01 MLD laser driver: a shallow embedding of [cobolt06_01mld.py]

    The driver talks to the laser head over a serial line with a short
    ASCII command/response protocol.  Every method of the Python class
    [Laser] that the verified properties depend on is transcribed below as
    a computation in a state-and-exception monad over a world made of the
    serial port and the chronological history of everything the driver did
    to the outside (port writes and reads, prints, sleeps, port release).

    The serial port is an external collaborator: it is an interface
    ([Transport]) and every general theorem holds for all its
    implementations.  A scripted implementation ([Script]) is used to run
    the driver on concrete device answers. *)

From Stdlib Require Import ZArith List String Ascii Strings.Byte Bool Lia.
From Stdlib Require Import DecimalString.
Import ListNotations.
Local Open Scope string_scope.
Local Open Scope Z_scope.

(** * Python text, bytes and integers *)

Module Py.

Definition CR : ascii := "013"%char.
Definition LF : ascii := "010"%char.

(** The literal ['\r\n']. *)
Definition CRLF : string := String CR (String LF EmptyString).

Definition is_ascii (c : ascii) : bool := (N_of_ascii c <? 128)%N.

Fixpoint all_chars (f : ascii -> bool) (s : string) : bool :=
  match s with
  | EmptyString => true
  | String c t => f c && all_chars f t
  end.

(** [bytes(s, 'ascii')]: [None] stands for [UnicodeEncodeError]. *)
Definition encode_ascii (s : string) : option (list byte) :=
  if all_chars is_ascii s then Some (list_byte_of_string s) else None.

(** [b.decode('ascii')]: [None] stands for [UnicodeDecodeError]. *)
Definition decode_ascii (b : list byte) : option string :=
  let s := string_of_list_byte b in
  if all_chars is_ascii s then Some s else None.

Fixpoint mem_char (c : ascii) (cs : string) : bool :=
  match cs with
  | EmptyString => false
  | String d t => Ascii.eqb c d || mem_char c t
  end.

Fixpoint lstrip (drop : ascii -> bool) (s : string) : string :=
  match s with
  | EmptyString => EmptyString
  | String c t => if drop c then lstrip drop t else s
  end.

Fixpoint rstrip (drop : ascii -> bool) (s : string) : string :=
  match s with
  | EmptyString => EmptyString
  | String c t =>
      match rstrip drop t with
      | EmptyString => if drop c then EmptyString else String c EmptyString
      | t' => String c t'
      end
  end.

(** [s.strip(chars)] removes every leading and every trailing character
    that belongs to [chars]; [s.strip()] does so for white space. *)
Definition strip_by (drop : ascii -> bool) (s : string) : string :=
  lstrip drop (rstrip drop s).

Definition strip (chars s : string) : string :=
  strip_by (fun c => mem_char c chars) s.

(** [s[1:]] *)
Definition drop_first (s : string) : string :=
  match s with
  | EmptyString => EmptyString
  | String _ t => t
  end.

(** The white space [int] and [float] skip around the numeral of an ASCII
    [str]: TAB, LF, VT, FF, CR and the space.  (The separators FS, GS, RS
    and US, which [str.isspace] accepts, are not skipped.) *)
Definition is_space (c : ascii) : bool :=
  let n := N_of_ascii c in
  ((9 <=? n) && (n <=? 13) || (n =? 32))%N.

Definition digit_val (c : ascii) : option Z :=
  let n := N_of_ascii c in
  if ((48 <=? n) && (n <=? 57))%N then Some (Z.of_N (n - 48)) else None.

(** A run of decimal digits in which single underscores may separate
    digits.  [after_digit] tells whether the previous character was a
    digit, so that a leading, trailing or doubled underscore and the empty
    run are refused. *)
Fixpoint digitpart (s : string) (acc : Z) (after_digit : bool) : option Z :=
  match s with
  | EmptyString => if after_digit then Some acc else None
  | String c t =>
      match digit_val c with
      | Some d => digitpart t (10 * acc + d) true
      | None =>
          if Ascii.eqb c "_"%char && after_digit
          then digitpart t acc false
          else None
      end
  end.

(** The number of decimal digits in [s]. *)
Fixpoint count_digits (s : string) : nat :=
  match s with
  | EmptyString => O
  | String c t =>
      match digit_val c with
      | Some _ => S (count_digits t)
      | None => count_digits t
      end
  end.

(** [sys.get_int_max_str_digits()] at its default: [int] refuses a numeral
    of more digits. *)
Definition max_str_digits : nat := 4300.

(** [int(s)] for an ASCII [str] in base ten; [None] stands for
    [ValueError], which is also what a numeral of more than
    [max_str_digits] digits raises. *)
Definition int_of_str (s : string) : option Z :=
  match strip_by is_space s with
  | String c t =>
      let numeral :=
        if Ascii.eqb c "+" || Ascii.eqb c "-" then t else String c t in
      if (max_str_digits <? count_digits numeral)%nat then None
      else if Ascii.eqb c "-" then option_map Z.opp (digitpart numeral 0 false)
      else digitpart numeral 0 false
  | EmptyString => None
  end.

(** [s.split(sep)] for a one-character separator: the fields between the
    occurrences of [sep], empty ones included. *)
Fixpoint split (sep : ascii) (s : string) : list string :=
  match s with
  | EmptyString => [EmptyString]
  | String c t =>
      if Ascii.eqb c sep then EmptyString :: split sep t
      else
        match split sep t with
        | field :: fields => String c field :: fields
        | [] => [String c EmptyString]
        end
  end.

(** ['%d' % z] *)
Definition fmt_d (z : Z) : string := NilZero.string_of_int (Z.to_int z).

Definition hex_digit (n : N) : ascii :=
  ascii_of_N (if (n <? 10)%N then 48 + n else 87 + n)%N.

Definition has_byte (c : ascii) (b : list byte) : bool :=
  existsb (fun x => Ascii.eqb (ascii_of_byte x) c) b.

(** One byte of [repr(b)] for the quote character [q]. *)
Definition repr_byte (q : ascii) (x : byte) : string :=
  let c := ascii_of_byte x in
  let n := N_of_ascii c in
  if Ascii.eqb c q || Ascii.eqb c "\"%char then String "\" (String c EmptyString)
  else if (n =? 9)%N then "\t"
  else if (n =? 10)%N then "\n"
  else if (n =? 13)%N then "\r"
  else if ((n <? 32) || (127 <=? n))%N
       then String "\" (String "x" (String (hex_digit (n / 16))
                                     (String (hex_digit (n mod 16)) EmptyString)))
  else String c EmptyString.

(** [repr(b)] of a bytes object, which is what [print] shows for it. *)
Definition bytes_repr (b : list byte) : string :=
  let q := if has_byte "'"%char b && negb (has_byte "034"%char b)
           then "034"%char else "'"%char in
  "b" ++ String q (concat EmptyString (map (repr_byte q) b)) ++ String q EmptyString.

End Py.

(** * Python floats

    A Python [float] is an IEEE 754 binary64.  Every finite binary64 is an
    integer multiple of the least subnormal [2^-1074], so a finite float is
    kept as its sign and that integer: [Fin neg k] is
    [(-1)^neg * k * 2^-1074].  The multiples that are binary64 values are
    those below [2^1024] whose binary expansion fits 53 significant bits
    ([representable]).  Arithmetic is the exact result rounded to the
    nearest representable value, ties to the even significand. *)

Module PyFloat.

Inductive pyfloat : Type :=
| Nan
| Inf (neg : bool)
| Fin (neg : bool) (k : Z).

(** The number of least subnormals in 1.0. *)
Definition unit_ulps : Z := 2 ^ 1074.

(** [2^1024] counted in least subnormals: the first magnitude that is
    too large. *)
Definition overflow_bound : Z := 2 ^ 2098.

(** How many low bits of a magnitude [k] lie below its 53 leading bits. *)
Definition binade_shift (k : Z) : Z := Z.max 0 (Z.log2 k - 52).

Definition representable (k : Z) : bool :=
  (0 <=? k) && (k <? overflow_bound) && (k mod 2 ^ binade_shift k =? 0).

Definition is_binary64 (x : pyfloat) : bool :=
  match x with
  | Fin _ k => representable k
  | _ => true
  end.

(** The integer nearest to [a / b], ties to even ([0 <= a], [0 < b]). *)
Definition rne (a b : Z) : Z :=
  let q := a / b in
  match 2 * (a mod b) ?= b with
  | Lt => q
  | Gt => q + 1
  | Eq => if Z.even q then q else q + 1
  end.

(** The representable magnitude nearest to [a / b] least subnormals, ties
    to the even significand; a result of [overflow_bound] or more means
    overflow. *)
Definition nearest (a b : Z) : Z :=
  let j := binade_shift (a / b) in
  rne a (b * 2 ^ j) * 2 ^ j.

Definition of_ratio (neg : bool) (a b : Z) : pyfloat :=
  let k := nearest a b in
  if k <? overflow_bound then Fin neg k else Inf neg.

Definition signed (neg : bool) (k : Z) : Z := if neg then - k else k.

(** [x * y] *)
Definition fmul (x y : pyfloat) : pyfloat :=
  match x, y with
  | Nan, _ | _, Nan => Nan
  | Inf s, Inf t => Inf (xorb s t)
  | Inf s, Fin t k | Fin t k, Inf s =>
      if k =? 0 then Nan else Inf (xorb s t)
  | Fin s k, Fin t l => of_ratio (xorb s t) (k * l) unit_ulps
  end.

(** [x / y]; [None] stands for [ZeroDivisionError]. *)
Definition fdiv (x y : pyfloat) : option pyfloat :=
  match x, y with
  | _, Fin _ 0 => None
  | Nan, _ | _, Nan => Some Nan
  | Inf _, Inf _ => Some Nan
  | Inf s, Fin t _ => Some (Inf (xorb s t))
  | Fin s _, Inf t => Some (Fin (xorb s t) 0)
  | Fin s k, Fin t l => Some (of_ratio (xorb s t) (k * unit_ulps) l)
  end.

(** The float of a small integer literal such as [1000]. *)
Definition of_int (z : Z) : pyfloat :=
  of_ratio (z <? 0) (Z.abs z * unit_ulps) 1.

(** [z < x] and [x <= z] for an [int] [z] and a float [x]; Python compares
    the two exactly. *)
Definition int_lt (z : Z) (x : pyfloat) : bool :=
  match x with
  | Nan => false
  | Inf neg => negb neg
  | Fin neg k => z * unit_ulps <? signed neg k
  end.

Definition le_int (x : pyfloat) (z : Z) : bool :=
  match x with
  | Nan => false
  | Inf neg => neg
  | Fin neg k => signed neg k <=? z * unit_ulps
  end.

(** [x == y] *)
Definition feq (x y : pyfloat) : bool :=
  match x, y with
  | Fin s k, Fin t l => signed s k =? signed t l
  | Inf s, Inf t => Bool.eqb s t
  | _, _ => false
  end.

(** The magnitude [k] rounded to [nd] decimals, ties to even, as the
    integer count of [10^-nd]. *)
Definition decimal_round (nd k : Z) : Z := rne (k * 10 ^ nd) unit_ulps.

(** [round(x, nd)]: the decimal rounding of the exact value, converted
    back to the nearest float; [None] stands for [OverflowError]. *)
Definition py_round (nd : Z) (x : pyfloat) : option pyfloat :=
  match x with
  | Fin neg k =>
      match of_ratio neg (decimal_round nd k * unit_ulps) (10 ^ nd) with
      | Inf _ => None
      | y => Some y
      end
  | _ => Some x
  end.

Definition fmt_nat (n : Z) : string :=
  NilZero.string_of_uint (N.to_uint (Z.to_N n)).

Definition sign_str (neg : bool) : string := if neg then "-" else EmptyString.

(** ['%0.<prec>f' % x] for [0 < prec]: the zero flag without a width pads
    nothing. *)
Definition fmt_f (prec : Z) (x : pyfloat) : string :=
  match x with
  | Nan => "nan"
  | Inf neg => sign_str neg ++ "inf"
  | Fin neg k =>
      let n := decimal_round prec k in
      sign_str neg ++ fmt_nat (n / 10 ^ prec) ++ "."
        ++ Py.drop_first (fmt_nat (10 ^ prec + n mod 10 ^ prec))
  end.

Definition lower (c : ascii) : ascii :=
  let n := N_of_ascii c in
  if ((65 <=? n) && (n <=? 90))%N then ascii_of_N (n + 32) else c.

Fixpoint lower_str (s : string) : string :=
  match s with
  | EmptyString => EmptyString
  | String c t => String (lower c) (lower_str t)
  end.

(** The longest run of digits (single underscores allowed between digits)
    at the head of [s]: the value accumulated on top of [acc], the number
    of digits read on top of [n] and the rest.  [None] when [s] does not
    start with a digit or an underscore is not followed by a digit. *)
Fixpoint scan_digits (s : string) (acc n : Z) (after_digit : bool)
  : option (Z * Z * string) :=
  match s with
  | EmptyString => if after_digit then Some (acc, n, s) else None
  | String c t =>
      match Py.digit_val c with
      | Some d => scan_digits t (10 * acc + d) (n + 1) true
      | None =>
          if Ascii.eqb c "_"%char
          then (if after_digit then scan_digits t acc n false else None)
          else if after_digit then Some (acc, n, s) else None
      end
  end.

Definition starts_with_digit (s : string) : bool :=
  match s with
  | String c _ => match Py.digit_val c with Some _ => true | None => false end
  | EmptyString => false
  end.

(** [digitpart ["."] [digitpart]]: the digits read as one integer, the
    number of digits after the point and the rest. *)
Definition scan_from_digits (s : string) : option (Z * Z * string) :=
  match scan_digits s 0 0 false with
  | Some (i, _, String c t) =>
      if Ascii.eqb c "." then
        if starts_with_digit t then scan_digits t i 0 false
        else Some (i, 0, t)
      else Some (i, 0, String c t)
  | Some (i, _, EmptyString) => Some (i, 0, EmptyString)
  | None => None
  end.

(** [[digitpart] "." digitpart | digitpart ["."]] *)
Definition scan_number (s : string) : option (Z * Z * string) :=
  match s with
  | String c t =>
      if Ascii.eqb c "." then scan_digits t 0 0 false
      else scan_from_digits s
  | EmptyString => None
  end.

(** [("e" | "E") [sign] digitpart] up to the end of the string, or
    nothing. *)
Definition scan_exponent (s : string) : option Z :=
  match s with
  | EmptyString => Some 0
  | String c t =>
      if Ascii.eqb (lower c) "e" then
        match t with
        | String d u =>
            if Ascii.eqb d "+" then Py.digitpart u 0 false
            else if Ascii.eqb d "-"
                 then option_map Z.opp (Py.digitpart u 0 false)
                 else Py.digitpart t 0 false
        | EmptyString => None
        end
      else None
  end.

Definition parse_abs (neg : bool) (s : string) : option pyfloat :=
  let l := lower_str s in
  if String.eqb l "inf" || String.eqb l "infinity" then Some (Inf neg)
  else if String.eqb l "nan" then Some Nan
  else
    match scan_number s with
    | Some (m, nfrac, rest) =>
        match scan_exponent rest with
        | Some e =>
            let e10 := e - nfrac in
            Some (if 0 <=? e10
                  then of_ratio neg (m * 10 ^ e10 * unit_ulps) 1
                  else of_ratio neg (m * unit_ulps) (10 ^ (- e10)))
        | None => None
        end
    | None => None
    end.

(** [float(s)] for an ASCII [str]: the decimal numeral converted to the
    nearest float; [None] stands for [ValueError]. *)
Definition float_of_str (s : string) : option pyfloat :=
  match Py.strip_by Py.is_space s with
  | String c t =>
      if Ascii.eqb c "+" then parse_abs false t
      else if Ascii.eqb c "-" then parse_abs true t
      else parse_abs false (String c t)
  | EmptyString => None
  end.

(** [|x - y| <= 10^-4] for two finite floats, compared exactly. *)
Definition within_1e4 (x y : pyfloat) : Prop :=
  match x, y with
  | Fin s k, Fin t l => 10000 * Z.abs (signed s k - signed t l) <= unit_ulps
  | _, _ => False
  end.

End PyFloat.

(** * Exceptions, the outside world and the driver monad *)

Inductive exn : Type :=
| AssertionError
| RuntimeError (msg : string)
| ValueError
| TypeError
| NameError
| UnicodeEncodeError
| UnicodeDecodeError
| OverflowError
| ZeroDivisionError
| IndexError.

Inductive outcome (A : Type) : Type :=
| Returned (a : A)
| Raised (e : exn).

Arguments Returned {A} a.
Arguments Raised {A} e.

(** What the driver does to the outside, one event per call. *)
Inductive event : Type :=
| Write (data : list byte)
| ReadUntil (expected got : list byte)
| InWaiting (n : N)
| Close
| Print (text : string)
| Sleep (milliseconds : N).

(** The part of [serial.Serial] the driver uses.  [port_read_until] is
    [read_until(expected=...)], [port_in_waiting] the [in_waiting]
    property.  The calls are taken to return. *)
Class Transport (P : Type) : Type := {
  port_write : P -> list byte -> P;
  port_read_until : P -> list byte -> list byte * P;
  port_in_waiting : P -> N;
  port_close : P -> P
}.

(** [self.port] and the history of events, newest first. *)
Record world (P : Type) : Type := World {
  port : P;
  history : list event
}.

Arguments World {P} port history.
Arguments port {P} w.
Arguments history {P} w.

(** The attributes of a [Laser] that stay fixed once [__init__] is over. *)
Record Laser : Type := {
  verbose : bool;
  very_verbose : bool;
  w : Z;
  max_power_mW : Z
}.

Definition io (P A : Type) : Type := world P -> outcome A * world P.

Definition ret {P A} (a : A) : io P A := fun s => (Returned a, s).

Definition raise {P A} (e : exn) : io P A := fun s => (Raised e, s).

Definition bind {P A B} (c : io P A) (k : A -> io P B) : io P B :=
  fun s =>
    match c s with
    | (Returned a, s') => k a s'
    | (Raised e, s') => (Raised e, s')
    end.

Declare Scope io_scope.
Delimit Scope io_scope with io.
Notation "x <- c ;; k" := (bind c (fun x => k))
  (at level 61, c at next level, right associativity) : io_scope.
Notation "c ;; k" := (bind c (fun _ => k))
  (at level 61, right associativity) : io_scope.
Local Open Scope io_scope.

Definition emit {P} (e : event) : io P unit :=
  fun s => (Returned tt, World (port s) (e :: history s)).

Definition assert {P} (b : bool) : io P unit :=
  if b then ret tt else raise AssertionError.

Definition when {P} (b : bool) (c : io P unit) : io P unit :=
  if b then c else ret tt.

Definition or_raise {P A} (o : option A) (e : exn) : io P A :=
  match o with
  | Some a => ret a
  | None => raise e
  end.

(** [print(text)] *)
Definition print {P} (text : string) : io P unit := emit (Print text).

(** [print(a, b)]: the two arguments separated by a space. *)
Definition print2 {P} (a b : string) : io P unit := print (a ++ " " ++ b).

(** [time.sleep(0.5)] *)
Definition sleep_half_second {P} : io P unit := emit (Sleep 500).

(** The payloads written to the port, oldest first. *)
Definition writes {P} (s : world P) : list (list byte) :=
  flat_map (fun e => match e with Write d => [d] | _ => [] end)
           (rev (history s)).

(** Whether the port has been released. *)
Definition closed {P} (s : world P) : bool :=
  existsb (fun e => match e with Close => true | _ => false end) (history s).

(** The bytes that carry command [cmd]: its text and the terminator. *)
Definition wire (cmd : string) : list byte :=
  list_byte_of_string (cmd ++ Py.CRLF).

(** The literal [b'\r\n']. *)
Definition terminator : list byte := list_byte_of_string Py.CRLF.

Section Driver.

Context {P : Type} {T : Transport P}.

Definition write (data : list byte) : io P unit :=
  fun s => (Returned tt, World (port_write (port s) data)
                               (Write data :: history s)).

Definition read_until (expected : list byte) : io P (list byte) :=
  fun s =>
    let (got, p) := port_read_until (port s) expected in
    (Returned got, World p (ReadUntil expected got :: history s)).

Definition in_waiting : io P N :=
  fun s =>
    let n := port_in_waiting (port s) in
    (Returned n, World (port s) (InWaiting n :: history s)).

Definition port_release : io P unit :=
  fun s => (Returned tt, World (port_close (port s)) (Close :: history s)).

Variable self : Laser.

(** ['Cobolt %d: ' % self.w] followed by [rest]. *)
Definition cobolt (rest : string) : string :=
  "Cobolt " ++ Py.fmt_d (w self) ++ ": " ++ rest.

(** [Laser._send] *)
Definition _send (cmd : string) : io P string :=
  cmd <- or_raise (Py.encode_ascii (cmd ++ Py.CRLF)) UnicodeEncodeError ;;
  when (very_verbose self)
       (print2 (cobolt "Bytes written:") (Py.bytes_repr cmd)) ;;
  write cmd ;;
  response <- read_until terminator ;;
  when (very_verbose self)
       (print2 (cobolt "Bytes received:") (Py.bytes_repr response)) ;;
  pending <- in_waiting ;;
  assert (pending =? 0)%N ;;
  text <- or_raise (Py.decode_ascii response) UnicodeDecodeError ;;
  ret (Py.strip Py.CRLF text).

(** [Laser.get_on_off_state] *)
Definition get_on_off_state : io P string :=
  answer <- _send "l?" ;;
  code <- or_raise (Py.int_of_str answer) ValueError ;;
  assert ((code =? 0) || (code =? 1)) ;;
  let status := if code =? 0 then "OFF" else "ON" in
  when (very_verbose self) (print (cobolt ("Laser is " ++ status))) ;;
  ret status.

(** [Laser.is_interlock_open].  The very verbose branch formats
    ['Cobolt %d: Interlock is open flag: '] with the two arguments
    [(self.w, is_open)]: the second one has no conversion to go to, which
    is a [TypeError]. *)
Definition is_interlock_open : io P Z :=
  answer <- _send "ilk?" ;;
  is_open <- or_raise (Py.int_of_str answer) ValueError ;;
  assert ((is_open =? 0) || (is_open =? 1)) ;;
  when (very_verbose self) (raise TypeError) ;;
  ret is_open.

(** [Laser.run_autostart] *)
Definition run_autostart : io P unit :=
  when (verbose self) (print (cobolt "Powering laser on")) ;;
  ilk <- is_interlock_open ;;
  when (negb (ilk =? 0))
       (print (cobolt "Interlock is open") ;;
        raise (RuntimeError "Could not turn on laser diode")) ;;
  answer <- _send "@cob1" ;;
  when (negb (String.eqb answer "OK"))
       (print2 ("Cobolt " ++ Py.fmt_d (w self) ++ ":") answer ;;
        raise (RuntimeError ("Unable to autostart Cobolt "
                               ++ Py.fmt_d (w self) ++ " laser"))) ;;
  sleep_half_second ;;
  status <- get_on_off_state ;;
  assert (String.eqb status "ON").

(** [Laser.turn_on] *)
Definition turn_on : io P unit :=
  when (verbose self) (print (cobolt "Turning on diode...")) ;;
  ilk <- is_interlock_open ;;
  when (negb (ilk =? 0))
       (print (cobolt "Interlock is open") ;;
        raise (RuntimeError "Could not turn on laser diode")) ;;
  answer <- _send "l1" ;;
  when (negb (String.eqb answer "OK"))
       (print2 (cobolt EmptyString) answer ;;
        raise (RuntimeError "Could not turn on laser diode")) ;;
  status <- get_on_off_state ;;
  assert (String.eqb status "ON").

(** [Laser.turn_off] *)
Definition turn_off : io P unit :=
  when (verbose self) (print (cobolt "Turning off diode...")) ;;
  answer <- _send "l0" ;;
  when (negb (String.eqb answer "OK"))
       (print2 (cobolt EmptyString) answer ;;
        raise (RuntimeError "Could not disable laser emission")) ;;
  status <- get_on_off_state ;;
  assert (String.eqb status "OFF").

(** The dictionary of [get_state], for a code that passed the assertion. *)
Definition state_name (code : Z) : string :=
  match code with
  | 0 => "Off"
  | 1 => "Waiting for key"
  | 2 => "Continuous"
  | 3 => "On/Off Modulation"
  | 4 => "Modulation"
  | 5 => "Fault"
  | _ => "Aborted"
  end.

(** [Laser.get_state].  The very verbose branch reads the name [mode],
    which is bound neither in the method nor in the module: a
    [NameError]. *)
Definition get_state : io P string :=
  answer <- _send "gom?" ;;
  code <- or_raise (Py.int_of_str answer) ValueError ;;
  assert ((0 <=? code) && (code <=? 6)) ;;
  let state := state_name code in
  when (very_verbose self) (raise NameError) ;;
  ret state.

(** The dictionary [mode2command] of [set_mode]. *)
Definition mode2command (mode : string) : option string :=
  if String.eqb mode "continuous" then Some "cp"
  else if String.eqb mode "modulation" then Some "em"
  else None.

(** [Laser.set_mode] *)
Definition set_mode (mode : string) : io P unit :=
  command <- or_raise (mode2command mode) AssertionError ;;
  answer <- _send command ;;
  when (negb (String.eqb answer "OK"))
       (print2 (cobolt EmptyString) answer ;;
        raise (RuntimeError ("Unable to set mode on Cobolt "
                               ++ Py.fmt_d (w self) ++ " laser"))) ;;
  status <- get_on_off_state ;;
  when (String.eqb status "ON")
       (state <- get_state ;;
        assert (String.eqb (Py.drop_first state) (Py.drop_first mode))) ;;
  when (verbose self) (print (cobolt ("Set mode to " ++ mode))).

(** [Laser.get_digital_modulation_enable_state] *)
Definition get_digital_modulation_enable_state : io P Z :=
  answer <- _send "gdmes?" ;;
  enabled <- or_raise (Py.int_of_str answer) ValueError ;;
  assert ((enabled =? 0) || (enabled =? 1)) ;;
  when (very_verbose self)
       (print (cobolt ("Digital modulation enabled? " ++ Py.fmt_d enabled))) ;;
  ret enabled.

(** [Laser.set_digital_modulation_enable_state]; ['%d' % enabled] of a
    [bool] is [1] or [0], and [True == 1], [False == 0]. *)
Definition set_digital_modulation_enable_state (enabled : bool) : io P unit :=
  answer <- _send ("sdmes " ++ Py.fmt_d (Z.b2z enabled)) ;;
  when (negb (String.eqb answer "OK"))
       (print2 (cobolt EmptyString) answer ;;
        raise (RuntimeError "Unable to change digital modulation")) ;;
  state <- get_digital_modulation_enable_state ;;
  assert (Z.b2z enabled =? state) ;;
  when (verbose self)
       (print (cobolt "set digital modulation enabled flag")).

(** [Laser.get_analog_modulation_enable_state] *)
Definition get_analog_modulation_enable_state : io P Z :=
  answer <- _send "games?" ;;
  enabled <- or_raise (Py.int_of_str answer) ValueError ;;
  assert ((enabled =? 0) || (enabled =? 1)) ;;
  when (very_verbose self)
       (print (cobolt ("Analog modulation enabled? " ++ Py.fmt_d enabled))) ;;
  ret enabled.

(** [Laser.set_analog_modulation_enable_state] *)
Definition set_analog_modulation_enable_state (enabled : bool) : io P unit :=
  answer <- _send ("sames " ++ Py.fmt_d (Z.b2z enabled)) ;;
  when (negb (String.eqb answer "OK"))
       (print2 (cobolt EmptyString) answer ;;
        raise (RuntimeError "Unable to change analog modulation")) ;;
  state <- get_analog_modulation_enable_state ;;
  assert (Z.b2z enabled =? state) ;;
  when (verbose self)
       (print (cobolt "set analog modulation enabled flag")).

(** The [int] literal [1000] as the float operand it becomes. *)
Definition thousand : PyFloat.pyfloat := PyFloat.of_int 1000.

(** [0 < power_mW <= self.max_power_mW] *)
Definition power_in_range (power_mW : PyFloat.pyfloat) : bool :=
  PyFloat.int_lt 0 power_mW && PyFloat.le_int power_mW (max_power_mW self).

(** [Laser.get_power_setpoint] *)
Definition get_power_setpoint : io P PyFloat.pyfloat :=
  answer <- _send "p?" ;;
  watts <- or_raise (PyFloat.float_of_str answer) ValueError ;;
  let power_mW := PyFloat.fmul watts thousand in
  when (very_verbose self)
       (print (cobolt ("Power set point is "
                         ++ PyFloat.fmt_f 1 power_mW ++ " mW"))) ;;
  ret power_mW.

(** [Laser.set_power_setpoint].  In the confirming assertion the left
    operand [round(power_mW, 4)] is evaluated before the getter runs. *)
Definition set_power_setpoint (power_mW : PyFloat.pyfloat) : io P unit :=
  assert (power_in_range power_mW) ;;
  watts <- or_raise (PyFloat.fdiv power_mW thousand) ZeroDivisionError ;;
  answer <- _send ("p " ++ PyFloat.fmt_f 4 watts) ;;
  when (negb (String.eqb answer "OK"))
       (print2 (cobolt EmptyString) answer ;;
        raise (RuntimeError ("Unable to update power on "
                               ++ Py.fmt_d (w self) ++ " laser"))) ;;
  asked <- or_raise (PyFloat.py_round 4 power_mW) OverflowError ;;
  readback <- get_power_setpoint ;;
  got <- or_raise (PyFloat.py_round 4 readback) OverflowError ;;
  assert (PyFloat.feq asked got) ;;
  when (verbose self)
       (print (cobolt ("New constant power set point is "
                         ++ PyFloat.fmt_f 1 power_mW ++ " mW"))).

(** [Laser.get_modulation_power_setpoint] *)
Definition get_modulation_power_setpoint : io P PyFloat.pyfloat :=
  answer <- _send "glmp?" ;;
  power_mW <- or_raise (PyFloat.float_of_str answer) ValueError ;;
  when (very_verbose self)
       (print (cobolt ("Modulation power set point is "
                         ++ PyFloat.fmt_f 1 power_mW ++ " mW"))) ;;
  ret power_mW.

(** [Laser.set_modulation_power_setpoint] *)
Definition set_modulation_power_setpoint (power_mW : PyFloat.pyfloat)
  : io P unit :=
  assert (power_in_range power_mW) ;;
  answer <- _send ("slmp " ++ PyFloat.fmt_f 1 power_mW) ;;
  when (negb (String.eqb answer "OK"))
       (print2 (cobolt EmptyString) answer ;;
        raise (RuntimeError ("Unable to update power on "
                               ++ Py.fmt_d (w self) ++ " laser"))) ;;
  asked <- or_raise (PyFloat.py_round 4 power_mW) OverflowError ;;
  readback <- get_modulation_power_setpoint ;;
  got <- or_raise (PyFloat.py_round 4 readback) OverflowError ;;
  assert (PyFloat.feq asked got) ;;
  when (verbose self)
       (print (cobolt ("New modulation power set point is "
                         ++ PyFloat.fmt_f 1 power_mW ++ " mW"))).

(** The dictionary of [get_fault]: the fault a response code stands for. *)
Definition fault_name (code : string) : option string :=
  if String.eqb code "0" then Some "no errors"
  else if String.eqb code "1" then Some "temperature error"
  else if String.eqb code "3" then Some "interlock error"
  else if String.eqb code "4" then Some "constant power time out"
  else None.

(** [Laser.get_fault].  The method ends in [return None]: the value it
    hands to its caller is Python's [None], here [None], whatever fault was
    decoded. *)
Definition get_fault : io P (option string) :=
  code <- _send "f?" ;;
  fault <- or_raise (fault_name code) AssertionError ;;
  when (very_verbose self) (print (cobolt ("Fault status is " ++ fault))) ;;
  ret None.

(** [Laser.close] *)
Definition close : io P unit :=
  turn_off ;;
  port_release ;;
  when (verbose self) (print (cobolt "Closing")).

(** [if x is not None: f(x)] *)
Definition when_supplied {A : Type} (x : option A) (f : A -> io P unit)
  : io P unit :=
  match x with
  | Some a => f a
  | None => ret tt
  end.

(** The [if mode == 'continuous': ... elif mode == 'modulation': ...] of
    [configure]: the set point that goes with the mode, and nothing for
    any other mode. *)
Definition set_power_for (mode : string) (power_mW : PyFloat.pyfloat)
  : io P unit :=
  if String.eqb mode "continuous" then set_power_setpoint power_mW
  else if String.eqb mode "modulation"
       then set_modulation_power_setpoint power_mW
       else ret tt.

(** [Laser.configure]; an argument left at its default [None] is [None]. *)
Definition configure (mode : string) (power_mW : PyFloat.pyfloat)
    (digital_mod_enabled analog_mod_enabled : option bool) : io P unit :=
  when_supplied digital_mod_enabled set_digital_modulation_enable_state ;;
  when_supplied analog_mod_enabled set_analog_modulation_enable_state ;;
  set_power_for mode power_mW ;;
  set_mode mode.

(** [Laser.get_actual_power] *)
Definition get_actual_power : io P PyFloat.pyfloat :=
  answer <- _send "pa?" ;;
  watts <- or_raise (PyFloat.float_of_str answer) ValueError ;;
  let power_mW := PyFloat.fmul watts thousand in
  when (very_verbose self)
       (print (cobolt ("Actual output power = "
                         ++ PyFloat.fmt_f 1 power_mW ++ " mW"))) ;;
  ret power_mW.

(** [Laser.get_actual_current] *)
Definition get_actual_current : io P PyFloat.pyfloat :=
  answer <- _send "i?" ;;
  current_mA <- or_raise (PyFloat.float_of_str answer) ValueError ;;
  when (very_verbose self)
       (print (cobolt ("Actual output current is "
                         ++ PyFloat.fmt_f 1 current_mA ++ " W"))) ;;
  ret current_mA.

(** [Laser.get_serial_number] *)
Definition get_serial_number : io P Z :=
  answer <- _send "gsn?" ;;
  sn <- or_raise (Py.int_of_str answer) ValueError ;;
  when (very_verbose self)
       (print (cobolt ("Serial Number " ++ Py.fmt_d sn))) ;;
  ret sn.

(** [Laser.get_model_number] *)
Definition get_model_number : io P string :=
  mn <- _send "glm?" ;;
  when (very_verbose self) (print (cobolt ("Model number " ++ mn))) ;;
  ret mn.

(** [Laser.get_operating_hours] *)
Definition get_operating_hours : io P PyFloat.pyfloat :=
  answer <- _send "hrs?" ;;
  hrs <- or_raise (PyFloat.float_of_str answer) ValueError ;;
  when (very_verbose self)
       (print (cobolt ("Laser head operating hours "
                         ++ PyFloat.fmt_f 2 hrs))) ;;
  ret hrs.

(** [Laser.clear_fault] *)
Definition clear_fault : io P unit :=
  answer <- _send "cf" ;;
  assert (String.eqb answer "OK") ;;
  when (verbose self) (print (cobolt "Cleared fault")).

End Driver.

(** [Laser.__init__] once the port is open: the attributes are set, the
    model number is read and its first and fourth fields checked and kept.
    [max_power_mW] is not yet set while [get_model_number] runs, which does
    not read it. *)
Definition __init__ {P : Type} {T : Transport P}
    (wavelength_nm : Z) (verbose very_verbose : bool) : io P Laser :=
  let self := Build_Laser verbose very_verbose wavelength_nm 0 in
  when verbose (print (cobolt self "Initializing laser...")) ;;
  mn <- get_model_number self ;;
  let fields := Py.split "-" mn in
  first <- or_raise (nth_error fields 0) IndexError ;;
  wavelength <- or_raise (Py.int_of_str first) ValueError ;;
  assert (wavelength_nm =? wavelength) ;;
  fourth <- or_raise (nth_error fields 3) IndexError ;;
  max_power <- or_raise (Py.int_of_str fourth) ValueError ;;
  let self := Build_Laser verbose very_verbose wavelength_nm max_power in
  when very_verbose
       (print (cobolt self ("Maximum power " ++ Py.fmt_d max_power ++ " mW"))) ;;
  when verbose (print (cobolt self "Connected to laser.")) ;;
  ret self.

(** * A scripted port

    A port that answers the reads from a fixed script, one entry per read:
    the bytes [read_until] returns and the number of bytes [in_waiting]
    reports afterwards.  It keeps what was written and whether it was
    released.  Past the end of the script a read returns no bytes. *)

Module Script.

Record port : Type := Port {
  answers : list (list byte * N);
  pending : N;
  sent : list (list byte);
  released : bool
}.

Definition do_write (p : port) (data : list byte) : port :=
  Port (answers p) (pending p) (sent p ++ [data]) (released p).

Definition do_read_until (p : port) (expected : list byte)
  : list byte * port :=
  match answers p with
  | (got, more) :: rest => (got, Port rest more (sent p) (released p))
  | [] => ([], Port [] 0 (sent p) (released p))
  end.

Definition do_close (p : port) : port :=
  Port (answers p) (pending p) (sent p) true.

#[global] Instance transport : Transport port := {
  port_write := do_write;
  port_read_until := do_read_until;
  port_in_waiting := pending;
  port_close := do_close
}.

(** A device that sends each line of [lines], terminated, and nothing
    more. *)
Definition device (lines : list string) : port :=
  Port (map (fun l => (wire l, 0%N)) lines) 0 [] false.

(** The same device once it has received the commands [written] and has
    [lines] left to send. *)
Definition midway (lines written : list string) : port :=
  Port (map (fun l => (wire l, 0%N)) lines) 0 (map wire written) false.

Definition start (lines : list string) : world port :=
  World (device lines) [].

Definition laser (vv : bool) : Laser :=
  {| verbose := true; very_verbose := vv; w := 785; max_power_mW := 100 |}.

End Script.

(** * Observations on runs *)

(** The characters of a text [int] can read: the digits, the signs, the
    underscore and the white space [int] skips. *)
Definition numeral_char (c : ascii) : bool :=
  match Py.digit_val c with
  | Some _ => true
  | None =>
      Ascii.eqb c "+" || Ascii.eqb c "-" || Ascii.eqb c "_" || Py.is_space c
  end.

(** A text that [int] cannot read for one of two plain reasons: it holds
    a character that is not a [numeral_char], or more digits than [int]
    accepts. *)
Definition unreadable (text : string) : Prop :=
  (exists c, In c (list_ascii_of_string text) /\ numeral_char c = false) \/
  (Py.max_str_digits < Py.count_digits text)%nat.

(** What [_send] makes of the bytes it read and of the number of bytes
    still pending after the read. *)
Definition answer_of (got : list byte) (pending : N) : outcome string :=
  if (pending =? 0)%N then
    match Py.decode_ascii got with
    | Some text => Returned (Py.strip Py.CRLF text)
    | None => Raised UnicodeDecodeError
    end
  else Raised AssertionError.

(** In the words of the specification, "the response with the terminator
    stripped": the text without its final carriage return and line feed. *)
Fixpoint without_terminator (text : string) : string :=
  match text with
  | EmptyString => EmptyString
  | String c t =>
      if String.eqb text Py.CRLF then EmptyString
      else String c (without_terminator t)
  end.

(** The two payloads of a modulation flag update, or none for a flag that
    was not supplied. *)
Definition flag_exchange (setter getter : string) (flag : option bool)
  : list (list byte) :=
  match flag with
  | Some enabled =>
      [wire (setter ++ " " ++ Py.fmt_d (Z.b2z enabled)); wire getter]
  | None => []
  end.

(** The two payloads of the power set point update that goes with a
    mode. *)
Definition power_exchange (mode : string) (power_mW : PyFloat.pyfloat)
  : list (list byte) :=
  if String.eqb mode "continuous" then
    match PyFloat.fdiv power_mW thousand with
    | Some watts => [wire ("p " ++ PyFloat.fmt_f 4 watts); wire "p?"]
    | None => []
    end
  else if String.eqb mode "modulation" then
    [wire ("slmp " ++ PyFloat.fmt_f 1 power_mW); wire "glmp?"]
  else [].

(** The flag updates and the set point update of [configure], in order. *)
Definition preparation (mode : string) (power_mW : PyFloat.pyfloat)
    (digital analog : option bool) : list (list byte) :=
  (flag_exchange "sdmes" "gdmes?" digital
     ++ flag_exchange "sames" "games?" analog
     ++ power_exchange mode power_mW)%list.

Definition prefix_of {A : Type} (l full : list A) : Prop :=
  exists rest, full = (l ++ rest)%list.

Section Observations.

Context {P : Type} {T : Transport P}.

(** All that passed between the driver and its port, oldest first. *)
Definition port_events (s : world P) : list event :=
  filter (fun e => match e with Print _ | Sleep _ => false | _ => true end)
         (rev (history s)).

(** World [s'] is world [s] after the payloads [sent] were written, with
    the port released in [s'] only if it was so in [s]. *)
Definition extends (s s' : world P) (sent : list (list byte)) : Prop :=
  writes s' = (writes s ++ sent)%list /\ closed s' = closed s.

(** Whatever its outcome, a run of [c] writes a prefix of [full], in that
    order, and all of [full] when it returns. *)
Definition performs {A : Type} (c : io P A) (full : list (list byte))
  : Prop :=
  forall s o s',
    c s = (o, s') ->
    exists l, extends s s' l /\ prefix_of l full /\
              ((exists a, o = Returned a) -> l = full).

(** Port [p] answers command [cmd] with [text], leaving nothing pending,
    and is [p'] afterwards. *)
Definition replies (p : P) (cmd text : string) (p' : P) : Prop :=
  exists got raw,
    port_read_until (port_write p (wire cmd)) terminator = (got, p') /\
    port_in_waiting p' = 0%N /\
    Py.decode_ascii got = Some raw /\
    text = Py.strip Py.CRLF raw.

(** The writes and the sleeps of a history, oldest first. *)
Definition outline (s : world P) : list event :=
  filter (fun e => match e with Write _ | Sleep _ => true | _ => false end)
         (rev (history s)).

(** A computation that, whatever its outcome, writes the one command
    [query] and leaves the port as released as it found it. *)
Definition asks {A : Type} (c : io P A) (query : string) : Prop :=
  forall s o s', c s = (o, s') -> extends s s' [wire query].

(** A computation that never releases the port. *)
Definition keeps_port {A : Type} (c : io P A) : Prop :=
  forall s o s', c s = (o, s') -> closed s' = closed s.

End Observations.

(** The history after one [_send] that wrote [data], read [got] and found
    [n] bytes pending, on top of the history [h]. *)
Definition send_history (self : Laser) (data got : list byte) (n : N)
    (h : list event) : list event :=
  (InWaiting n
     :: (if very_verbose self
         then [Print (cobolt self "Bytes received:" ++ " "
                        ++ Py.bytes_repr got)]
         else [])
     ++ ReadUntil terminator got
     :: Write data
     :: (if very_verbose self
         then [Print (cobolt self "Bytes written:" ++ " "
                        ++ Py.bytes_repr data)]
         else [])
     ++ h)%list.

(** The device states [set_mode] takes for a confirmation of [mode]. *)
Definition mode_confirmed (mode : string) (code : Z) : bool :=
  (String.eqb mode "continuous" && (code =? 2))
  || (String.eqb mode "modulation" && (code =? 4)).

(** * What it is for the device to confirm an update *)

Section Confirmations.

Context {P : Type} {T : Transport P}.
Variable self : Laser.

(** Started on port [p], the computation [c] ends with outcome [o] on port
    [p'], having written the payloads [sent]. *)
Definition answers {A : Type} (c : io P A) (p : P) (o : outcome A) (p' : P)
    (sent : list (list byte)) : Prop :=
  forall s, port s = p ->
            exists s', c s = (o, s') /\ port s' = p' /\ extends s s' sent.

(** From port [p], the device acknowledges [cmd] with [OK] and then
    answers [query] with [text], which leaves port [p']. *)
Definition acknowledged_then (p : P) (cmd query text : string) (p' : P)
  : Prop :=
  exists p1, replies p cmd "OK" p1 /\ replies p1 query text p'.

(** The device confirms a modulation flag update: it acknowledges the
    command and then reports the flag as it was asked for. *)
Definition flag_confirmed (setter getter : string) (enabled : bool)
    (p p' : P) : Prop :=
  exists text,
    acknowledged_then p (setter ++ " " ++ Py.fmt_d (Z.b2z enabled))
      getter text p' /\
    Py.int_of_str text = Some (Z.b2z enabled).

(** The same for a flag that may have been left out: nothing passes for a
    flag that was not supplied. *)
Definition flag_settled (setter getter : string) (flag : option bool)
    (p p' : P) : Prop :=
  match flag with
  | Some enabled => flag_confirmed setter getter enabled p p'
  | None => p' = p
  end.

(** The device confirms the set point of constant power mode: the power is
    in range, the device acknowledges it (sent in watts) and then reports
    a set point (in watts) that is the power asked for once both are
    rounded to four decimals of a milliwatt. *)
Definition power_confirmed (power_mW : PyFloat.pyfloat) (p p' : P) : Prop :=
  power_in_range self power_mW = true /\
  exists watts text answered asked got,
    PyFloat.fdiv power_mW thousand = Some watts /\
    acknowledged_then p ("p " ++ PyFloat.fmt_f 4 watts) "p?" text p' /\
    PyFloat.float_of_str text = Some answered /\
    PyFloat.py_round 4 power_mW = Some asked /\
    PyFloat.py_round 4 (PyFloat.fmul answered thousand) = Some got /\
    PyFloat.feq asked got = true.

(** The same for the set point of modulation mode, which travels in
    milliwatts both ways. *)
Definition modulation_power_confirmed (power_mW : PyFloat.pyfloat)
    (p p' : P) : Prop :=
  power_in_range self power_mW = true /\
  exists text answered asked got,
    acknowledged_then p ("slmp " ++ PyFloat.fmt_f 1 power_mW) "glmp?"
      text p' /\
    PyFloat.float_of_str text = Some answered /\
    PyFloat.py_round 4 power_mW = Some asked /\
    PyFloat.py_round 4 answered = Some got /\
    PyFloat.feq asked got = true.

(** The set point that goes with the mode is confirmed. *)
Definition set_point_confirmed (mode : string) (power_mW : PyFloat.pyfloat)
    (p p' : P) : Prop :=
  if String.eqb mode "continuous" then power_confirmed power_mW p p'
  else if String.eqb mode "modulation"
       then modulation_power_confirmed power_mW p p'
       else p' = p.

(** The device confirms the mode switch: it acknowledges the mode command
    and answers the emission query; either it reports emission off, and
    nothing more passes, or it reports emission on and then a state that
    confirms the mode. *)
Definition mode_switch_confirmed (mode : string) (p p' : P) : Prop :=
  exists cmd status p2,
    mode2command mode = Some cmd /\
    acknowledged_then p cmd "l?" status p2 /\
    (Py.int_of_str status = Some 0 /\ p' = p2
     \/ Py.int_of_str status = Some 1 /\
        exists answer code,
          replies p2 "gom?" answer p' /\
          Py.int_of_str answer = Some code /\
          mode_confirmed mode code = true).

(** Every step of [configure] is confirmed, one after the other. *)
Definition configure_confirmed (mode : string) (power_mW : PyFloat.pyfloat)
    (digital analog : option bool) (p p' : P) : Prop :=
  exists p1 p2 p3,
    flag_settled "sdmes" "gdmes?" digital p p1 /\
    flag_settled "sames" "games?" analog p1 p2 /\
    set_point_confirmed mode power_mW p2 p3 /\
    mode_switch_confirmed mode p3 p'.

(** The device confirms that emission is off: it acknowledges [l0] and
    then reports emission off. *)
Definition emission_off_confirmed (p p' : P) : Prop :=
  exists status,
    acknowledged_then p "l0" "l?" status p' /\
    Py.int_of_str status = Some 0.

End Confirmations.

(** * Facts about the float model *)

Module PyFloatFacts.
Import PyFloat.

Lemma rne_error a b :
  0 <= a -> 0 < b -> 2 * Z.abs (b * rne a b - a) <= b.
Proof.
  intros Ha Hb. unfold rne.
  pose proof (Z.div_mod a b ltac:(lia)) as D.
  pose proof (Z.mod_pos_bound a b Hb) as M.
  destruct (Z.compare_spec (2 * (a mod b)) b) as [E | L | G];
    [destruct (Z.even (a / b)) |..]; nia.
Qed.

Lemma rne_nonneg a b : 0 <= a -> 0 < b -> 0 <= rne a b.
Proof.
  intros Ha Hb. unfold rne.
  pose proof (Z.div_pos a b Ha Hb).
  destruct (2 * (a mod b) ?= b); [destruct (Z.even (a / b)) |..]; lia.
Qed.

(** [rne a b] is an integer nearest to [a / b]. *)
Lemma rne_nearest a b n :
  0 <= a -> 0 < b -> Z.abs (b * rne a b - a) <= Z.abs (b * n - a).
Proof.
  intros Ha Hb. pose proof (rne_error a b Ha Hb) as E.
  destruct (Z.eq_dec n (rne a b)) as [-> | N]; [lia |].
  assert (b <= Z.abs (b * n - b * rne a b)) by nia.
  lia.
Qed.

Lemma rne_upper a b c :
  0 <= a -> 0 < b -> a < b * c -> rne a b <= c.
Proof.
  intros Ha Hb Hc. unfold rne.
  assert (a / b < c) by (apply Z.div_lt_upper_bound; lia).
  destruct (2 * (a mod b) ?= b); [destruct (Z.even (a / b)) |..]; lia.
Qed.


Lemma binade_shift_nonneg k : 0 <= binade_shift k.
Proof. unfold binade_shift. lia. Qed.

Lemma pow2_pos j : 0 <= j -> 0 < 2 ^ j.
Proof. intros. apply Z.pow_pos_nonneg; lia. Qed.

Lemma below_next_binade q : 0 <= q -> q < 2 ^ (53 + binade_shift q).
Proof.
  intros Hq. destruct (Z.eq_dec q 0) as [-> | N].
  - apply pow2_pos. pose proof (binade_shift_nonneg 0). lia.
  - pose proof (Z.log2_spec q ltac:(lia)) as [_ U].
    eapply Z.lt_le_trans; [exact U |].
    apply Z.pow_le_mono_r; [lia |]. unfold binade_shift. lia.
Qed.

Lemma above_binade q : 0 < binade_shift q -> 2 ^ (52 + binade_shift q) <= q.
Proof.
  intros Hj. unfold binade_shift in *.
  assert (0 < q) as Hq.
  { destruct (Z_lt_le_dec 0 q); [assumption |].
    rewrite Z.log2_nonpos in Hj by assumption. lia. }
  pose proof (Z.log2_spec q Hq) as [L _].
  replace (52 + Z.max 0 (Z.log2 q - 52)) with (Z.log2 q) by lia. exact L.
Qed.

Lemma ratio_below a b j :
  0 <= a -> 0 < b -> j = binade_shift (a / b) -> a < b * 2 ^ j * 2 ^ 53.
Proof.
  intros Ha Hb ->. set (q := a / b).
  assert (0 <= q) by (apply Z.div_pos; lia).
  pose proof (below_next_binade q ltac:(lia)) as U.
  rewrite Z.pow_add_r in U by (pose proof (binade_shift_nonneg q); lia).
  pose proof (Z.div_mod a b ltac:(lia)) as D.
  pose proof (Z.mod_pos_bound a b Hb) as M. fold q in D.
  pose proof (pow2_pos (binade_shift q) (binade_shift_nonneg q)).
  nia.
Qed.

Lemma ratio_above a b :
  0 <= a -> 0 < b -> 0 < binade_shift (a / b) ->
  b * 2 ^ (52 + binade_shift (a / b)) <= a.
Proof.
  intros Ha Hb Hj. pose proof (above_binade _ Hj) as L.
  pose proof (Z.div_mod a b ltac:(lia)) as D.
  pose proof (Z.mod_pos_bound a b Hb) as M. nia.
Qed.

Lemma representable_inv g :
  representable g = true ->
  0 <= g /\ g < overflow_bound /\ g mod 2 ^ binade_shift g = 0.
Proof.
  unfold representable. intros H.
  apply andb_true_iff in H. destruct H as [H H3].
  apply andb_true_iff in H. destruct H as [H1 H2].
  apply Z.leb_le in H1. apply Z.ltb_lt in H2. apply Z.eqb_eq in H3. auto.
Qed.

Lemma mod_pow2_le g i j :
  0 <= i <= j -> g mod 2 ^ j = 0 -> g mod 2 ^ i = 0.
Proof.
  intros Hij H.
  apply Z.mod_divide in H; [| pose proof (pow2_pos j); lia].
  apply Z.mod_divide; [pose proof (pow2_pos i); lia |].
  destruct H as [n Hn]. exists (n * 2 ^ (j - i)).
  rewrite Hn, <- Z.mul_assoc, <- Z.pow_add_r by lia.
  f_equal. f_equal. lia.
Qed.

(** A representable magnitude is a multiple of [2^j] or lies below the
    binade whose spacing is [2^j]. *)
Lemma representable_grid g j :
  representable g = true -> 0 <= j ->
  g mod 2 ^ j = 0 \/ g < 2 ^ (52 + j).
Proof.
  intros R Hj. apply representable_inv in R. destruct R as (G0 & _ & G).
  destruct (Z_le_gt_dec j (binade_shift g)) as [L | L].
  - left. apply (mod_pow2_le g j (binade_shift g)); [lia | exact G].
  - right. destruct (Z.eq_dec g 0) as [-> | N]; [apply pow2_pos; lia |].
    pose proof (Z.log2_spec g ltac:(lia)) as [_ U].
    eapply Z.lt_le_trans; [exact U |].
    apply Z.pow_le_mono_r; [lia |]. unfold binade_shift in L. lia.
Qed.

(** [nearest a b] is at least as close to [a / b] as any representable
    magnitude. *)
Lemma nearest_is_nearest a b g :
  0 <= a -> 0 < b -> representable g = true ->
  Z.abs (b * nearest a b - a) <= Z.abs (b * g - a).
Proof.
  intros Ha Hb R. unfold nearest.
  set (j := binade_shift (a / b)).
  assert (0 <= j) as Hj by apply binade_shift_nonneg.
  pose proof (pow2_pos j Hj) as Hp.
  assert (0 < b * 2 ^ j) as HB by nia.
  replace (b * (rne a (b * 2 ^ j) * 2 ^ j) - a)
    with (b * 2 ^ j * rne a (b * 2 ^ j) - a) by ring.
  destruct (representable_grid g j R Hj) as [D | S].
  - apply Z.mod_divide in D; [| lia]. destruct D as [n ->].
    replace (b * (n * 2 ^ j) - a) with (b * 2 ^ j * n - a) by ring.
    apply rne_nearest; lia.
  - destruct (Z.eq_dec j 0) as [J0 | J0].
    + rewrite J0 in *. change (2 ^ 0) with 1 in *.
      replace (b * g - a) with (b * 1 * g - a) by ring.
      apply rne_nearest; lia.
    + pose proof (ratio_above a b Ha Hb ltac:(fold j; lia)) as L. fold j in L.
      pose proof (rne_nearest a (b * 2 ^ j) (2 ^ 52) Ha HB) as N.
      rewrite Z.pow_add_r in L, S by lia.
      apply representable_inv in R. nia.
Qed.


Lemma nearest_nonneg a b : 0 <= a -> 0 < b -> 0 <= nearest a b.
Proof.
  intros Ha Hb. unfold nearest.
  pose proof (pow2_pos _ (binade_shift_nonneg (a / b))) as Hp.
  pose proof (rne_nonneg a (b * 2 ^ binade_shift (a / b)) Ha ltac:(nia)).
  nia.
Qed.

Lemma shift_of_scaled m j :
  0 < m < 2 ^ 53 -> 0 <= j -> binade_shift (m * 2 ^ j) <= j.
Proof.
  intros Hm Hj. unfold binade_shift.
  rewrite Z.log2_mul_pow2 by lia.
  assert (Z.log2 m < 53) by (apply Z.log2_lt_pow2; lia). lia.
Qed.

(** Unless it overflows, [nearest a b] is a binary64 magnitude. *)
Lemma nearest_representable a b :
  0 <= a -> 0 < b -> nearest a b < overflow_bound ->
  representable (nearest a b) = true.
Proof.
  intros Ha Hb Hov. pose proof (nearest_nonneg a b Ha Hb) as H0.
  unfold representable. rewrite (proj2 (Z.leb_le _ _) H0), (proj2 (Z.ltb_lt _ _) Hov).
  apply Z.eqb_eq. unfold nearest in *.
  set (j := binade_shift (a / b)) in *.
  assert (0 <= j) as Hj by apply binade_shift_nonneg.
  pose proof (pow2_pos j Hj) as Hp.
  set (m := rne a (b * 2 ^ j)) in *.
  assert (0 <= m) as Hm0 by (apply rne_nonneg; nia).
  assert (m <= 2 ^ 53) as Hm1.
  { apply rne_upper; [lia | nia |]. apply ratio_below; [lia | lia | reflexivity]. }
  destruct (Z.eq_dec m 0) as [M0 | M0].
  - rewrite M0. reflexivity.
  - destruct (Z.eq_dec m (2 ^ 53)) as [M1 | M1].
    + rewrite M1, <- Z.pow_add_r by lia.
      unfold binade_shift. rewrite Z.log2_pow2 by lia.
      replace (Z.max 0 (53 + j - 52)) with (j + 1) by lia.
      replace (53 + j) with (52 + (j + 1)) by lia.
      rewrite Z.pow_add_r by lia. apply Z.mod_mul.
      pose proof (pow2_pos (j + 1)). lia.
    + apply (mod_pow2_le _ _ j).
      * split; [apply binade_shift_nonneg | apply shift_of_scaled; lia].
      * apply Z.mod_mul. lia.
Qed.

Lemma of_ratio_binary64 neg a b :
  0 <= a -> 0 < b -> is_binary64 (of_ratio neg a b) = true.
Proof.
  intros Ha Hb. unfold of_ratio.
  destruct (Z.ltb_spec (nearest a b) overflow_bound) as [L | L]; [| reflexivity].
  apply nearest_representable; assumption.
Qed.

Lemma unit_ulps_pos : 0 < unit_ulps.
Proof. reflexivity. Qed.

Lemma unit_ulps_not_multiple z : 10000 * z <> unit_ulps.
Proof.
  intros H. apply (f_equal (fun x => x mod 10000)) in H.
  rewrite Z.mul_comm, Z.mod_mul in H by lia.
  vm_compute in H. discriminate H.
Qed.

(** Two values whose decimal roundings are sent to the same float by the
    conversion back have the same decimal rounding. *)
Lemma same_decimal U B kp kr Np Nr F :
  0 < U -> 0 < B -> (forall z, B * z <> U) -> (kp = kr -> Np = Nr) ->
  2 * Z.abs (U * Np - kp * B) <= U ->
  2 * Z.abs (U * Nr - kr * B) <= U ->
  Z.abs (B * F - Np * U) <= Z.abs (B * kp - Np * U) ->
  Z.abs (B * F - Nr * U) <= Z.abs (B * kr - Nr * U) ->
  Np = Nr.
Proof.
  intros HU HB ND Fn Ep Er Cp Cr.
  assert (-1 <= Nr - Np <= 1) as D by nia.
  pose proof (ND (F - kp)). pose proof (ND (kp - F)).
  pose proof (ND (F - kr)). pose proof (ND (kr - F)).
  assert (Nr - Np = 0 \/ Nr - Np = 1 \/ Nr - Np = -1) as [D0 | [D1 | D1]] by lia.
  - lia.
  - assert (Nr = Np + 1) as -> by lia.
    assert (kp = kr) by nia. apply Fn in H3. lia.
  - assert (Nr = Np - 1) as -> by lia.
    assert (kp = kr) by nia. apply Fn in H3. lia.
Qed.

Lemma py_round_fin nd neg k y :
  py_round nd (Fin neg k) = Some y ->
  y = Fin neg (nearest (decimal_round nd k * unit_ulps) (10 ^ nd)).
Proof.
  unfold py_round, of_ratio.
  destruct (_ <? overflow_bound); intros H; [inversion H; reflexivity | discriminate H].
Qed.

Lemma close_same_sign U B k l N :
  0 < B ->
  2 * Z.abs (U * N - k * B) <= U ->
  2 * Z.abs (U * N - l * B) <= U ->
  B * Z.abs (k - l) <= U.
Proof.
  intros HB Ek El.
  destruct (Z.abs_spec (k - l)) as [[_ ->] | [_ ->]]; lia.
Qed.

Lemma close_opposite_sign U B k l N :
  0 < U -> 0 < B -> 0 <= N ->
  2 * Z.abs (U * N - k * B) <= U ->
  2 * Z.abs (U * N - l * B) <= U ->
  Z.abs (B * 0 - N * U) <= Z.abs (B * k - N * U) ->
  B * Z.abs (k + l) <= U.
Proof.
  intros HU HB HN Ek El C0.
  assert (N = 0) as -> by nia.
  destruct (Z.abs_spec (k + l)) as [[_ ->] | [_ ->]]; lia.
Qed.


Lemma signed_magnitudes s t a b :
  0 <= a -> 0 <= b -> signed s a = signed t b -> a = b /\ (s = t \/ a = 0).
Proof.
  intros Ha Hb. destruct s, t; cbn [signed]; intros E;
    (split; [lia |]); first [left; reflexivity | right; lia].
Qed.

(** [round(x, 4) == round(y, 4)] puts the finite floats [x] and [y] within
    [10^-4] of each other. *)
Lemma round4_agree x y rx ry :
  is_binary64 x = true -> is_binary64 y = true ->
  py_round 4 x = Some rx -> py_round 4 y = Some ry ->
  feq rx ry = true ->
  (exists s k, x = Fin s k) ->
  within_1e4 x y.
Proof.
  intros Bx By Rx Ry E [s [k ->]].
  destruct y as [| t | t l].
  - inversion Ry; subst. apply py_round_fin in Rx. subst. discriminate E.
  - inversion Ry; subst. apply py_round_fin in Rx. subst. discriminate E.
  - apply py_round_fin in Rx, Ry. subst rx ry.
    cbn [is_binary64] in Bx, By. cbn [feq] in E. apply Z.eqb_eq in E.
    pose proof (representable_inv _ Bx) as (K0 & _ & _).
    pose proof (representable_inv _ By) as (L0 & _ & _).
    unfold decimal_round in E. change (10 ^ 4) with 10000 in E.
    pose proof unit_ulps_pos as HU.
    remember (rne (k * 10000) unit_ulps) as Np eqn:DNp.
    remember (rne (l * 10000) unit_ulps) as Nr eqn:DNr.
    assert (0 <= Np) as HNp by (subst Np; apply rne_nonneg; lia).
    assert (0 <= Nr) as HNr by (subst Nr; apply rne_nonneg; lia).
    assert (2 * Z.abs (unit_ulps * Np - k * 10000) <= unit_ulps) as Ep
      by (subst Np; apply rne_error; lia).
    assert (2 * Z.abs (unit_ulps * Nr - l * 10000) <= unit_ulps) as Er
      by (subst Nr; apply rne_error; lia).
    assert (0 <= Np * unit_ulps) as Ap by (apply Z.mul_nonneg_nonneg; lia).
    assert (0 <= Nr * unit_ulps) as Ar by (apply Z.mul_nonneg_nonneg; lia).
    pose proof (nearest_is_nearest (Np * unit_ulps) 10000 k Ap eq_refl Bx) as Cp.
    pose proof (nearest_is_nearest (Nr * unit_ulps) 10000 l Ar eq_refl By) as Cr.
    pose proof (nearest_nonneg (Np * unit_ulps) 10000 Ap eq_refl) as F1.
    pose proof (nearest_nonneg (Nr * unit_ulps) 10000 Ar eq_refl) as F2.
    remember (nearest (Np * unit_ulps) 10000) as Fp eqn:DFp.
    remember (nearest (Nr * unit_ulps) 10000) as Fr eqn:DFr.
    destruct (signed_magnitudes _ _ _ _ F1 F2 E) as [EF Sg].
    rewrite <- EF in Cr.
    assert (Np = Nr) as EN.
    { assert (k = l -> Np = Nr) as Fn
        by (intros ->; rewrite DNp, DNr; reflexivity).
      exact (same_decimal unit_ulps 10000 k l Np Nr Fp HU eq_refl
               unit_ulps_not_multiple Fn Ep Er Cp Cr). }
    rewrite <- EN in Er, Cr. cbn [within_1e4].
    clear DNp DNr DFp DFr EF EN E Bx By.
    destruct Sg as [-> | F0].
    + replace (signed t k - signed t l) with (signed t (k - l))
        by (destruct t; cbn [signed]; ring).
      replace (Z.abs (signed t (k - l))) with (Z.abs (k - l))
        by (destruct t; cbn [signed]; [symmetry; apply Z.abs_opp | reflexivity]).
      exact (close_same_sign unit_ulps 10000 k l Np eq_refl Ep Er).
    + rewrite F0 in Cp, Cr.
      pose proof (close_same_sign unit_ulps 10000 k l Np eq_refl Ep Er) as S1.
      pose proof (close_opposite_sign unit_ulps 10000 k l Np HU eq_refl HNp Ep Er Cp) as S2.
      revert S1 S2. generalize unit_ulps. intros U S1 S2.
      destruct s, t; cbn [signed]; lia.
Qed.


Lemma digit_val_nonneg c d : Py.digit_val c = Some d -> 0 <= d.
Proof.
  unfold Py.digit_val. destruct (_ && _)%bool; intros H; inversion H. lia.
Qed.

Lemma scan_digits_nonneg s : forall acc n ad m nf rest,
  0 <= acc -> scan_digits s acc n ad = Some (m, nf, rest) -> 0 <= m.
Proof.
  induction s as [| c t IH]; intros acc n ad m nf rest Hacc H; cbn [scan_digits] in H.
  - destruct ad; inversion H; subst; assumption.
  - destruct (Py.digit_val c) as [d |] eqn:D.
    + apply digit_val_nonneg in D. apply IH in H; [assumption | lia].
    + destruct (Ascii.eqb c "_"); destruct ad; try discriminate H.
      * apply IH in H; assumption.
      * inversion H; subst; assumption.
Qed.

Lemma scan_number_nonneg s m nf rest :
  scan_number s = Some (m, nf, rest) -> 0 <= m.
Proof.
  unfold scan_number, scan_from_digits. destruct s as [| c t]; [discriminate |].
  destruct (Ascii.eqb c ".").
  - apply scan_digits_nonneg. lia.
  - destruct (scan_digits (String c t) 0 0 false) as [[[i k] r] |] eqn:S;
      [| discriminate].
    apply scan_digits_nonneg in S; [| lia].
    destruct r as [| d u].
    + intros H; inversion H; subst; assumption.
    + destruct (Ascii.eqb d "."); [destruct (starts_with_digit u) |].
      * apply scan_digits_nonneg. assumption.
      * intros H; inversion H; subst; assumption.
      * intros H; inversion H; subst; assumption.
Qed.

Lemma parse_abs_binary64 neg s x :
  parse_abs neg s = Some x -> is_binary64 x = true.
Proof.
  unfold parse_abs.
  destruct (_ || _)%bool; [intros H; inversion H; reflexivity |].
  destruct (String.eqb _ "nan"); [intros H; inversion H; reflexivity |].
  destruct (scan_number s) as [[[m nf] rest] |] eqn:S; [| discriminate].
  apply scan_number_nonneg in S.
  destruct (scan_exponent rest) as [e |]; [| discriminate].
  intros H. inversion H; subst; clear H.
  pose proof unit_ulps_pos.
  destruct (Z.leb_spec 0 (e - nf)).
  - apply of_ratio_binary64; [| lia].
    apply Z.mul_nonneg_nonneg; [| lia].
    apply Z.mul_nonneg_nonneg; [lia |]. apply Z.pow_nonneg; lia.
  - apply of_ratio_binary64; [apply Z.mul_nonneg_nonneg; lia |].
    apply Z.pow_pos_nonneg; lia.
Qed.

(** [float(s)] is a binary64 value whenever it is a value at all. *)
Lemma float_of_str_binary64 s x :
  float_of_str s = Some x -> is_binary64 x = true.
Proof.
  unfold float_of_str. destruct (Py.strip_by Py.is_space s) as [| c t];
    [discriminate |].
  destruct (Ascii.eqb c "+"); [| destruct (Ascii.eqb c "-")];
    apply parse_abs_binary64.
Qed.

Lemma fmul_binary64 x y :
  is_binary64 x = true -> is_binary64 y = true -> is_binary64 (fmul x y) = true.
Proof.
  destruct x as [| s | s k], y as [| t | t l]; cbn [fmul is_binary64];
    intros Bx By; try reflexivity;
    try (destruct (_ =? 0); reflexivity).
  apply representable_inv in Bx, By.
  apply of_ratio_binary64; [apply Z.mul_nonneg_nonneg; lia | apply unit_ulps_pos].
Qed.

End PyFloatFacts.

(** * Reasoning about runs of the driver *)

Lemma all_chars_app f a b :
  Py.all_chars f (a ++ b) = Py.all_chars f a && Py.all_chars f b.
Proof.
  induction a as [| c t IH]; [reflexivity |].
  cbn [Py.all_chars String.append]. rewrite IH. apply andb_assoc.
Qed.

Lemma digits_ascii d :
  Py.all_chars Py.is_ascii (NilEmpty.string_of_uint d) = true.
Proof. induction d; cbn [NilEmpty.string_of_uint Py.all_chars]; try rewrite IHd; reflexivity. Qed.

Lemma fmt_nat_ascii n : Py.all_chars Py.is_ascii (PyFloat.fmt_nat n) = true.
Proof.
  unfold PyFloat.fmt_nat, NilZero.string_of_uint.
  destruct (N.to_uint (Z.to_N n)); try reflexivity; apply digits_ascii.
Qed.

Lemma drop_first_ascii s :
  Py.all_chars Py.is_ascii s = true ->
  Py.all_chars Py.is_ascii (Py.drop_first s) = true.
Proof.
  destruct s as [| c t]; [reflexivity |]. cbn [Py.all_chars Py.drop_first].
  intros H. apply andb_true_iff in H. apply H.
Qed.

(** A formatted float is made of ASCII characters only. *)
Lemma fmt_f_ascii prec x : Py.all_chars Py.is_ascii (PyFloat.fmt_f prec x) = true.
Proof.
  destruct x as [| neg | neg k]; cbn [PyFloat.fmt_f].
  - reflexivity.
  - destruct neg; reflexivity.
  - rewrite !all_chars_app, fmt_nat_ascii, drop_first_ascii by apply fmt_nat_ascii.
    destruct neg; reflexivity.
Qed.

Ltac solve_ascii :=
  first [ reflexivity
        | rewrite all_chars_app, fmt_f_ascii; reflexivity ].

Section Runs.

Context {P : Type} {T : Transport P}.

Local Open Scope list_scope.

Lemma bind_inv {A B} (c : io P A) (k : A -> io P B) s o s' :
  bind c k s = (o, s') ->
  (exists a s1, c s = (Returned a, s1) /\ k a s1 = (o, s')) \/
  (exists e, c s = (Raised e, s') /\ o = Raised e).
Proof.
  unfold bind. destruct (c s) as [[a | e] s1]; intros H.
  - left. exists a, s1. split; [reflexivity | exact H].
  - right. exists e. inversion H; subst. split; reflexivity.
Qed.

Lemma bind_returned {A B} (c : io P A) (k : A -> io P B) s a s1 :
  c s = (Returned a, s1) -> bind c k s = k a s1.
Proof. unfold bind. intros ->. reflexivity. Qed.

Lemma bind_raised {A B} (c : io P A) (k : A -> io P B) s e s1 :
  c s = (Raised e, s1) -> bind c k s = (Raised e, s1).
Proof. unfold bind. intros ->. reflexivity. Qed.

Lemma bind_ret {A B} (a : A) (k : A -> io P B) s : bind (ret a) k s = k a s.
Proof. reflexivity. Qed.

Lemma bind_print {B} text (k : unit -> io P B) s :
  bind (print text) k s = k tt (World (port s) (Print text :: history s)).
Proof. reflexivity. Qed.

Lemma writes_cons (p q : P) (e : event) (h : list event) :
  writes (World p (e :: h)) =
  writes (World q h) ++ match e with Write d => [d] | _ => [] end.
Proof.
  unfold writes. cbn [history rev]. rewrite flat_map_app.
  cbn [flat_map]. rewrite app_nil_r. reflexivity.
Qed.

Lemma closed_cons (p q : P) (e : event) (h : list event) :
  closed (World p (e :: h)) =
  match e with Close => true | _ => closed (World q h) end.
Proof. unfold closed. cbn [history existsb]. destruct e; reflexivity. Qed.

Lemma ret_inv {A} (a : A) (s : world P) o s' :
  ret a s = (o, s') -> o = Returned a /\ s' = s.
Proof. unfold ret. intros H. inversion H. split; reflexivity. Qed.

Lemma raise_inv {A} (e : exn) (s : world P) (o : outcome A) s' :
  raise e s = (o, s') -> o = Raised e /\ s' = s.
Proof. unfold raise. intros H. inversion H. split; reflexivity. Qed.

Lemma extends_refl (s : world P) : extends s s [].
Proof. split; [symmetry; apply app_nil_r | reflexivity]. Qed.

Lemma extends_trans (s1 s2 s3 : world P) l1 l2 :
  extends s1 s2 l1 -> extends s2 s3 l2 -> extends s1 s3 (l1 ++ l2).
Proof.
  intros [W1 C1] [W2 C2]. split.
  - rewrite W2, W1, app_assoc. reflexivity.
  - rewrite C2. exact C1.
Qed.

(** An event other than a write or a release changes neither what was
    written nor whether the port is released. *)
Lemma extends_event (s : world P) (p : P) (ev : event) :
  match ev with Write _ | Close => False | _ => True end ->
  extends s (World p (ev :: history s)) [].
Proof.
  intros Hev. split.
  - rewrite (writes_cons _ (port s)).
    destruct s, ev; try contradiction; cbn [port history]; reflexivity.
  - rewrite (closed_cons _ (port s)).
    destruct s, ev; try contradiction; reflexivity.
Qed.

Lemma extends_write (s : world P) (p : P) (data : list byte) :
  extends s (World p (Write data :: history s)) [data].
Proof.
  split.
  - rewrite (writes_cons _ (port s)). destruct s; reflexivity.
  - rewrite (closed_cons _ (port s)). destruct s; reflexivity.
Qed.

Lemma extends_emit (s : world P) ev o s' :
  emit ev s = (o, s') ->
  match ev with Write _ | Close => False | _ => True end ->
  o = Returned tt /\ extends s s' [] /\ port s' = port s.
Proof.
  unfold emit. intros H Hev. inversion H; subst; clear H.
  split; [reflexivity |]. split; [apply extends_event; exact Hev | reflexivity].
Qed.

Lemma print_inv (s : world P) text o s' :
  print text s = (o, s') -> o = Returned tt /\ extends s s' [] /\ port s' = port s.
Proof. intros H. apply extends_emit in H; [exact H | exact I]. Qed.

Lemma print2_inv (s : world P) a b o s' :
  print2 a b s = (o, s') -> o = Returned tt /\ extends s s' [] /\ port s' = port s.
Proof. apply print_inv. Qed.

Lemma sleep_inv (s : world P) o s' :
  sleep_half_second s = (o, s') ->
  o = Returned tt /\ extends s s' [] /\ port s' = port s.
Proof. intros H. apply extends_emit in H; [exact H | exact I]. Qed.

Lemma ret_extends {A} (a : A) (s : world P) o s' :
  ret a s = (o, s') -> o = Returned a /\ extends s s' [] /\ port s' = port s.
Proof.
  intros H. apply ret_inv in H. destruct H as [-> ->].
  split; [reflexivity |]. split; [apply extends_refl | reflexivity].
Qed.

Lemma raise_extends {A} (e : exn) (s : world P) (o : outcome A) s' :
  raise e s = (o, s') -> o = Raised e /\ extends s s' [] /\ port s' = port s.
Proof.
  intros H. apply raise_inv in H. destruct H as [-> ->].
  split; [reflexivity |]. split; [apply extends_refl | reflexivity].
Qed.

Lemma encode_wire cmd :
  Py.all_chars Py.is_ascii cmd = true ->
  Py.encode_ascii (cmd ++ Py.CRLF)%string = Some (wire cmd).
Proof.
  intros A. unfold Py.encode_ascii, wire.
  rewrite all_chars_app, A. reflexivity.
Qed.

Lemma extends_send_history (self : Laser) (s : world P) p data got n :
  extends s (World p (send_history self data got n (history s))) [data].
Proof.
  unfold send_history.
  assert (forall (q : P) (h : list event) l,
             extends s (World q h) l ->
             forall (b : bool) (q' : P) text,
               extends s (World q' ((if b then [Print text] else []) ++ h)) l)
    as Opt.
  { intros q h l X b q' text. destruct b; cbn [app].
    - replace l with (l ++ []) by apply app_nil_r.
      eapply extends_trans; [exact X |].
      apply (extends_event (World q h)). exact I.
    - destruct X as [X1 X2]. split; [exact X1 | exact X2]. }
  replace [data] with (((([] ++ [data]) ++ []) ++ [])) by reflexivity.
  eapply extends_trans; [| apply (extends_event (World p _) p); exact I].
  apply (Opt p).
  eapply extends_trans; [| apply (extends_event (World p _) p); exact I].
  eapply extends_trans; [| apply (extends_write (World p _) p)].
  apply (Opt p). split; [rewrite app_nil_r; reflexivity | reflexivity].
Qed.

(** The exact run of [_send] for an ASCII command: one write, one read up
    to the terminator, one look at the pending bytes. *)
Lemma send_run (self : Laser) cmd (s : world P) got p' :
  Py.all_chars Py.is_ascii cmd = true ->
  port_read_until (port_write (port s) (wire cmd)) terminator = (got, p') ->
  _send self cmd s =
  (answer_of got (port_in_waiting p'),
   World p' (send_history self (wire cmd) got (port_in_waiting p') (history s))).
Proof.
  intros A E. unfold _send. rewrite (encode_wire cmd A).
  unfold or_raise, when, print2, print, write, read_until, in_waiting,
    assert, bind, emit, ret, raise, send_history, answer_of.
  destruct (very_verbose self); cbn [port history]; rewrite E;
    cbn [port history];
    destruct (port_in_waiting p' =? 0)%N; cbn [app];
    try destruct (Py.decode_ascii got); reflexivity.
Qed.

Lemma send_inv (self : Laser) cmd (s : world P) o s' :
  Py.all_chars Py.is_ascii cmd = true ->
  _send self cmd s = (o, s') ->
  exists got,
    port_read_until (port_write (port s) (wire cmd)) terminator = (got, port s') /\
    o = answer_of got (port_in_waiting (port s')) /\
    extends s s' [wire cmd].
Proof.
  intros A H.
  destruct (port_read_until (port_write (port s) (wire cmd)) terminator)
    as [got p'] eqn:E.
  rewrite (send_run self cmd s got p' A E) in H. inversion H; subst; clear H.
  exists got. cbn [port]. split; [reflexivity |]. split; [reflexivity |].
  apply extends_send_history.
Qed.

Lemma send_wire (self : Laser) cmd (s : world P) o s' :
  Py.all_chars Py.is_ascii cmd = true ->
  _send self cmd s = (o, s') -> extends s s' [wire cmd].
Proof.
  intros A H. destruct (send_inv self cmd s o s' A H) as (got & _ & _ & X).
  exact X.
Qed.

(** A port that answers cleanly makes [_send] return the answer. *)
Lemma send_replies (self : Laser) cmd text (s : world P) p' :
  Py.all_chars Py.is_ascii cmd = true ->
  replies (port s) cmd text p' ->
  exists s', _send self cmd s = (Returned text, s') /\ port s' = p' /\
             extends s s' [wire cmd].
Proof.
  intros A (got & raw & E & N & D & ->).
  eexists. rewrite (send_run self cmd s got p' A E).
  unfold answer_of. rewrite N, D. cbn [N.eqb].
  split; [reflexivity |]. split; [reflexivity |]. apply extends_send_history.
Qed.

End Runs.

Ltac tidy :=
  repeat match goal with
    | H : _ /\ _ |- _ => destruct H
    | H : exists _, _ |- _ => destruct H
    | H : Returned _ = Raised _ |- _ => discriminate H
    | H : Raised _ = Returned _ |- _ => discriminate H
    | H : Returned ?a = Returned ?b |- _ =>
        first [ is_var a; injection H as ->
              | is_var b; injection H as <-
              | injection H as H ]
    | H : @Raised _ ?a = @Raised _ ?b |- _ =>
        first [ is_var a; injection H as ->
              | is_var b; injection H as <-
              | injection H as H ]
    end.

(** Take apart a finished run [H : c s = (o, s')], one step of the
    program after the other; [method_inv] says what to do with the call of
    a method. *)
Ltac method_inv H := fail.

Ltac run_inv H :=
  lazymatch type of H with
  | bind _ _ _ = _ =>
      let R := fresh "R" in
      let K := fresh "K" in
      apply bind_inv in H;
      destruct H as [(? & ? & R & K) | (? & R & ?)];
      [ cbv beta zeta in K; run_inv R; tidy; run_inv K
      | run_inv R; tidy ]
  | ret _ _ = _ => apply ret_extends in H; tidy
  | raise _ _ = _ => apply raise_extends in H; tidy
  | print _ _ = _ => apply print_inv in H; tidy
  | print2 _ _ _ = _ => apply print2_inv in H; tidy
  | sleep_half_second _ = _ => apply sleep_inv in H; tidy
  | or_raise (Some _) _ _ = _ => unfold or_raise in H; run_inv H
  | or_raise None _ _ = _ => unfold or_raise in H; run_inv H
  | or_raise ?o _ _ = _ =>
      let E := fresh "E" in
      destruct o eqn:E; unfold or_raise in H; run_inv H
  | assert ?b _ = _ =>
      let E := fresh "E" in
      destruct b eqn:E; unfold assert in H; run_inv H
  | when ?b _ _ = _ =>
      let E := fresh "E" in
      destruct b eqn:E; unfold when in H; run_inv H
  | (if ?b then _ else _) _ = _ =>
      let E := fresh "E" in
      destruct b eqn:E; run_inv H
  | _send _ _ _ = _ => apply send_wire in H; [| solve_ascii]
  | _ => first [ method_inv H; tidy | idtac ]
  end.

(** Glue the steps of a run together. *)
Ltac chain :=
  repeat match goal with
    | H1 : extends ?a ?b _, H2 : extends ?b ?c _ |- _ =>
        let H := fresh "X" in
        pose proof (extends_trans _ _ _ _ _ H1 H2) as H;
        cbn [app] in H; clear H1 H2
    end.

Section Performs.

Context {P : Type} {T : Transport P}.

Local Open Scope list_scope.

Lemma prefix_of_refl {A} (l : list A) : prefix_of l l.
Proof. exists []. symmetry. apply app_nil_r. Qed.

Lemma prefix_of_nil {A} (l : list A) : prefix_of [] l.
Proof. exists l. reflexivity. Qed.

Lemma prefix_of_app {A} (l1 l2 l : list A) :
  prefix_of l2 l -> prefix_of (l1 ++ l2) (l1 ++ l).
Proof. intros [rest ->]. exists rest. apply app_assoc. Qed.

Lemma prefix_of_weaken {A} (l l1 l2 : list A) :
  prefix_of l l1 -> prefix_of l (l1 ++ l2).
Proof. intros [rest ->]. exists (rest ++ l2). symmetry. apply app_assoc. Qed.

Lemma performs_eq {A} (c : io P A) F F' :
  performs c F -> F = F' -> performs c F'.
Proof. intros H <-. exact H. Qed.

Lemma performs_ret {A} (a : A) : performs (ret (P := P) a) [].
Proof.
  intros s o s' H. apply ret_extends in H. destruct H as (_ & X & _).
  exists []. split; [exact X |]. split; [apply prefix_of_refl | reflexivity].
Qed.

Lemma performs_raise {A} (e : exn) : performs (raise (P := P) (A := A) e) [].
Proof.
  intros s o s' H. apply raise_extends in H. destruct H as (_ & X & _).
  exists []. split; [exact X |]. split; [apply prefix_of_refl | reflexivity].
Qed.

Lemma performs_print text : performs (print (P := P) text) [].
Proof.
  intros s o s' H. apply print_inv in H. destruct H as (_ & X & _).
  exists []. split; [exact X |]. split; [apply prefix_of_refl | reflexivity].
Qed.

Lemma performs_print2 a b : performs (print2 (P := P) a b) [].
Proof. apply performs_print. Qed.

Lemma performs_sleep : performs (sleep_half_second (P := P)) [].
Proof.
  intros s o s' H. apply sleep_inv in H. destruct H as (_ & X & _).
  exists []. split; [exact X |]. split; [apply prefix_of_refl | reflexivity].
Qed.

Lemma performs_assert b : performs (assert (P := P) b) [].
Proof. destruct b; [apply performs_ret | apply performs_raise]. Qed.

Lemma performs_or_raise {A} (o : option A) e : performs (or_raise (P := P) o e) [].
Proof. destruct o; [apply performs_ret | apply performs_raise]. Qed.

Lemma performs_when b (c : io P unit) F :
  performs c F -> F = [] -> performs (when b c) [].
Proof. intros H ->. destruct b; [exact H | apply performs_ret]. Qed.

Lemma performs_bind {A B} (c : io P A) (k : A -> io P B) F1 F2 :
  performs c F1 -> (forall a, performs (k a) F2) ->
  performs (bind c k) (F1 ++ F2).
Proof.
  intros Hc Hk s o s' H. apply bind_inv in H.
  destruct H as [(a & s1 & R & K) | (e & R & ->)].
  - destruct (Hc _ _ _ R) as (l1 & X1 & _ & E1).
    rewrite (E1 (ex_intro _ a eq_refl)) in X1.
    destruct (Hk a _ _ _ K) as (l2 & X2 & Pf & E2).
    exists (F1 ++ l2). split; [eapply extends_trans; eassumption |].
    split; [apply prefix_of_app; exact Pf |].
    intros Ho. rewrite (E2 Ho). reflexivity.
  - destruct (Hc _ _ _ R) as (l1 & X1 & Pf & _).
    exists l1. split; [exact X1 |]. split; [apply prefix_of_weaken; exact Pf |].
    intros [a Ha]. discriminate Ha.
Qed.

Lemma performs_bind_ret {A B} (a : A) (k : A -> io P B) F :
  performs (k a) F -> performs (bind (ret a) k) F.
Proof. intros H s o s' R. apply (H s o s'). exact R. Qed.

Lemma performs_bind_raise {A B} (e : exn) (k : A -> io P B) F :
  performs (bind (raise e) k) F.
Proof.
  intros s o s' R. cbv [bind raise] in R. inversion R; subst.
  exists []. split; [apply extends_refl |]. split; [apply prefix_of_nil |].
  intros [a Ha]. discriminate Ha.
Qed.

Lemma performs_bind_some {A B} (a : A) e (k : A -> io P B) F :
  performs (k a) F -> performs (bind (or_raise (Some a) e) k) F.
Proof. apply performs_bind_ret. Qed.

Lemma performs_bind_none {A B} e (k : A -> io P B) F :
  performs (bind (or_raise None e) k) F.
Proof. apply performs_bind_raise. Qed.

Lemma performs_send (self : Laser) cmd :
  Py.all_chars Py.is_ascii cmd = true -> performs (_send self cmd) [wire cmd].
Proof.
  intros A s o s' H. apply (send_wire self cmd s o s' A) in H.
  exists [wire cmd]. split; [exact H |]. split; [apply prefix_of_refl | reflexivity].
Qed.

End Performs.

Create HintDb methods.

Ltac perf :=
  lazymatch goal with
  | |- performs (bind (or_raise (Some _) _) _) _ =>
      apply performs_bind_some; cbv beta zeta; perf
  | |- performs (bind (or_raise None _) _) _ =>
      apply performs_bind_none
  | |- performs (bind (or_raise ?o _) _) _ =>
      let E := fresh "E" in
      destruct o eqn:E;
      [ apply performs_bind_some; cbv beta zeta; perf
      | apply performs_bind_none ]
  | |- performs (bind (ret _) _) _ =>
      apply performs_bind_ret; cbv beta zeta; perf
  | |- performs (bind _ _) _ =>
      eapply performs_bind; [perf | intro; cbv beta zeta; perf]
  | |- performs (ret _) _ => apply performs_ret
  | |- performs (raise _) _ => apply performs_raise
  | |- performs (print _) _ => apply performs_print
  | |- performs (print2 _ _) _ => apply performs_print2
  | |- performs sleep_half_second _ => apply performs_sleep
  | |- performs (assert _) _ => apply performs_assert
  | |- performs (or_raise _ _) _ => apply performs_or_raise
  | |- performs (when _ _) _ =>
      eapply performs_when; [perf | reflexivity]
  | |- performs (_send _ _) _ => apply performs_send; solve_ascii
  | |- _ => solve [eauto with methods]
  end.

Ltac performs_by_steps :=
  eapply performs_eq; [perf | reflexivity].

Section Methods.

Context {P : Type} {T : Transport P}.
Variable self : Laser.
Local Open Scope list_scope.

Lemma get_on_off_state_performs :
  performs (P := P) (get_on_off_state self) [wire "l?"].
Proof. unfold get_on_off_state. performs_by_steps. Qed.

Lemma is_interlock_open_performs :
  performs (P := P) (is_interlock_open self) [wire "ilk?"].
Proof. unfold is_interlock_open. performs_by_steps. Qed.

Lemma get_state_performs :
  performs (P := P) (get_state self) [wire "gom?"].
Proof. unfold get_state. performs_by_steps. Qed.

Lemma get_digital_performs :
  performs (P := P) (get_digital_modulation_enable_state self) [wire "gdmes?"].
Proof. unfold get_digital_modulation_enable_state. performs_by_steps. Qed.

Lemma get_analog_performs :
  performs (P := P) (get_analog_modulation_enable_state self) [wire "games?"].
Proof. unfold get_analog_modulation_enable_state. performs_by_steps. Qed.

Lemma get_power_setpoint_performs :
  performs (P := P) (get_power_setpoint self) [wire "p?"].
Proof. unfold get_power_setpoint. performs_by_steps. Qed.

Lemma get_modulation_power_setpoint_performs :
  performs (P := P) (get_modulation_power_setpoint self) [wire "glmp?"].
Proof. unfold get_modulation_power_setpoint. performs_by_steps. Qed.

End Methods.

#[export] Hint Resolve get_on_off_state_performs is_interlock_open_performs
  get_state_performs get_digital_performs get_analog_performs
  get_power_setpoint_performs get_modulation_power_setpoint_performs : methods.

Section Setters.

Context {P : Type} {T : Transport P}.
Variable self : Laser.
Local Open Scope list_scope.

Lemma set_digital_performs enabled :
  performs (P := P) (set_digital_modulation_enable_state self enabled)
           (flag_exchange "sdmes" "gdmes?" (Some enabled)).
Proof.
  unfold set_digital_modulation_enable_state.
  destruct enabled; performs_by_steps.
Qed.

Lemma set_analog_performs enabled :
  performs (P := P) (set_analog_modulation_enable_state self enabled)
           (flag_exchange "sames" "games?" (Some enabled)).
Proof.
  unfold set_analog_modulation_enable_state.
  destruct enabled; performs_by_steps.
Qed.

Lemma set_power_setpoint_performs power_mW :
  performs (P := P) (set_power_setpoint self power_mW)
           (power_exchange "continuous" power_mW).
Proof.
  unfold set_power_setpoint, power_exchange. cbn [String.eqb Ascii.eqb Bool.eqb].
  destruct (PyFloat.fdiv power_mW thousand) as [watts |] eqn:D.
  - performs_by_steps.
  - performs_by_steps.
Qed.

Lemma set_modulation_power_setpoint_performs power_mW :
  performs (P := P) (set_modulation_power_setpoint self power_mW)
           (power_exchange "modulation" power_mW).
Proof.
  unfold set_modulation_power_setpoint, power_exchange.
  cbn [String.eqb Ascii.eqb Bool.eqb]. performs_by_steps.
Qed.

Lemma turn_off_performs :
  performs (P := P) (turn_off self) [wire "l0"; wire "l?"].
Proof. unfold turn_off. performs_by_steps. Qed.

End Setters.

(** * The status queries and the emission switch *)

Section Status.

Context {P : Type} {T : Transport P}.
Variable self : Laser.
Local Open Scope list_scope.

Lemma port_events_cons (p q : P) (e : event) (h : list event) :
  port_events (World p (e :: h)) =
  port_events (World q h)
    ++ match e with Print _ | Sleep _ => [] | _ => [e] end.
Proof.
  unfold port_events. cbn [history rev]. rewrite filter_app.
  destruct e; reflexivity.
Qed.

Lemma replies_after_print (s : world P) text cmd answer p' :
  replies (port s) cmd answer p' ->
  replies (port (World (port s) (Print text :: history s))) cmd answer p'.
Proof. intros H. exact H. Qed.

(** [is_interlock_open] on a port that answers the query cleanly with a
    flag. *)
Lemma is_interlock_open_run (s : world P) text p' v :
  replies (port s) "ilk?" text p' ->
  Py.int_of_str text = Some v -> v = 0 \/ v = 1 ->
  exists s1,
    is_interlock_open self s =
      (if very_verbose self then Raised TypeError else Returned v, s1) /\
    port s1 = p' /\ extends s s1 [wire "ilk?"].
Proof.
  intros R I V.
  destruct (send_replies self "ilk?" text s p' eq_refl R) as (s1 & E & Pt & X).
  exists s1. split; [| split; assumption].
  unfold is_interlock_open. rewrite (bind_returned _ _ _ _ _ E).
  rewrite I. cbn [or_raise bind ret assert].
  assert ((v =? 0) || (v =? 1) = true) as ->
    by (destruct V as [-> | ->]; reflexivity).
  destruct (very_verbose self); reflexivity.
Qed.

Lemma is_interlock_open_never_returns (s : world P) :
  very_verbose self = true ->
  exists e s', is_interlock_open self s = (Raised e, s').
Proof.
  intros VV. destruct (is_interlock_open self s) as [[v | e] s'] eqn:H.
  - exfalso. unfold is_interlock_open in H. run_inv H; congruence.
  - exists e, s'. reflexivity.
Qed.

Lemma get_state_never_returns (s : world P) :
  very_verbose self = true ->
  exists e s', get_state self s = (Raised e, s').
Proof.
  intros VV. destruct (get_state self s) as [[v | e] s'] eqn:H.
  - exfalso. unfold get_state in H. run_inv H; congruence.
  - exists e, s'. reflexivity.
Qed.

Lemma power_out_of_range power_mW :
  PyFloat.le_int power_mW 0 = true \/
  PyFloat.int_lt (max_power_mW self) power_mW = true ->
  power_in_range self power_mW = false.
Proof.
  unfold power_in_range.
  destruct power_mW as [| neg | neg k]; cbn [PyFloat.le_int PyFloat.int_lt].
  - intros _. reflexivity.
  - intros [-> | H]; [reflexivity |].
    apply negb_true_iff in H. rewrite H. reflexivity.
  - intros [H | H].
    + apply Z.leb_le in H. apply andb_false_iff. left. apply Z.ltb_ge. exact H.
    + apply Z.ltb_lt in H. apply andb_false_iff. right. apply Z.leb_gt. exact H.
Qed.

(** C7.  A power that is zero or less, or above the laser's maximum, makes
    both [set_power_setpoint] and [set_modulation_power_setpoint] raise
    [AssertionError] in the very world they were called in: nothing was
    written to the port and nothing else was done. *)
Theorem out_of_range_power_is_refused (s : world P) power_mW :
  PyFloat.le_int power_mW 0 = true \/
  PyFloat.int_lt (max_power_mW self) power_mW = true ->
  set_power_setpoint self power_mW s = (Raised AssertionError, s) /\
  set_modulation_power_setpoint self power_mW s = (Raised AssertionError, s).
Proof.
  intros H. apply power_out_of_range in H.
  unfold set_power_setpoint, set_modulation_power_setpoint.
  rewrite H. split; reflexivity.
Qed.

(** C10.  For a handle built with [very_verbose=True], [get_state] and
    [is_interlock_open] raise whatever the port does, and so do [turn_on]
    and [run_autostart]; when the device's answer is well formed the
    exception is the [NameError] of the logging branch of [get_state] and
    the [TypeError] of the logging branch of [is_interlock_open]. *)
Theorem very_verbose_status_queries_raise (s : world P) :
  very_verbose self = true ->
  (exists e s', get_state self s = (Raised e, s')) /\
  (exists e s', is_interlock_open self s = (Raised e, s')) /\
  (exists e s', turn_on self s = (Raised e, s')) /\
  (exists e s', run_autostart self s = (Raised e, s')) /\
  (forall answer p' code,
      replies (port s) "gom?" answer p' ->
      Py.int_of_str answer = Some code -> 0 <= code <= 6 ->
      fst (get_state self s) = Raised NameError) /\
  (forall answer p' flag,
      replies (port s) "ilk?" answer p' ->
      Py.int_of_str answer = Some flag -> flag = 0 \/ flag = 1 ->
      fst (is_interlock_open self s) = Raised TypeError).
Proof.
  intros VV.
  split; [apply get_state_never_returns; exact VV |].
  split; [apply is_interlock_open_never_returns; exact VV |].
  split; [| split; [| split]].
  - unfold turn_on.
    destruct (verbose self); cbn [when].
    + first [rewrite bind_print | rewrite bind_ret].
      destruct (is_interlock_open_never_returns
                  (World (port s) (Print (cobolt self "Turning on diode...")
                                     :: history s)) VV) as (e & s' & E).
      exists e, s'. rewrite (bind_raised _ _ _ _ _ E). reflexivity.
    + first [rewrite bind_print | rewrite bind_ret].
      destruct (is_interlock_open_never_returns s VV) as (e & s' & E).
      exists e, s'. rewrite (bind_raised _ _ _ _ _ E). reflexivity.
  - unfold run_autostart.
    destruct (verbose self); cbn [when].
    + first [rewrite bind_print | rewrite bind_ret].
      destruct (is_interlock_open_never_returns
                  (World (port s) (Print (cobolt self "Powering laser on")
                                     :: history s)) VV) as (e & s' & E).
      exists e, s'. rewrite (bind_raised _ _ _ _ _ E). reflexivity.
    + first [rewrite bind_print | rewrite bind_ret].
      destruct (is_interlock_open_never_returns s VV) as (e & s' & E).
      exists e, s'. rewrite (bind_raised _ _ _ _ _ E). reflexivity.
  - intros answer p' code R I C.
    destruct (send_replies self "gom?" answer s p' eq_refl R) as (s1 & E & _ & _).
    unfold get_state. rewrite (bind_returned _ _ _ _ _ E), I.
    cbn [or_raise bind ret assert].
    assert ((0 <=? code) && (code <=? 6) = true) as ->
      by (apply andb_true_iff; split; apply Z.leb_le; lia).
    rewrite VV. reflexivity.
  - intros answer p' flag R I F.
    destruct (is_interlock_open_run s answer p' flag R I F) as (s1 & E & _ & _).
    rewrite E, VV. reflexivity.
Qed.

(** C1.  When the port answers the interlock query with 1 (open),
    [turn_on] and [run_autostart] raise and the interlock query is the only
    payload they have written: neither [l1] nor [@cob1] is sent.  Unless
    the handle is very verbose the exception is the [RuntimeError] of the
    interlock check. *)
Theorem open_interlock_blocks_emission (s : world P) answer p' :
  replies (port s) "ilk?" answer p' ->
  Py.int_of_str answer = Some 1 ->
  (exists e s',
      turn_on self s = (Raised e, s') /\ extends s s' [wire "ilk?"] /\
      (very_verbose self = false ->
       e = RuntimeError "Could not turn on laser diode")) /\
  (exists e s',
      run_autostart self s = (Raised e, s') /\ extends s s' [wire "ilk?"] /\
      (very_verbose self = false ->
       e = RuntimeError "Could not turn on laser diode")).
Proof.
  intros R Hi.
  split.
  - unfold turn_on. destruct (verbose self); cbn [when].
    + first [rewrite bind_print | rewrite bind_ret].
      destruct (is_interlock_open_run _ answer p' 1
                  (replies_after_print s (cobolt self "Turning on diode...") _ _ _ R)
                  Hi (or_intror eq_refl)) as (s1 & E & _ & X).
      destruct (very_verbose self).
      * exists TypeError, s1. rewrite (bind_raised _ _ _ _ _ E).
        split; [reflexivity |]. split; [| discriminate].
        replace [wire "ilk?"] with ([] ++ [wire "ilk?"]) by reflexivity.
        eapply extends_trans; [| exact X]. apply (extends_event s). exact I.
      * eexists. eexists. rewrite (bind_returned _ _ _ _ _ E).
        split; [reflexivity |]. split; [| reflexivity].
        replace [wire "ilk?"] with (([] ++ [wire "ilk?"]) ++ []) by reflexivity.
        eapply extends_trans; [| apply (extends_event s1); exact I].
        eapply extends_trans; [| exact X]. apply (extends_event s). exact I.
    + first [rewrite bind_print | rewrite bind_ret].
      destruct (is_interlock_open_run _ answer p' 1 R Hi (or_intror eq_refl))
        as (s1 & E & _ & X).
      destruct (very_verbose self).
      * exists TypeError, s1. rewrite (bind_raised _ _ _ _ _ E).
        split; [reflexivity |]. split; [exact X | discriminate].
      * eexists. eexists. rewrite (bind_returned _ _ _ _ _ E).
        split; [reflexivity |]. split; [| reflexivity].
        replace [wire "ilk?"] with ([wire "ilk?"] ++ []) by reflexivity.
        eapply extends_trans; [exact X |]. apply (extends_event s1). exact I.
  - unfold run_autostart. destruct (verbose self); cbn [when].
    + first [rewrite bind_print | rewrite bind_ret].
      destruct (is_interlock_open_run _ answer p' 1
                  (replies_after_print s (cobolt self "Powering laser on") _ _ _ R)
                  Hi (or_intror eq_refl)) as (s1 & E & _ & X).
      destruct (very_verbose self).
      * exists TypeError, s1. rewrite (bind_raised _ _ _ _ _ E).
        split; [reflexivity |]. split; [| discriminate].
        replace [wire "ilk?"] with ([] ++ [wire "ilk?"]) by reflexivity.
        eapply extends_trans; [| exact X]. apply (extends_event s). exact I.
      * eexists. eexists. rewrite (bind_returned _ _ _ _ _ E).
        split; [reflexivity |]. split; [| reflexivity].
        replace [wire "ilk?"] with (([] ++ [wire "ilk?"]) ++ []) by reflexivity.
        eapply extends_trans; [| apply (extends_event s1); exact I].
        eapply extends_trans; [| exact X]. apply (extends_event s). exact I.
    + first [rewrite bind_print | rewrite bind_ret].
      destruct (is_interlock_open_run _ answer p' 1 R Hi (or_intror eq_refl))
        as (s1 & E & _ & X).
      destruct (very_verbose self).
      * exists TypeError, s1. rewrite (bind_raised _ _ _ _ _ E).
        split; [reflexivity |]. split; [exact X | discriminate].
      * eexists. eexists. rewrite (bind_returned _ _ _ _ _ E).
        split; [reflexivity |]. split; [| reflexivity].
        replace [wire "ilk?"] with ([wire "ilk?"] ++ []) by reflexivity.
        eapply extends_trans; [exact X |]. apply (extends_event s1). exact I.
Qed.

End Status.

(** * Shutdown and configuration *)

Section Configuration.

Context {P : Type} {T : Transport P}.
Variable self : Laser.
Local Open Scope list_scope.

(** [close] after [turn_off].  If [turn_off] raises, [close] raises the
    same exception in the world [turn_off] left, in which the port is
    released only if it already was before the call.  If [turn_off]
    returns, [close] releases the port next: the release is the one port
    event added to those of [turn_off]. *)
Lemma close_follows_turn_off (s : world P) o s1 :
  turn_off self s = (o, s1) ->
  closed s1 = closed s /\
  match o with
  | Raised e => close self s = (Raised e, s1)
  | Returned _ =>
      exists s', close self s = (Returned tt, s') /\
                 port s' = port_close (port s1) /\
                 port_events s' = port_events s1 ++ [Close] /\
                 closed s' = true
  end.
Proof.
  intros H. split.
  - destruct (turn_off_performs self s o s1 H) as (l & [_ C] & _). exact C.
  - unfold close. destruct o as [[] | e].
    + rewrite (bind_returned _ _ _ _ _ H).
      destruct (verbose self).
      * exists (World (port_close (port s1))
                  (Print (cobolt self "Closing") :: Close :: history s1)).
        split; [reflexivity |]. split; [reflexivity |].
        split; [| reflexivity].
        rewrite (port_events_cons _ (port s1)), (port_events_cons _ (port s1)).
        cbn [app]. rewrite app_nil_r. destruct s1; reflexivity.
      * exists (World (port_close (port s1)) (Close :: history s1)).
        split; [reflexivity |]. split; [reflexivity |].
        split; [| reflexivity].
        rewrite (port_events_cons _ (port s1)). destruct s1; reflexivity.
    + apply bind_raised. exact H.
Qed.

Lemma when_supplied_digital_performs flag :
  performs (P := P)
    (when_supplied flag (set_digital_modulation_enable_state self))
    (flag_exchange "sdmes" "gdmes?" flag).
Proof.
  destruct flag; cbn [when_supplied];
    [apply set_digital_performs | apply performs_ret].
Qed.

Lemma when_supplied_analog_performs flag :
  performs (P := P)
    (when_supplied flag (set_analog_modulation_enable_state self))
    (flag_exchange "sames" "games?" flag).
Proof.
  destruct flag; cbn [when_supplied];
    [apply set_analog_performs | apply performs_ret].
Qed.

Lemma mode2command_some mode cmd :
  mode2command mode = Some cmd ->
  (mode = "continuous"%string /\ cmd = "cp"%string) \/
  (mode = "modulation"%string /\ cmd = "em"%string).
Proof.
  unfold mode2command.
  destruct (String.eqb_spec mode "continuous") as [-> | _].
  - intros H. inversion H. left. split; reflexivity.
  - destruct (String.eqb_spec mode "modulation") as [-> | _].
    + intros H. inversion H. right. split; reflexivity.
    + discriminate.
Qed.

Lemma mode2command_none mode :
  mode2command mode = None ->
  String.eqb mode "continuous" = false /\ String.eqb mode "modulation" = false.
Proof.
  unfold mode2command.
  destruct (String.eqb mode "continuous"); [discriminate |].
  destruct (String.eqb mode "modulation"); [discriminate |].
  split; reflexivity.
Qed.

Lemma set_power_for_performs mode power_mW :
  performs (P := P) (set_power_for self mode power_mW)
           (power_exchange mode power_mW).
Proof.
  unfold set_power_for, power_exchange.
  destruct (String.eqb mode "continuous").
  - apply (set_power_setpoint_performs self power_mW).
  - destruct (String.eqb mode "modulation").
    + apply (set_modulation_power_setpoint_performs self power_mW).
    + apply performs_ret.
Qed.

Lemma get_on_off_state_extends (s : world P) o s' :
  get_on_off_state self s = (o, s') -> extends s s' [wire "l?"].
Proof.
  intros H. unfold get_on_off_state in H. run_inv H; chain; assumption.
Qed.

Lemma get_state_extends (s : world P) o s' :
  get_state self s = (o, s') -> extends s s' [wire "gom?"].
Proof.
  intros H. unfold get_state in H. run_inv H; chain; assumption.
Qed.

Ltac finish_shape :=
  chain;
  eexists; split; [eassumption |];
  split; [eexists; reflexivity |];
  intros; first [ left; reflexivity | right; reflexivity | congruence ].

(** The payloads of [set_mode]: the mode command, the emission query and,
    last, the state query, which a run that returns may have skipped. *)
Lemma set_mode_shape mode cmd (s : world P) o s' :
  mode2command mode = Some cmd ->
  set_mode self mode s = (o, s') ->
  exists l, extends s s' l /\
            prefix_of l [wire cmd; wire "l?"; wire "gom?"] /\
            (o = Returned tt ->
             l = [wire cmd; wire "l?"] \/
             l = [wire cmd; wire "l?"; wire "gom?"]).
Proof.
  intros M H. unfold set_mode in H. rewrite M in H.
  destruct (mode2command_some mode cmd M) as [[-> ->] | [-> ->]];
    run_inv H;
    repeat match goal with
      | G : get_on_off_state _ _ = _ |- _ => apply get_on_off_state_extends in G
      | G : get_state _ _ = _ |- _ => apply get_state_extends in G
      end;
    finish_shape.
Qed.

Lemma performs_then {A B} (c : io P A) (k : A -> io P B) F (s : world P) o s' :
  performs c F -> bind c k s = (o, s') ->
  (exists a s1, extends s s1 F /\ k a s1 = (o, s')) \/
  (exists e l, o = Raised e /\ extends s s' l /\ prefix_of l F).
Proof.
  intros Hc H. apply bind_inv in H.
  destruct H as [(a & s1 & R & K) | (e & R & ->)].
  - destruct (Hc _ _ _ R) as (l & X & _ & E).
    rewrite (E (ex_intro _ a eq_refl)) in X. left. exists a, s1. split; assumption.
  - destruct (Hc _ _ _ R) as (l & X & Pf & _). right. exists e, l.
    split; [reflexivity |]. split; assumption.
Qed.

(** The payloads of [configure].  For a valid mode, whatever the outcome
    of [configure], what it has written is a prefix of: the digital flag
    update and its read-back query (if the flag was supplied), the analog
    flag update and its read-back query (if supplied), the set point update
    of the target mode and its read-back query, and last the mode command
    with the emission query and the state query.  When [configure]
    returns, all of them were written, the state query only if the laser
    reported emission on. *)
Lemma configure_writes mode cmd power_mW digital analog (s : world P) o s' :
  mode2command mode = Some cmd ->
  configure self mode power_mW digital analog s = (o, s') ->
  exists l,
    extends s s' l /\
    prefix_of l (preparation mode power_mW digital analog
                   ++ [wire cmd; wire "l?"; wire "gom?"]) /\
    (o = Returned tt ->
     l = preparation mode power_mW digital analog ++ [wire cmd; wire "l?"] \/
     l = preparation mode power_mW digital analog
           ++ [wire cmd; wire "l?"; wire "gom?"]).
Proof.
  intros M H. unfold configure in H. unfold preparation.
  set (F1 := flag_exchange "sdmes" "gdmes?" digital).
  set (F2 := flag_exchange "sames" "games?" analog).
  set (F3 := power_exchange mode power_mW).
  destruct (performs_then _ _ F1 _ _ _ (when_supplied_digital_performs digital) H)
    as [(u1 & s1 & X1 & K1) | (e & l & -> & X & Pf)]; clear H.
  - destruct (performs_then _ _ F2 _ _ _ (when_supplied_analog_performs analog) K1)
      as [(u2 & s2 & X2 & K2) | (e & l & -> & X & Pf)]; clear K1.
    + destruct (performs_then _ _ F3 _ _ _ (set_power_for_performs mode power_mW) K2)
        as [(u3 & s3 & X3 & K3) | (e & l & -> & X & Pf)]; clear K2.
      * destruct (set_mode_shape mode cmd s3 o s' M K3) as (l & X4 & Pf & R).
        exists (F1 ++ F2 ++ F3 ++ l). split.
        -- eapply extends_trans; [exact X1 |].
           eapply extends_trans; [exact X2 |].
           eapply extends_trans; [exact X3 | exact X4].
        -- rewrite <- !app_assoc. split.
           ++ repeat apply prefix_of_app. exact Pf.
           ++ intros O. destruct (R O) as [-> | ->]; [left | right]; reflexivity.
      * exists (F1 ++ F2 ++ l). split.
        -- eapply extends_trans; [exact X1 |].
           eapply extends_trans; [exact X2 | exact X].
        -- rewrite <- !app_assoc. split; [| discriminate].
           repeat apply prefix_of_app. apply prefix_of_weaken. exact Pf.
    + exists (F1 ++ l). split.
      * eapply extends_trans; [exact X1 | exact X].
      * rewrite <- !app_assoc. split; [| discriminate].
        apply prefix_of_app. apply prefix_of_weaken. exact Pf.
  - exists l. split; [exact X |]. rewrite <- !app_assoc.
    split; [| discriminate]. apply prefix_of_weaken. exact Pf.
Qed.

(** C9.  For a mode that is neither ['continuous'] nor ['modulation'],
    [configure] always raises.  It runs the supplied flag updates and then
    stops: what it has written is a prefix of the flag updates alone (no
    set point command, no mode command).  When both flag updates return,
    the exception is the [AssertionError] of [set_mode] and the world is
    left exactly as the flag updates made it: nothing is undone. *)
Theorem invalid_mode_fails_after_the_flags mode power_mW digital analog
    (s : world P) :
  mode2command mode = None ->
  exists e s',
    configure self mode power_mW digital analog s = (Raised e, s') /\
    (exists l,
        extends s s' l /\
        prefix_of l (flag_exchange "sdmes" "gdmes?" digital
                       ++ flag_exchange "sames" "games?" analog)) /\
    (forall s1 s2,
        when_supplied digital (set_digital_modulation_enable_state self) s
          = (Returned tt, s1) ->
        when_supplied analog (set_analog_modulation_enable_state self) s1
          = (Returned tt, s2) ->
        e = AssertionError /\ s' = s2 /\
        extends s s' (flag_exchange "sdmes" "gdmes?" digital
                        ++ flag_exchange "sames" "games?" analog)).
Proof.
  intros M. destruct (mode2command_none mode M) as [N1 N2].
  unfold configure, set_power_for, set_mode. rewrite N1, N2, M.
  set (F1 := flag_exchange "sdmes" "gdmes?" digital).
  set (F2 := flag_exchange "sames" "games?" analog).
  destruct (when_supplied digital (set_digital_modulation_enable_state self) s)
    as [[[] | e1] s1] eqn:R1.
  - destruct (when_supplied_digital_performs digital _ _ _ R1) as (l1 & X1 & _ & E1).
    rewrite (E1 (ex_intro _ tt eq_refl)) in X1. fold F1 in X1.
    rewrite (bind_returned _ _ _ _ _ R1).
    destruct (when_supplied analog (set_analog_modulation_enable_state self) s1)
      as [[[] | e2] s2] eqn:R2.
    + destruct (when_supplied_analog_performs analog _ _ _ R2) as (l2 & X2 & _ & E2).
      rewrite (E2 (ex_intro _ tt eq_refl)) in X2. fold F2 in X2.
      rewrite (bind_returned _ _ _ _ _ R2).
      exists AssertionError, s2. split; [reflexivity |].
      pose proof (extends_trans _ _ _ _ _ X1 X2) as X. split.
      * exists (F1 ++ F2). split; [exact X | apply prefix_of_refl].
      * intros t1 t2 Q1 Q2. inversion Q1; subst t1. rewrite R2 in Q2.
        inversion Q2; subst t2. split; [reflexivity |]. split; [reflexivity | exact X].
    + destruct (when_supplied_analog_performs analog _ _ _ R2) as (l2 & X2 & Pf & _).
      rewrite (bind_raised _ _ _ _ _ R2).
      exists e2, s2. split; [reflexivity |]. split.
      * exists (F1 ++ l2). split; [eapply extends_trans; eassumption |].
        apply prefix_of_app. exact Pf.
      * intros t1 t2 Q1 Q2. inversion Q1; subst t1. rewrite R2 in Q2.
        discriminate Q2.
  - destruct (when_supplied_digital_performs digital _ _ _ R1) as (l1 & X1 & Pf & _).
    rewrite (bind_raised _ _ _ _ _ R1).
    exists e1, s1. split; [reflexivity |]. split.
    + exists l1. split; [exact X1 | apply prefix_of_weaken; exact Pf].
    + intros t1 t2 Q1 _. discriminate Q1.
Qed.

End Configuration.

(** * The transaction primitive and the mode switch *)

Section Transactions.

Context {P : Type} {T : Transport P}.
Variable self : Laser.
Local Open Scope list_scope.

Lemma encode_non_ascii cmd :
  Py.all_chars Py.is_ascii cmd = false ->
  Py.encode_ascii (cmd ++ Py.CRLF)%string = None.
Proof.
  intros A. unfold Py.encode_ascii. rewrite all_chars_app, A. reflexivity.
Qed.

Lemma port_events_send_history (s : world P) (p : P) data got n :
  port_events (World p (send_history self data got n (history s))) =
  port_events s ++ [Write data; ReadUntil terminator got; InWaiting n].
Proof.
  unfold send_history.
  rewrite (port_events_cons _ p). cbn [app].
  assert (forall (b : bool) text h,
             port_events (World p ((if b then [Print text] else []) ++ h)) =
             port_events (World p h)) as Opt.
  { intros b text h. destruct b; cbn [app]; [| reflexivity].
    rewrite (port_events_cons _ p). apply app_nil_r. }
  rewrite Opt, (port_events_cons _ p), (port_events_cons _ p), Opt.
  rewrite <- !app_assoc. reflexivity.
Qed.

(** C5, as the code has it.  A command with a character outside ASCII
    makes [_send] raise [UnicodeEncodeError] before anything is written.
    For any other command, [_send] writes the command followed by CR LF,
    reads up to CR LF, then looks at the pending bytes, in that order and
    nothing else; it raises [AssertionError] whenever bytes are pending,
    [UnicodeDecodeError] when the response is not ASCII, and otherwise
    returns the response stripped of every leading and trailing CR and LF
    character ([answer_of]). *)
Theorem send_is_one_transaction cmd (s : world P) :
  match Py.encode_ascii (cmd ++ Py.CRLF)%string with
  | None => _send self cmd s = (Raised UnicodeEncodeError, s)
  | Some data =>
      data = wire cmd /\
      forall got p',
        port_read_until (port_write (port s) data) terminator = (got, p') ->
        exists s',
          _send self cmd s = (answer_of got (port_in_waiting p'), s') /\
          port s' = p' /\
          port_events s' =
            port_events s
              ++ [Write data; ReadUntil terminator got;
                  InWaiting (port_in_waiting p')]
  end.
Proof.
  destruct (Py.all_chars Py.is_ascii cmd) eqn:A.
  - rewrite (encode_wire cmd A). split; [reflexivity |].
    intros got p' E. eexists. split; [apply (send_run self cmd s got p' A E) |].
    split; [reflexivity | apply port_events_send_history].
  - rewrite (encode_non_ascii cmd A). unfold _send.
    rewrite (encode_non_ascii cmd A). reflexivity.
Qed.

Lemma get_on_off_state_run (s : world P) status p' v :
  replies (port s) "l?" status p' ->
  Py.int_of_str status = Some v -> v = 0 \/ v = 1 ->
  exists s1,
    get_on_off_state self s =
      (Returned (if (v =? 0)%Z then "OFF"%string else "ON"%string), s1) /\
    port s1 = p' /\ extends s s1 [wire "l?"].
Proof.
  intros R Hi V.
  destruct (get_on_off_state self s) as [o s1] eqn:H.
  pose proof (get_on_off_state_extends self s o s1 H) as X.
  destruct (send_replies self "l?" status s p' eq_refl R) as (t & E & Pt & _).
  unfold get_on_off_state in H. rewrite (bind_returned _ _ _ _ _ E), Hi in H.
  cbn [or_raise bind ret assert] in H.
  assert ((v =? 0) || (v =? 1) = true) as B
    by (destruct V as [-> | ->]; reflexivity).
  rewrite B in H. exists s1.
  destruct (very_verbose self); cbn [when print emit] in H;
    inversion H; subst; clear H;
    (split; [reflexivity |]); (split; [reflexivity | exact X]).
Qed.

Lemma get_state_run (s : world P) answer p' code :
  very_verbose self = false ->
  replies (port s) "gom?" answer p' ->
  Py.int_of_str answer = Some code -> 0 <= code <= 6 ->
  exists s1,
    get_state self s = (Returned (state_name code), s1) /\
    port s1 = p' /\ extends s s1 [wire "gom?"].
Proof.
  intros VV R Hi C.
  destruct (send_replies self "gom?" answer s p' eq_refl R) as (s1 & E & Pt & X).
  exists s1. split; [| split; assumption].
  unfold get_state. rewrite (bind_returned _ _ _ _ _ E), Hi, VV.
  cbn [or_raise bind ret assert].
  assert ((0 <=? code) && (code <=? 6) = true) as ->
    by (apply andb_true_iff; split; apply Z.leb_le; lia).
  reflexivity.
Qed.

Lemma confirmation_test mode cmd code :
  mode2command mode = Some cmd -> 0 <= code <= 6 ->
  String.eqb (Py.drop_first (state_name code)) (Py.drop_first mode) =
  mode_confirmed mode code.
Proof.
  intros M C.
  assert (code = 0 \/ code = 1 \/ code = 2 \/ code = 3 \/ code = 4 \/
          code = 5 \/ code = 6) as Cases by lia.
  destruct (mode2command_some mode cmd M) as [[-> _] | [-> _]];
    repeat (destruct Cases as [-> | Cases]; [reflexivity |]);
    subst; reflexivity.
Qed.


End Transactions.

(** * The power set points *)

Section SetPoints.

Context {P : Type} {T : Transport P}.
Variable self : Laser.
Local Open Scope list_scope.

Lemma thousand_binary64 : PyFloat.is_binary64 thousand = true.
Proof. vm_compute. reflexivity. Qed.

Lemma in_range_finite power_mW :
  power_in_range self power_mW = true ->
  exists neg k, power_mW = PyFloat.Fin neg k.
Proof.
  unfold power_in_range. destruct power_mW as [| neg | neg k].
  - discriminate.
  - destruct neg; discriminate.
  - intros _. exists neg, k. reflexivity.
Qed.

Lemma get_power_setpoint_inv (s : world P) r s' :
  get_power_setpoint self s = (Returned r, s') ->
  exists text watts s1,
    _send self "p?" s = (Returned text, s1) /\
    PyFloat.float_of_str text = Some watts /\
    r = PyFloat.fmul watts thousand.
Proof.
  intros H. unfold get_power_setpoint in H. apply bind_inv in H.
  destruct H as [(text & s1 & R & K) | (e & _ & D)]; [| discriminate D].
  exists text. destruct (PyFloat.float_of_str text) as [watts |];
    [| discriminate K].
  exists watts, s1. split; [exact R |]. split; [reflexivity |].
  cbn [or_raise] in K. rewrite bind_ret in K.
  destruct (very_verbose self); cbn [when] in K;
    [rewrite bind_print in K |]; inversion K; reflexivity.
Qed.

Lemma get_power_setpoint_run (s : world P) text watts p' :
  replies (port s) "p?" text p' ->
  PyFloat.float_of_str text = Some watts ->
  exists s', get_power_setpoint self s =
             (Returned (PyFloat.fmul watts thousand), s').
Proof.
  intros R F.
  destruct (send_replies self "p?" text s p' eq_refl R) as (s1 & E & _ & _).
  unfold get_power_setpoint. rewrite (bind_returned _ _ _ _ _ E), F.
  cbn [or_raise]. rewrite bind_ret.
  destruct (very_verbose self); cbn [when];
    [rewrite bind_print | rewrite bind_ret]; eexists; reflexivity.
Qed.

Lemma get_modulation_power_setpoint_inv (s : world P) r s' :
  get_modulation_power_setpoint self s = (Returned r, s') ->
  exists text s1,
    _send self "glmp?" s = (Returned text, s1) /\
    PyFloat.float_of_str text = Some r.
Proof.
  intros H. unfold get_modulation_power_setpoint in H. apply bind_inv in H.
  destruct H as [(text & s1 & R & K) | (e & _ & D)]; [| discriminate D].
  exists text, s1. split; [exact R |].
  destruct (PyFloat.float_of_str text) as [x |]; [| discriminate K].
  cbn [or_raise] in K. rewrite bind_ret in K.
  destruct (very_verbose self); cbn [when] in K;
    [rewrite bind_print in K |]; inversion K; reflexivity.
Qed.

Lemma get_modulation_power_setpoint_run (s : world P) text r p' :
  replies (port s) "glmp?" text p' ->
  PyFloat.float_of_str text = Some r ->
  exists s', get_modulation_power_setpoint self s = (Returned r, s').
Proof.
  intros R F.
  destruct (send_replies self "glmp?" text s p' eq_refl R) as (s1 & E & _ & _).
  unfold get_modulation_power_setpoint. rewrite (bind_returned _ _ _ _ _ E), F.
  cbn [or_raise]. rewrite bind_ret.
  destruct (very_verbose self); cbn [when];
    [rewrite bind_print | rewrite bind_ret]; eexists; reflexivity.
Qed.

(** What a returning [set_power_setpoint] has gone through. *)
Lemma set_power_setpoint_inv power_mW (s s' : world P) :
  set_power_setpoint self power_mW s = (Returned tt, s') ->
  exists watts asked readback got s1 s2,
    power_in_range self power_mW = true /\
    PyFloat.fdiv power_mW thousand = Some watts /\
    extends s s1 [wire ("p " ++ PyFloat.fmt_f 4 watts)] /\
    PyFloat.py_round 4 power_mW = Some asked /\
    get_power_setpoint self s1 = (Returned readback, s2) /\
    PyFloat.py_round 4 readback = Some got /\
    PyFloat.feq asked got = true /\
    extends s2 s' [].
Proof.
  intros H. unfold set_power_setpoint in H.
  run_inv H; chain;
    do 6 eexists;
    repeat (split; [first [reflexivity | eassumption] |]); eassumption.
Qed.

Lemma set_modulation_power_setpoint_inv power_mW (s s' : world P) :
  set_modulation_power_setpoint self power_mW s = (Returned tt, s') ->
  exists asked readback got s1 s2,
    power_in_range self power_mW = true /\
    extends s s1 [wire ("slmp " ++ PyFloat.fmt_f 1 power_mW)] /\
    PyFloat.py_round 4 power_mW = Some asked /\
    get_modulation_power_setpoint self s1 = (Returned readback, s2) /\
    PyFloat.py_round 4 readback = Some got /\
    PyFloat.feq asked got = true /\
    extends s2 s' [].
Proof.
  intros H. unfold set_modulation_power_setpoint in H.
  run_inv H; chain;
    do 5 eexists;
    repeat (split; [first [reflexivity | eassumption] |]); eassumption.
Qed.


(** C2.  A [set_power_setpoint] that returns has sent the power converted
    to watts ([power_mW / 1000], four decimals) and then queried the set
    point; the value its [get_power_setpoint] made of the answer (watts
    times 1000) is within [10^-4] mW of [power_mW], and a
    [get_power_setpoint] that follows returns that value again when the
    port repeats the answer.  The same holds for
    [set_modulation_power_setpoint] and [get_modulation_power_setpoint],
    where the power travels in milliwatts both ways (one decimal on
    send). *)
Theorem setpoint_round_trip power_mW :
  PyFloat.is_binary64 power_mW = true ->
  (forall s s' : world P,
   set_power_setpoint self power_mW s = (Returned tt, s') ->
   exists watts text answered s1 s2,
     PyFloat.fdiv power_mW thousand = Some watts /\
     extends s s' [wire ("p " ++ PyFloat.fmt_f 4 watts); wire "p?"] /\
     _send self "p?" s1 = (Returned text, s2) /\
     PyFloat.float_of_str text = Some answered /\
     PyFloat.within_1e4 power_mW (PyFloat.fmul answered thousand) /\
     forall p',
       replies (port s') "p?" text p' ->
       exists s'', get_power_setpoint self s' =
                   (Returned (PyFloat.fmul answered thousand), s'')) /\
  (forall s s' : world P,
   set_modulation_power_setpoint self power_mW s = (Returned tt, s') ->
   exists text answered s1 s2,
     extends s s' [wire ("slmp " ++ PyFloat.fmt_f 1 power_mW); wire "glmp?"] /\
     _send self "glmp?" s1 = (Returned text, s2) /\
     PyFloat.float_of_str text = Some answered /\
     PyFloat.within_1e4 power_mW answered /\
     forall p',
       replies (port s') "glmp?" text p' ->
       exists s'', get_modulation_power_setpoint self s' =
                   (Returned answered, s'')).
Proof.
  intros B. split; intros s s' H.
  - destruct (set_power_setpoint_inv power_mW s s' H)
      as (watts & asked & readback & got & s1 & s2
          & Rg & D & X1 & Ra & G & Rr & E & X2).
    destruct (get_power_setpoint_inv s1 readback s2 G)
      as (text & answered & t & Sd & F & ->).
    exists watts, text, answered, s1, t.
    split; [exact D |]. split.
    + pose proof (get_power_setpoint_performs self s1 _ s2 G) as (l & Xg & _ & L).
      rewrite (L (ex_intro _ _ eq_refl)) in Xg.
      exact (extends_trans _ _ _ _ _ (extends_trans _ _ _ _ _ X1 Xg) X2).
    + split; [exact Sd |]. split; [exact F |]. split.
      * apply (PyFloatFacts.round4_agree _ _ asked got B); try assumption.
        -- apply PyFloatFacts.fmul_binary64;
             [exact (PyFloatFacts.float_of_str_binary64 _ _ F)
             | exact thousand_binary64].
        -- exact (in_range_finite _ Rg).
      * intros p' R. exact (get_power_setpoint_run s' text answered p' R F).
  - destruct (set_modulation_power_setpoint_inv power_mW s s' H)
      as (asked & readback & got & s1 & s2 & Rg & X1 & Ra & G & Rr & E & X2).
    destruct (get_modulation_power_setpoint_inv s1 readback s2 G)
      as (text & t & Sd & F).
    exists text, readback, s1, t.
    split.
    + pose proof (get_modulation_power_setpoint_performs self s1 _ s2 G)
        as (l & Xg & _ & L).
      rewrite (L (ex_intro _ _ eq_refl)) in Xg.
      exact (extends_trans _ _ _ _ _ (extends_trans _ _ _ _ _ X1 Xg) X2).
    + split; [exact Sd |]. split; [exact F |]. split.
      * apply (PyFloatFacts.round4_agree _ _ asked got B); try assumption.
        -- exact (PyFloatFacts.float_of_str_binary64 _ _ F).
        -- exact (in_range_finite _ Rg).
      * intros p' R.
        exact (get_modulation_power_setpoint_run s' text readback p' R F).
Qed.

End SetPoints.

(** * Runs on a scripted port *)

Ltac script_replies :=
  unfold replies; do 2 eexists;
  split; [reflexivity | split; [reflexivity | split; reflexivity]].

(** C4.  The device answers the fault query with [3]: [get_fault] decodes
    the interlock error and hands [None] to its caller. *)
Lemma get_fault_returns_no_fault :
  fault_name "3" = Some "interlock error"%string /\
  fst (get_fault (Script.laser false) (Script.start ["3"%string]))
  = Returned None.
Proof. split; reflexivity. Qed.


(** C5, against the claim.  A response that ends in CR CR LF comes back
    without the carriage return that precedes its terminator, and a
    command with a character outside ASCII is not written at all. *)
Lemma send_strips_more_and_writes_ascii_only :
  let response := ("OK" ++ String Py.CR Py.CRLF)%string in
  let s := World (Script.Port [(list_byte_of_string response, 0%N)] 0 [] false)
                 [] in
  let odd := String (ascii_of_nat 233) EmptyString in
  without_terminator response = ("OK" ++ String Py.CR EmptyString)%string /\
  fst (_send (Script.laser false) "l?" s) = Returned "OK"%string /\
  fst (_send (Script.laser false) "l?" s)
    <> Returned (without_terminator response) /\
  _send (Script.laser false) odd (Script.start [])
    = (Raised UnicodeEncodeError, Script.start []).
Proof.
  cbv zeta. split; [reflexivity |]. split; [reflexivity |].
  split; [| reflexivity]. vm_compute. discriminate.
Qed.

Lemma open_interlock_witness :
  exists e s',
    turn_on (Script.laser false) (Script.start ["1"%string]) = (Raised e, s') /\
    extends (Script.start ["1"%string]) s' [wire "ilk?"] /\
    (very_verbose (Script.laser false) = false ->
     e = RuntimeError "Could not turn on laser diode").
Proof.
  refine (proj1 (open_interlock_blocks_emission (Script.laser false)
                   (Script.start ["1"%string]) "1" _ _ _)).
  - script_replies.
  - reflexivity.
Defined.

Lemma out_of_range_power_witness :
  set_power_setpoint (Script.laser false) (PyFloat.Fin false 0)
                     (Script.start [])
  = (Raised AssertionError, Script.start []) /\
  set_modulation_power_setpoint (Script.laser false) (PyFloat.Fin false 0)
                                (Script.start [])
  = (Raised AssertionError, Script.start []).
Proof.
  apply (out_of_range_power_is_refused (Script.laser false) (Script.start [])
           (PyFloat.Fin false 0)).
  left. reflexivity.
Defined.

Lemma very_verbose_witness :
  exists e s', get_state (Script.laser true) (Script.start ["2"%string])
               = (Raised e, s').
Proof.
  exact (proj1 (very_verbose_status_queries_raise (Script.laser true)
                  (Script.start ["2"%string]) eq_refl)).
Defined.

Lemma send_witness :
  exists s',
    _send (Script.laser false) "l?" (Script.start ["1"%string])
    = (Returned "1"%string, s') /\
    port_events s' =
      [Write (wire "l?"); ReadUntil terminator (wire "1"); InWaiting 0].
Proof.
  assert (port_read_until
            (port_write (port (Script.start ["1"%string])) (wire "l?"))
            terminator
          = (wire "1", Script.Port [] 0 [wire "l?"] false)) as R
    by reflexivity.
  destruct (proj2 (send_is_one_transaction (Script.laser false) "l?"
                     (Script.start ["1"%string])) _ _ R)
    as (s' & E & _ & Ev).
  exists s'. split; [exact E | exact Ev].
Defined.

Lemma invalid_mode_witness :
  exists e s',
    configure (Script.laser false) "pulsed" (PyFloat.of_int 10)
              (Some true) None (Script.start ["OK"; "1"]%string)
    = (Raised e, s').
Proof.
  destruct (invalid_mode_fails_after_the_flags (Script.laser false) "pulsed"
              (PyFloat.of_int 10) (Some true) None
              (Script.start ["OK"; "1"]%string) eq_refl)
    as (e & s' & E & _).
  exists e, s'. exact E.
Defined.


Lemma setpoint_round_trip_witness :
  (exists answered,
      PyFloat.within_1e4 (PyFloat.of_int 1)
                         (PyFloat.fmul answered thousand)) /\
  (exists answered, PyFloat.within_1e4 (PyFloat.of_int 1) answered).
Proof.
  assert (PyFloat.is_binary64 (PyFloat.of_int 1) = true) as B
    by (vm_compute; reflexivity).
  assert (set_power_setpoint (Script.laser false) (PyFloat.of_int 1)
            (Script.start ["OK"; "0.001"]%string)
          = (Returned tt,
             snd (set_power_setpoint (Script.laser false) (PyFloat.of_int 1)
                    (Script.start ["OK"; "0.001"]%string)))) as H1
    by (vm_compute; reflexivity).
  assert (set_modulation_power_setpoint (Script.laser false) (PyFloat.of_int 1)
            (Script.start ["OK"; "1.0"]%string)
          = (Returned tt,
             snd (set_modulation_power_setpoint (Script.laser false)
                    (PyFloat.of_int 1)
                    (Script.start ["OK"; "1.0"]%string)))) as H2
    by (vm_compute; reflexivity).
  split.
  - destruct (proj1 (setpoint_round_trip (Script.laser false)
                       (PyFloat.of_int 1) B) _ _ H1)
      as (watts & text & answered & s1 & s2 & _ & _ & _ & _ & W & _).
    exists answered. exact W.
  - destruct (proj2 (setpoint_round_trip (Script.laser false)
                       (PyFloat.of_int 1) B) _ _ H2)
      as (text & answered & s1 & s2 & _ & _ & _ & W & _).
    exists answered. exact W.
Defined.

(** * Further properties of the driver *)

Section Outcomes.

Context {P : Type} {T : Transport P}.
Variable self : Laser.
Local Open Scope list_scope.

Lemma verbose_print_then {B} text (k : unit -> io P B) (s : world P) :
  exists s0,
    bind (when (verbose self) (print text)) k s = k tt s0 /\
    port s0 = port s /\ extends s s0 [].
Proof.
  destruct (verbose self); cbn [when].
  - rewrite bind_print. eexists. split; [reflexivity |].
    split; [reflexivity |]. apply (extends_event s). exact I.
  - rewrite bind_ret. exists s. split; [reflexivity |].
    split; [reflexivity | apply extends_refl].
Qed.

Lemma verbose_print_last text (s : world P) :
  exists s',
    when (verbose self) (print text) s = (Returned tt, s') /\
    port s' = port s /\ extends s s' [].
Proof.
  destruct (verbose self); cbn [when].
  - eexists. split; [reflexivity |]. split; [reflexivity |].
    apply (extends_event s). exact I.
  - exists s. split; [reflexivity |].
    split; [reflexivity | apply extends_refl].
Qed.

Lemma accepted_then {B} c (k : unit -> io P B) (s : world P) :
  bind (when (negb (String.eqb "OK" "OK")) c) k s = k tt s.
Proof. reflexivity. Qed.

Lemma rejected_then {B} answer a e (k : unit -> io P B) (s : world P) :
  answer <> "OK"%string ->
  exists s',
    bind (when (negb (String.eqb answer "OK"))
            (bind (print2 a answer) (fun _ => raise e))) k s
    = (Raised e, s') /\
    port s' = port s /\ extends s s' [].
Proof.
  intros N. apply String.eqb_neq in N. rewrite N. cbn [negb when].
  eexists. split; [reflexivity |]. split; [reflexivity |].
  apply (extends_event s). exact I.
Qed.

Lemma extends_app_nil_l (s s0 s' : world P) l :
  extends s s0 [] -> extends s0 s' l -> extends s s' l.
Proof. intros X0 X. exact (extends_trans _ _ _ _ _ X0 X). Qed.

Lemma extends_app_nil_r (s s0 s' : world P) l :
  extends s s0 l -> extends s0 s' [] -> extends s s' l.
Proof.
  intros X X0. pose proof (extends_trans _ _ _ _ _ X X0) as H.
  rewrite app_nil_r in H. exact H.
Qed.

Lemma replies_port (s s0 : world P) cmd answer p' :
  port s0 = port s -> replies (port s) cmd answer p' ->
  replies (port s0) cmd answer p'.
Proof. intros ->. exact (fun H => H). Qed.

(** X1.  [turn_off] writes [l0] and, only when the device acknowledged it
    with [OK], the emission query.  Any other acknowledgement makes it
    raise the [RuntimeError] 'Could not disable laser emission' with
    nothing but [l0] written; after [OK] it returns when the laser reports
    emission off and raises [AssertionError] when it reports emission
    on. *)
Theorem turn_off_outcomes (s : world P) answer p1 :
  replies (port s) "l0" answer p1 ->
  (answer <> "OK"%string ->
   exists s',
     turn_off self s
     = (Raised (RuntimeError "Could not disable laser emission"), s') /\
     extends s s' [wire "l0"]) /\
  (answer = "OK"%string ->
   forall status p2 v,
     replies p1 "l?" status p2 ->
     Py.int_of_str status = Some v -> v = 0 \/ v = 1 ->
     exists s',
       turn_off self s
       = (if v =? 0 then Returned tt else Raised AssertionError, s') /\
       extends s s' [wire "l0"; wire "l?"]).
Proof.
  intros R1. unfold turn_off.
  destruct (verbose_print_then (cobolt self "Turning off diode...")
              (fun _ =>
                 bind (_send self "l0")
                   (fun answer =>
                      bind (when (negb (String.eqb answer "OK"))
                              (bind (print2 (cobolt self "") answer)
                                 (fun _ =>
                                    raise (RuntimeError
                                             "Could not disable laser emission"))))
                        (fun _ =>
                           bind (get_on_off_state self)
                             (fun status => assert (String.eqb status "OFF")))))
              s) as (s0 & -> & Pt0 & X0).
  destruct (send_replies self "l0" answer s0 p1 eq_refl
              (replies_port s s0 _ _ _ Pt0 R1)) as (s1 & E1 & Pt1 & X1).
  rewrite (bind_returned _ _ _ _ _ E1).
  pose proof (extends_app_nil_l _ _ _ _ X0 X1) as X01.
  split.
  - intros N.
    destruct (rejected_then answer (cobolt self "")
                (RuntimeError "Could not disable laser emission")
                (fun _ =>
                   bind (get_on_off_state self)
                     (fun status => assert (String.eqb status "OFF")))
                s1 N) as (s' & -> & _ & X2).
    exists s'. split; [reflexivity |]. exact (extends_app_nil_r _ _ _ _ X01 X2).
  - intros -> status p2 v R2 Hv V. rewrite accepted_then.
    rewrite <- Pt1 in R2.
    destruct (get_on_off_state_run self s1 status p2 v R2 Hv V)
      as (s2 & E2 & _ & X2).
    rewrite (bind_returned _ _ _ _ _ E2).
    exists s2. split.
    + destruct V as [-> | ->]; reflexivity.
    + exact (extends_trans _ _ _ _ _ X01 X2).
Qed.

(** X2.  [clear_fault] writes [cf] and returns exactly when the answer is
    [OK]; any other answer is an [AssertionError]. *)
Theorem clear_fault_outcome (s : world P) answer p' :
  replies (port s) "cf" answer p' ->
  exists s',
    clear_fault self s
    = (if String.eqb answer "OK" then Returned tt else Raised AssertionError,
       s') /\
    extends s s' [wire "cf"].
Proof.
  intros R. unfold clear_fault.
  destruct (send_replies self "cf" answer s p' eq_refl R) as (s1 & E & _ & X).
  rewrite (bind_returned _ _ _ _ _ E).
  destruct (String.eqb answer "OK"); cbn [assert].
  - rewrite bind_ret.
    destruct (verbose_print_last (cobolt self "Cleared fault") s1)
      as (s' & -> & _ & X1).
    exists s'. split; [reflexivity |]. exact (extends_app_nil_r _ _ _ _ X X1).
  - exists s1. split; [reflexivity | exact X].
Qed.

(** X3.  [get_fault] accepts exactly the response codes ['0'], ['1'],
    ['3'] and ['4']: for any other response it raises [AssertionError], and
    for these four it returns, the value returned being [None]. *)
Theorem get_fault_decoding (s : world P) code p' :
  replies (port s) "f?" code p' ->
  (fault_name code <> None <->
   code = "0"%string \/ code = "1"%string \/ code = "3"%string
   \/ code = "4"%string) /\
  fst (get_fault self s) =
    match fault_name code with
    | Some _ => Returned None
    | None => Raised AssertionError
    end.
Proof.
  intros R. split.
  - unfold fault_name.
    destruct (String.eqb_spec code "0");
      [split; [auto | discriminate] |].
    destruct (String.eqb_spec code "1");
      [split; [auto | discriminate] |].
    destruct (String.eqb_spec code "3");
      [split; [auto | discriminate] |].
    destruct (String.eqb_spec code "4");
      [split; [auto | discriminate] |].
    split; [intros H; contradiction H; reflexivity |].
    intros [H | [H | [H | H]]]; contradiction.
  - unfold get_fault.
    destruct (send_replies self "f?" code s p' eq_refl R) as (s1 & E & _ & _).
    rewrite (bind_returned _ _ _ _ _ E).
    destruct (fault_name code) as [fault |]; cbn [or_raise].
    + rewrite bind_ret. destruct (very_verbose self); reflexivity.
    + reflexivity.
Qed.


Lemma get_digital_run (s : world P) text p' v :
  replies (port s) "gdmes?" text p' ->
  Py.int_of_str text = Some v -> v = 0 \/ v = 1 ->
  exists s1,
    get_digital_modulation_enable_state self s = (Returned v, s1) /\
    port s1 = p' /\ extends s s1 [wire "gdmes?"].
Proof.
  intros R Hv V.
  destruct (get_digital_modulation_enable_state self s) as [o s1] eqn:H.
  pose proof (get_digital_performs self s o s1 H) as (l & X & _ & L).
  destruct (send_replies self "gdmes?" text s p' eq_refl R) as (t & E & Pt & _).
  unfold get_digital_modulation_enable_state in H.
  rewrite (bind_returned _ _ _ _ _ E), Hv in H.
  cbn [or_raise bind ret assert] in H.
  assert ((v =? 0) || (v =? 1) = true) as B
    by (destruct V as [-> | ->]; reflexivity).
  rewrite B in H. exists s1.
  destruct (very_verbose self); cbn [when print emit] in H;
    inversion H; subst; clear H;
    rewrite (L (ex_intro _ v eq_refl)) in X;
    (split; [reflexivity |]); (split; [reflexivity | exact X]).
Qed.

Lemma get_analog_run (s : world P) text p' v :
  replies (port s) "games?" text p' ->
  Py.int_of_str text = Some v -> v = 0 \/ v = 1 ->
  exists s1,
    get_analog_modulation_enable_state self s = (Returned v, s1) /\
    port s1 = p' /\ extends s s1 [wire "games?"].
Proof.
  intros R Hv V.
  destruct (get_analog_modulation_enable_state self s) as [o s1] eqn:H.
  pose proof (get_analog_performs self s o s1 H) as (l & X & _ & L).
  destruct (send_replies self "games?" text s p' eq_refl R) as (t & E & Pt & _).
  unfold get_analog_modulation_enable_state in H.
  rewrite (bind_returned _ _ _ _ _ E), Hv in H.
  cbn [or_raise bind ret assert] in H.
  assert ((v =? 0) || (v =? 1) = true) as B
    by (destruct V as [-> | ->]; reflexivity).
  rewrite B in H. exists s1.
  destruct (very_verbose self); cbn [when print emit] in H;
    inversion H; subst; clear H;
    rewrite (L (ex_intro _ v eq_refl)) in X;
    (split; [reflexivity |]); (split; [reflexivity | exact X]).
Qed.

Lemma flag_command_ascii setter enabled :
  Py.all_chars Py.is_ascii setter = true ->
  Py.all_chars Py.is_ascii (setter ++ " " ++ Py.fmt_d (Z.b2z enabled))%string
  = true.
Proof.
  intros A. rewrite all_chars_app, A. destruct enabled; reflexivity.
Qed.

(** X4.  A modulation flag setter writes its command and, only when the
    device acknowledged it with [OK], the matching flag query.  Any other
    acknowledgement makes it raise its [RuntimeError] with the command
    alone written; after [OK] it returns exactly when the flag read back
    equals the flag asked for, and raises [AssertionError] otherwise. *)
Theorem flag_update_outcomes enabled (s : world P) answer p1 :
  (replies (port s) ("sdmes " ++ Py.fmt_d (Z.b2z enabled)) answer p1 ->
   (answer <> "OK"%string ->
    exists s',
      set_digital_modulation_enable_state self enabled s
      = (Raised (RuntimeError "Unable to change digital modulation"), s') /\
      extends s s' [wire ("sdmes " ++ Py.fmt_d (Z.b2z enabled))]) /\
   (answer = "OK"%string ->
    forall text p2 v,
      replies p1 "gdmes?" text p2 ->
      Py.int_of_str text = Some v -> v = 0 \/ v = 1 ->
      exists s',
        set_digital_modulation_enable_state self enabled s
        = (if Z.b2z enabled =? v then Returned tt
           else Raised AssertionError, s') /\
        extends s s' [wire ("sdmes " ++ Py.fmt_d (Z.b2z enabled));
                      wire "gdmes?"])) /\
  (replies (port s) ("sames " ++ Py.fmt_d (Z.b2z enabled)) answer p1 ->
   (answer <> "OK"%string ->
    exists s',
      set_analog_modulation_enable_state self enabled s
      = (Raised (RuntimeError "Unable to change analog modulation"), s') /\
      extends s s' [wire ("sames " ++ Py.fmt_d (Z.b2z enabled))]) /\
   (answer = "OK"%string ->
    forall text p2 v,
      replies p1 "games?" text p2 ->
      Py.int_of_str text = Some v -> v = 0 \/ v = 1 ->
      exists s',
        set_analog_modulation_enable_state self enabled s
        = (if Z.b2z enabled =? v then Returned tt
           else Raised AssertionError, s') /\
        extends s s' [wire ("sames " ++ Py.fmt_d (Z.b2z enabled));
                      wire "games?"])).
Proof.
  split; intros R1.
  - unfold set_digital_modulation_enable_state.
    destruct (send_replies self _ answer s p1
                (flag_command_ascii "sdmes" enabled eq_refl) R1)
      as (s1 & E1 & Pt1 & X1).
    rewrite (bind_returned _ _ _ _ _ E1). split.
    + intros N.
      destruct (rejected_then answer (cobolt self "")
                  (RuntimeError "Unable to change digital modulation")
                  (fun _ =>
                     bind (get_digital_modulation_enable_state self)
                       (fun state =>
                          bind (assert (Z.b2z enabled =? state))
                            (fun _ =>
                               when (verbose self)
                                 (print (cobolt self
                                           "set digital modulation enabled flag")))))
                  s1 N) as (s' & -> & _ & X2).
      exists s'. split; [reflexivity |]. exact (extends_app_nil_r _ _ _ _ X1 X2).
    + intros -> text p2 v R2 Hv V. rewrite accepted_then.
      rewrite <- Pt1 in R2.
      destruct (get_digital_run s1 text p2 v R2 Hv V) as (s2 & E2 & _ & X2).
      rewrite (bind_returned _ _ _ _ _ E2).
      pose proof (extends_trans _ _ _ _ _ X1 X2) as X. cbn [app] in X.
      destruct (Z.b2z enabled =? v); cbn [assert].
      * rewrite bind_ret.
        destruct (verbose_print_last
                    (cobolt self "set digital modulation enabled flag") s2)
          as (s' & -> & _ & X3).
        exists s'. split; [reflexivity |].
        exact (extends_app_nil_r _ _ _ _ X X3).
      * exists s2. split; [reflexivity | exact X].
  - unfold set_analog_modulation_enable_state.
    destruct (send_replies self _ answer s p1
                (flag_command_ascii "sames" enabled eq_refl) R1)
      as (s1 & E1 & Pt1 & X1).
    rewrite (bind_returned _ _ _ _ _ E1). split.
    + intros N.
      destruct (rejected_then answer (cobolt self "")
                  (RuntimeError "Unable to change analog modulation")
                  (fun _ =>
                     bind (get_analog_modulation_enable_state self)
                       (fun state =>
                          bind (assert (Z.b2z enabled =? state))
                            (fun _ =>
                               when (verbose self)
                                 (print (cobolt self
                                           "set analog modulation enabled flag")))))
                  s1 N) as (s' & -> & _ & X2).
      exists s'. split; [reflexivity |]. exact (extends_app_nil_r _ _ _ _ X1 X2).
    + intros -> text p2 v R2 Hv V. rewrite accepted_then.
      rewrite <- Pt1 in R2.
      destruct (get_analog_run s1 text p2 v R2 Hv V) as (s2 & E2 & _ & X2).
      rewrite (bind_returned _ _ _ _ _ E2).
      pose proof (extends_trans _ _ _ _ _ X1 X2) as X. cbn [app] in X.
      destruct (Z.b2z enabled =? v); cbn [assert].
      * rewrite bind_ret.
        destruct (verbose_print_last
                    (cobolt self "set analog modulation enabled flag") s2)
          as (s' & -> & _ & X3).
        exists s'. split; [reflexivity |].
        exact (extends_app_nil_r _ _ _ _ X X3).
      * exists s2. split; [reflexivity | exact X].
Qed.

(** X5.  A power set point that is in range is written to the device; when
    the device answers the command with anything but [OK], the setter
    raises its [RuntimeError] and does not query the set point. *)
Theorem rejected_power_update_stops power_mW (s : world P) answer p1 :
  power_in_range self power_mW = true -> answer <> "OK"%string ->
  (forall watts,
      PyFloat.fdiv power_mW thousand = Some watts ->
      replies (port s) ("p " ++ PyFloat.fmt_f 4 watts) answer p1 ->
      exists s',
        set_power_setpoint self power_mW s
        = (Raised (RuntimeError ("Unable to update power on "
                                   ++ Py.fmt_d (w self) ++ " laser")), s') /\
        extends s s' [wire ("p " ++ PyFloat.fmt_f 4 watts)]) /\
  (replies (port s) ("slmp " ++ PyFloat.fmt_f 1 power_mW) answer p1 ->
   exists s',
     set_modulation_power_setpoint self power_mW s
     = (Raised (RuntimeError ("Unable to update power on "
                                ++ Py.fmt_d (w self) ++ " laser")), s') /\
     extends s s' [wire ("slmp " ++ PyFloat.fmt_f 1 power_mW)]).
Proof.
  intros Rg N. split.
  - intros watts D R1. unfold set_power_setpoint. rewrite Rg, D.
    cbn [assert or_raise]. rewrite !bind_ret.
    assert (Py.all_chars Py.is_ascii ("p " ++ PyFloat.fmt_f 4 watts) = true)
      as A by solve_ascii.
    destruct (send_replies self _ answer s p1 A R1) as (s1 & E1 & _ & X1).
    rewrite (bind_returned _ _ _ _ _ E1).
    match goal with
    | |- context [bind (when _ _) ?k s1] =>
        destruct (rejected_then answer (cobolt self "")
                    (RuntimeError ("Unable to update power on "
                                     ++ Py.fmt_d (w self) ++ " laser"))
                    k s1 N) as (s' & -> & _ & X2)
    end.
    exists s'. split; [reflexivity |]. exact (extends_app_nil_r _ _ _ _ X1 X2).
  - intros R1. unfold set_modulation_power_setpoint. rewrite Rg.
    cbn [assert]. rewrite bind_ret.
    assert (Py.all_chars Py.is_ascii ("slmp " ++ PyFloat.fmt_f 1 power_mW)
            = true) as A by solve_ascii.
    destruct (send_replies self _ answer s p1 A R1) as (s1 & E1 & _ & X1).
    rewrite (bind_returned _ _ _ _ _ E1).
    match goal with
    | |- context [bind (when _ _) ?k s1] =>
        destruct (rejected_then answer (cobolt self "")
                    (RuntimeError ("Unable to update power on "
                                     ++ Py.fmt_d (w self) ++ " laser"))
                    k s1 N) as (s' & -> & _ & X2)
    end.
    exists s'. split; [reflexivity |]. exact (extends_app_nil_r _ _ _ _ X1 X2).
Qed.


(** X6.  With the interlock reported closed, [turn_on] writes [l1] and,
    only when the device acknowledged it with [OK], the emission query.
    Any other acknowledgement makes it raise the [RuntimeError] 'Could not
    turn on laser diode' without confirming; after [OK] it returns when the
    laser reports emission on and raises [AssertionError] when it reports
    emission off. *)
Theorem turn_on_outcomes (s : world P) ilk p1 answer p2 :
  very_verbose self = false ->
  replies (port s) "ilk?" ilk p1 -> Py.int_of_str ilk = Some 0 ->
  replies p1 "l1" answer p2 ->
  (answer <> "OK"%string ->
   exists s',
     turn_on self s
     = (Raised (RuntimeError "Could not turn on laser diode"), s') /\
     extends s s' [wire "ilk?"; wire "l1"]) /\
  (answer = "OK"%string ->
   forall status p3 v,
     replies p2 "l?" status p3 ->
     Py.int_of_str status = Some v -> v = 0 \/ v = 1 ->
     exists s',
       turn_on self s
       = (if v =? 1 then Returned tt else Raised AssertionError, s') /\
       extends s s' [wire "ilk?"; wire "l1"; wire "l?"]).
Proof.
  intros VV R0 H0 R1. unfold turn_on.
  match goal with
  | |- context [bind (when (verbose self) (print ?t)) ?k s] =>
      destruct (verbose_print_then t k s) as (s0 & -> & Pt0 & X0)
  end.
  destruct (is_interlock_open_run self s0 ilk p1 0
              (replies_port s s0 _ _ _ Pt0 R0) H0 (or_introl eq_refl))
    as (sa & Ea & Pta & Xa).
  rewrite VV in Ea. rewrite (bind_returned _ _ _ _ _ Ea).
  cbn [Z.eqb negb when]. rewrite bind_ret.
  rewrite <- Pta in R1.
  destruct (send_replies self "l1" answer sa p2 eq_refl R1)
    as (s1 & E1 & Pt1 & X1).
  rewrite (bind_returned _ _ _ _ _ E1).
  pose proof (extends_trans _ _ _ _ _ (extends_app_nil_l _ _ _ _ X0 Xa) X1)
    as X01. cbn [app] in X01.
  split.
  - intros N.
    match goal with
    | |- context [bind (when _ _) ?k s1] =>
        destruct (rejected_then answer (cobolt self "")
                    (RuntimeError "Could not turn on laser diode") k s1 N)
          as (s' & -> & _ & X2)
    end.
    exists s'. split; [reflexivity |]. exact (extends_app_nil_r _ _ _ _ X01 X2).
  - intros -> status p3 v R2 Hv V. rewrite accepted_then.
    rewrite <- Pt1 in R2.
    destruct (get_on_off_state_run self s1 status p3 v R2 Hv V)
      as (s2 & E2 & _ & X2).
    rewrite (bind_returned _ _ _ _ _ E2).
    exists s2. split.
    + destruct V as [-> | ->]; reflexivity.
    + exact (extends_trans _ _ _ _ _ X01 X2).
Qed.

Lemma outline_cons (p q : P) (e : event) (h : list event) :
  outline (World p (e :: h)) =
  outline (World q h)
    ++ match e with Write _ | Sleep _ => [e] | _ => [] end.
Proof.
  unfold outline. cbn [history rev]. rewrite filter_app.
  destruct e; cbn [filter]; rewrite ?app_nil_r; reflexivity.
Qed.

Lemma outline_send_history (s : world P) (p : P) data got n :
  outline (World p (send_history self data got n (history s))) =
  outline s ++ [Write data].
Proof.
  unfold send_history.
  rewrite (outline_cons _ p). cbn [app]. rewrite app_nil_r.
  assert (forall (b : bool) text h,
             outline (World p ((if b then [Print text] else []) ++ h)) =
             outline (World p h)) as Opt.
  { intros b text h. destruct b; cbn [app]; [| reflexivity].
    rewrite (outline_cons _ p). apply app_nil_r. }
  rewrite Opt, (outline_cons _ p), (outline_cons _ p), Opt.
  cbn [app]. rewrite app_nil_r. reflexivity.
Qed.

Lemma outline_print (s : world P) text :
  outline (World (port s) (Print text :: history s)) = outline s.
Proof. rewrite (outline_cons _ (port s)). destruct s. apply app_nil_r. Qed.

Lemma send_clean_run cmd text (s : world P) p' :
  Py.all_chars Py.is_ascii cmd = true ->
  replies (port s) cmd text p' ->
  exists s', _send self cmd s = (Returned text, s') /\ port s' = p' /\
             outline s' = outline s ++ [Write (wire cmd)].
Proof.
  intros A (got & raw & E & N & D & ->).
  eexists. rewrite (send_run self cmd s got p' A E).
  unfold answer_of. rewrite N, D. cbn [N.eqb].
  split; [reflexivity |]. split; [reflexivity |]. apply outline_send_history.
Qed.

Lemma is_interlock_open_clean_run (s : world P) text p' v :
  very_verbose self = false ->
  replies (port s) "ilk?" text p' ->
  Py.int_of_str text = Some v -> v = 0 \/ v = 1 ->
  exists s1,
    is_interlock_open self s = (Returned v, s1) /\ port s1 = p' /\
    outline s1 = outline s ++ [Write (wire "ilk?")].
Proof.
  intros VV R Hv V.
  destruct (send_clean_run "ilk?" text s p' eq_refl R) as (s1 & E & Pt & O).
  exists s1. split; [| split; assumption].
  unfold is_interlock_open. rewrite (bind_returned _ _ _ _ _ E), Hv, VV.
  cbn [or_raise bind ret assert].
  assert ((v =? 0) || (v =? 1) = true) as ->
    by (destruct V as [-> | ->]; reflexivity).
  reflexivity.
Qed.

Lemma get_on_off_state_clean_run (s : world P) status p' v :
  very_verbose self = false ->
  replies (port s) "l?" status p' ->
  Py.int_of_str status = Some v -> v = 0 \/ v = 1 ->
  exists s1,
    get_on_off_state self s =
      (Returned (if (v =? 0)%Z then "OFF"%string else "ON"%string), s1) /\
    port s1 = p' /\ outline s1 = outline s ++ [Write (wire "l?")].
Proof.
  intros VV R Hv V.
  destruct (send_clean_run "l?" status s p' eq_refl R) as (s1 & E & Pt & O).
  exists s1. split; [| split; assumption].
  unfold get_on_off_state. rewrite (bind_returned _ _ _ _ _ E), Hv, VV.
  cbn [or_raise bind ret assert].
  assert ((v =? 0) || (v =? 1) = true) as ->
    by (destruct V as [-> | ->]; reflexivity).
  reflexivity.
Qed.

Lemma bind_sleep {B} (k : unit -> io P B) (s : world P) :
  bind sleep_half_second k s
  = k tt (World (port s) (Sleep 500 :: history s)).
Proof. reflexivity. Qed.

(** X7.  With the interlock reported closed, [run_autostart] writes
    [@cob1]; when the device acknowledges it with [OK], it sleeps half a
    second and only then queries the emission state.  When the device
    answers anything else, it raises its [RuntimeError] at once: no sleep
    and no emission query. *)
Theorem autostart_settles_before_confirming (s : world P) ilk p1 answer p2 :
  very_verbose self = false ->
  replies (port s) "ilk?" ilk p1 -> Py.int_of_str ilk = Some 0 ->
  replies p1 "@cob1" answer p2 ->
  (answer <> "OK"%string ->
   exists s',
     run_autostart self s
     = (Raised (RuntimeError ("Unable to autostart Cobolt "
                                ++ Py.fmt_d (w self) ++ " laser")), s') /\
     outline s' = outline s ++ [Write (wire "ilk?"); Write (wire "@cob1")]) /\
  (answer = "OK"%string ->
   forall status p3 v,
     replies p2 "l?" status p3 ->
     Py.int_of_str status = Some v -> v = 0 \/ v = 1 ->
     exists s',
       run_autostart self s
       = (if v =? 1 then Returned tt else Raised AssertionError, s') /\
       outline s' =
         outline s ++ [Write (wire "ilk?"); Write (wire "@cob1"); Sleep 500;
                       Write (wire "l?")]).
Proof.
  intros VV R0 H0 R1. unfold run_autostart.
  assert (exists s0, port s0 = port s /\ outline s0 = outline s /\
                     forall B (k : unit -> io P B),
                       bind (when (verbose self)
                               (print (cobolt self "Powering laser on"))) k s
                       = k tt s0) as (s0 & Pt0 & O0 & ->).
  { destruct (verbose self); cbn [when].
    - eexists. split; [| split; [| intros B k; apply bind_print]];
        [reflexivity | apply outline_print].
    - exists s. split; [| split; [| intros B k; apply bind_ret]]; reflexivity. }
  destruct (is_interlock_open_clean_run s0 ilk p1 0 VV
              (replies_port s s0 _ _ _ Pt0 R0) H0 (or_introl eq_refl))
    as (sa & Ea & Pta & Oa).
  rewrite (bind_returned _ _ _ _ _ Ea).
  cbn [Z.eqb negb when]. rewrite bind_ret.
  rewrite <- Pta in R1.
  destruct (send_clean_run "@cob1" answer sa p2 eq_refl R1)
    as (s1 & E1 & Pt1 & O1).
  rewrite (bind_returned _ _ _ _ _ E1).
  rewrite Oa, O0, <- app_assoc in O1. cbn [app] in O1.
  split.
  - intros N. apply String.eqb_neq in N. rewrite N. cbn [negb when].
    eexists. split; [reflexivity |]. rewrite outline_print. exact O1.
  - intros -> status p3 v R2 Hv V. rewrite accepted_then, bind_sleep.
    rewrite <- Pt1 in R2.
    destruct (get_on_off_state_clean_run
                (World (port s1) (Sleep 500 :: history s1)) status p3 v VV
                R2 Hv V) as (s2 & E2 & _ & O2).
    rewrite (bind_returned _ _ _ _ _ E2).
    exists s2. split.
    + destruct V as [-> | ->]; reflexivity.
    + rewrite O2, (outline_cons _ (port s1)).
      replace (outline (World (port s1) (history s1))) with (outline s1)
        by (destruct s1; reflexivity).
      rewrite O1, <- !app_assoc. reflexivity.
Qed.

End Outcomes.

(** * Texts [int] refuses *)

Lemma space_is_no_digit c : Py.is_space c = true -> Py.digit_val c = None.
Proof.
  unfold Py.is_space, Py.digit_val. cbv zeta.
  destruct (N_of_ascii c) as [| n] eqn:E; [reflexivity |].
  intros H.
  destruct ((48 <=? N.pos n) && (N.pos n <=? 57))%N eqn:D; [| reflexivity].
  apply andb_true_iff in D. destruct D as [D1 D2].
  apply N.leb_le in D1. apply N.leb_le in D2.
  apply orb_true_iff in H. destruct H as [H | H].
  - apply andb_true_iff in H. destruct H as [_ H]. apply N.leb_le in H. lia.
  - apply N.eqb_eq in H. lia.
Qed.

Lemma lstrip_keeps drop c s :
  In c (list_ascii_of_string s) -> drop c = false ->
  In c (list_ascii_of_string (Py.lstrip drop s)).
Proof.
  intros Hin Hc. induction s as [| a t IH]; [exact Hin |].
  cbn [Py.lstrip]. destruct (drop a) eqn:Da; [| exact Hin].
  apply IH. destruct Hin as [-> | Hin]; [congruence | exact Hin].
Qed.

Lemma rstrip_keeps drop c s :
  In c (list_ascii_of_string s) -> drop c = false ->
  In c (list_ascii_of_string (Py.rstrip drop s)).
Proof.
  intros Hin Hc. induction s as [| a t IH]; [exact Hin |].
  cbn [Py.rstrip]. destruct Hin as [-> | Hin].
  - destruct (Py.rstrip drop t); [rewrite Hc |]; left; reflexivity.
  - specialize (IH Hin).
    destruct (Py.rstrip drop t) as [| b t'] eqn:E; [destruct IH |].
    right. exact IH.
Qed.

Lemma lstrip_digits drop s :
  (forall c, drop c = true -> Py.digit_val c = None) ->
  Py.count_digits (Py.lstrip drop s) = Py.count_digits s.
Proof.
  intros Hd. induction s as [| a t IH]; [reflexivity |].
  cbn [Py.lstrip]. destruct (drop a) eqn:Da; [| reflexivity].
  cbn [Py.count_digits]. rewrite (Hd a Da). exact IH.
Qed.

Lemma rstrip_digits drop s :
  (forall c, drop c = true -> Py.digit_val c = None) ->
  Py.count_digits (Py.rstrip drop s) = Py.count_digits s.
Proof.
  intros Hd. induction s as [| a t IH]; [reflexivity |].
  cbn [Py.rstrip Py.count_digits].
  destruct (Py.rstrip drop t) as [| b t'] eqn:E.
  - cbn [Py.count_digits] in IH. rewrite <- IH.
    destruct (drop a) eqn:Da; cbn [Py.count_digits].
    + rewrite (Hd a Da). reflexivity.
    + destruct (Py.digit_val a); reflexivity.
  - cbn [Py.count_digits] in *. rewrite IH. reflexivity.
Qed.

Lemma digitpart_foreign c s :
  In c (list_ascii_of_string s) ->
  Py.digit_val c = None -> Ascii.eqb c "_" = false ->
  forall acc after_digit, Py.digitpart s acc after_digit = None.
Proof.
  intros Hin Hd Hu. induction s as [| a t IH]; [destruct Hin |].
  intros acc after_digit. cbn [Py.digitpart].
  destruct Hin as [-> | Hin].
  - rewrite Hd, Hu. reflexivity.
  - destruct (Py.digit_val a); [apply IH; exact Hin |].
    destruct (Ascii.eqb a "_" && after_digit); [apply IH; exact Hin |].
    reflexivity.
Qed.

(** [int] raises [ValueError] on an unreadable text. *)
Lemma int_of_str_unreadable text :
  unreadable text -> Py.int_of_str text = None.
Proof.
  unfold Py.int_of_str, Py.strip_by.
  intros [(c & Hin & Hc) | Long].
  - unfold numeral_char in Hc.
    destruct (Py.digit_val c) eqn:Hd; [discriminate Hc |].
    apply orb_false_iff in Hc. destruct Hc as [Hc Hs].
    apply orb_false_iff in Hc. destruct Hc as [Hc Hu].
    apply orb_false_iff in Hc. destruct Hc as [Hp Hm].
    pose proof (lstrip_keeps Py.is_space c _
                  (rstrip_keeps Py.is_space c text Hin Hs) Hs) as K.
    destruct (Py.lstrip Py.is_space (Py.rstrip Py.is_space text))
      as [| a t]; [reflexivity |].
    cbv zeta.
    match goal with
    | |- (if ?b then _ else _) = _ => destruct b; [reflexivity |]
    end.
    assert (In c (list_ascii_of_string
                    (if Ascii.eqb a "+" || Ascii.eqb a "-" then t
                     else String a t))) as K'.
    { destruct (Ascii.eqb a "+" || Ascii.eqb a "-") eqn:Sg; [| exact K].
      destruct K as [-> | K]; [| exact K].
      rewrite Hp, Hm in Sg. discriminate Sg. }
    rewrite (digitpart_foreign c _ K' Hd Hu).
    destruct (Ascii.eqb a "-"); reflexivity.
  - rewrite <- (rstrip_digits Py.is_space text space_is_no_digit) in Long.
    rewrite <- (lstrip_digits Py.is_space _ space_is_no_digit) in Long.
    destruct (Py.lstrip Py.is_space (Py.rstrip Py.is_space text))
      as [| a t]; [reflexivity |].
    cbv zeta.
    assert (Py.count_digits (String a t)
            = Py.count_digits (if Ascii.eqb a "+" || Ascii.eqb a "-" then t
                               else String a t)) as Same.
    { destruct (Ascii.eqb a "+" || Ascii.eqb a "-") eqn:Sg; [| reflexivity].
      cbn [Py.count_digits].
      destruct (Py.digit_val a) eqn:Da; [| reflexivity].
      apply orb_true_iff in Sg.
      destruct Sg as [Sg | Sg]; apply Ascii.eqb_eq in Sg; subst a;
        discriminate Da. }
    rewrite Same in Long. apply Nat.ltb_lt in Long. rewrite Long.
    reflexivity.
Qed.

Section Queries.

Context {P : Type} {T : Transport P}.
Variable self : Laser.
Local Open Scope list_scope.

Ltac asks_by_steps m :=
  intros s o s' H; unfold m in H; run_inv H; chain; assumption.

(** X8.  Every query method writes exactly one command, its own, whatever
    the device answers and whether the method returns or raises. *)
Theorem queries_write_one_command :
  asks (P := P) (get_on_off_state self) "l?" /\
  asks (P := P) (is_interlock_open self) "ilk?" /\
  asks (P := P) (get_state self) "gom?" /\
  asks (P := P) (get_digital_modulation_enable_state self) "gdmes?" /\
  asks (P := P) (get_analog_modulation_enable_state self) "games?" /\
  asks (P := P) (get_power_setpoint self) "p?" /\
  asks (P := P) (get_modulation_power_setpoint self) "glmp?" /\
  asks (P := P) (get_actual_power self) "pa?" /\
  asks (P := P) (get_actual_current self) "i?" /\
  asks (P := P) (get_serial_number self) "gsn?" /\
  asks (P := P) (get_model_number self) "glm?" /\
  asks (P := P) (get_operating_hours self) "hrs?" /\
  asks (P := P) (get_fault self) "f?".
Proof.
  repeat match goal with |- _ /\ _ => split end.
  - asks_by_steps (@get_on_off_state).
  - asks_by_steps (@is_interlock_open).
  - asks_by_steps (@get_state).
  - asks_by_steps (@get_digital_modulation_enable_state).
  - asks_by_steps (@get_analog_modulation_enable_state).
  - asks_by_steps (@get_power_setpoint).
  - asks_by_steps (@get_modulation_power_setpoint).
  - asks_by_steps (@get_actual_power).
  - asks_by_steps (@get_actual_current).
  - asks_by_steps (@get_serial_number).
  - asks_by_steps (@get_model_number).
  - asks_by_steps (@get_operating_hours).
  - asks_by_steps (@get_fault).
Qed.

(** What the two-valued queries make of an answer, in terms of what [int]
    makes of it. *)
Lemma two_valued_queries_table (s : world P) answer p' :
  let decoded {A} (value : Z -> A) : outcome A :=
    match Py.int_of_str answer with
    | None => Raised ValueError
    | Some v =>
        if (v =? 0) || (v =? 1) then Returned (value v)
        else Raised AssertionError
    end in
  (replies (port s) "l?" answer p' ->
   fst (get_on_off_state self s)
   = decoded (fun v => if v =? 0 then "OFF"%string else "ON"%string)) /\
  (replies (port s) "ilk?" answer p' -> very_verbose self = false ->
   fst (is_interlock_open self s) = decoded (fun v => v)) /\
  (replies (port s) "gdmes?" answer p' ->
   fst (get_digital_modulation_enable_state self s) = decoded (fun v => v)) /\
  (replies (port s) "games?" answer p' ->
   fst (get_analog_modulation_enable_state self s) = decoded (fun v => v)).
Proof.
  cbv zeta. repeat match goal with |- _ /\ _ => split end.
  - intros R.
    destruct (send_replies self "l?" answer s p' eq_refl R) as (s1 & E & _ & _).
    unfold get_on_off_state. rewrite (bind_returned _ _ _ _ _ E).
    destruct (Py.int_of_str answer) as [v |]; [| reflexivity].
    cbn [or_raise]. rewrite bind_ret.
    destruct ((v =? 0) || (v =? 1)); [| reflexivity].
    cbn [assert]. rewrite bind_ret.
    destruct (very_verbose self); reflexivity.
  - intros R VV.
    destruct (send_replies self "ilk?" answer s p' eq_refl R) as (s1 & E & _ & _).
    unfold is_interlock_open. rewrite (bind_returned _ _ _ _ _ E), VV.
    destruct (Py.int_of_str answer) as [v |]; [| reflexivity].
    cbn [or_raise]. rewrite bind_ret.
    destruct ((v =? 0) || (v =? 1)); reflexivity.
  - intros R.
    destruct (send_replies self "gdmes?" answer s p' eq_refl R)
      as (s1 & E & _ & _).
    unfold get_digital_modulation_enable_state.
    rewrite (bind_returned _ _ _ _ _ E).
    destruct (Py.int_of_str answer) as [v |]; [| reflexivity].
    cbn [or_raise]. rewrite bind_ret.
    destruct ((v =? 0) || (v =? 1)); [| reflexivity].
    cbn [assert]. rewrite bind_ret.
    destruct (very_verbose self); reflexivity.
  - intros R.
    destruct (send_replies self "games?" answer s p' eq_refl R)
      as (s1 & E & _ & _).
    unfold get_analog_modulation_enable_state.
    rewrite (bind_returned _ _ _ _ _ E).
    destruct (Py.int_of_str answer) as [v |]; [| reflexivity].
    cbn [or_raise]. rewrite bind_ret.
    destruct ((v =? 0) || (v =? 1)); [| reflexivity].
    cbn [assert]. rewrite bind_ret.
    destruct (very_verbose self); reflexivity.
Qed.

(** X9.  The two-valued queries decode the answer with [int]: an answer
    that is no integer is a [ValueError], an integer other than 0 and 1 an
    [AssertionError]; [get_on_off_state] returns ['OFF'] for 0 and ['ON']
    for 1, and (unless the handle is very verbose) the flag queries return
    the integer itself.  In particular an answer that holds a character
    which is neither a digit, a sign, an underscore nor white space that
    [int] skips, or that holds more than 4300 digits, is a [ValueError]
    for all of them. *)
Theorem two_valued_queries_decode (s : world P) answer p' :
  let decoded {A} (value : Z -> A) : outcome A :=
    match Py.int_of_str answer with
    | None => Raised ValueError
    | Some v =>
        if (v =? 0) || (v =? 1) then Returned (value v)
        else Raised AssertionError
    end in
  ((replies (port s) "l?" answer p' ->
    fst (get_on_off_state self s)
    = decoded (fun v => if v =? 0 then "OFF"%string else "ON"%string)) /\
   (replies (port s) "ilk?" answer p' -> very_verbose self = false ->
    fst (is_interlock_open self s) = decoded (fun v => v)) /\
   (replies (port s) "gdmes?" answer p' ->
    fst (get_digital_modulation_enable_state self s) = decoded (fun v => v)) /\
   (replies (port s) "games?" answer p' ->
    fst (get_analog_modulation_enable_state self s) = decoded (fun v => v))) /\
  (unreadable answer ->
   (replies (port s) "l?" answer p' ->
    fst (get_on_off_state self s) = Raised ValueError) /\
   (replies (port s) "ilk?" answer p' ->
    fst (is_interlock_open self s) = Raised ValueError) /\
   (replies (port s) "gdmes?" answer p' ->
    fst (get_digital_modulation_enable_state self s) = Raised ValueError) /\
   (replies (port s) "games?" answer p' ->
    fst (get_analog_modulation_enable_state self s) = Raised ValueError)).
Proof.
  cbv zeta. split; [exact (two_valued_queries_table s answer p') |].
  intros U. pose proof (int_of_str_unreadable answer U) as N.
  repeat match goal with |- _ /\ _ => split end; intros R.
  - destruct (send_replies self "l?" answer s p' eq_refl R) as (s1 & E & _ & _).
    unfold get_on_off_state. rewrite (bind_returned _ _ _ _ _ E), N.
    reflexivity.
  - destruct (send_replies self "ilk?" answer s p' eq_refl R)
      as (s1 & E & _ & _).
    unfold is_interlock_open. rewrite (bind_returned _ _ _ _ _ E), N.
    reflexivity.
  - destruct (send_replies self "gdmes?" answer s p' eq_refl R)
      as (s1 & E & _ & _).
    unfold get_digital_modulation_enable_state.
    rewrite (bind_returned _ _ _ _ _ E), N. reflexivity.
  - destruct (send_replies self "games?" answer s p' eq_refl R)
      as (s1 & E & _ & _).
    unfold get_analog_modulation_enable_state.
    rewrite (bind_returned _ _ _ _ _ E), N. reflexivity.
Qed.

(** What [get_state] makes of an answer, in terms of what [int] makes of
    it. *)
Lemma get_state_table (s : world P) answer p' :
  very_verbose self = false ->
  replies (port s) "gom?" answer p' ->
  fst (get_state self s) =
    match Py.int_of_str answer with
    | None => Raised ValueError
    | Some code =>
        if (0 <=? code) && (code <=? 6) then Returned (state_name code)
        else Raised AssertionError
    end.
Proof.
  intros VV R.
  destruct (send_replies self "gom?" answer s p' eq_refl R) as (s1 & E & _ & _).
  unfold get_state. rewrite (bind_returned _ _ _ _ _ E), VV.
  destruct (Py.int_of_str answer) as [code |]; [| reflexivity].
  cbn [or_raise]. rewrite bind_ret.
  destruct ((0 <=? code) && (code <=? 6)); reflexivity.
Qed.

(** X10.  [get_state] reads the answer with [int].  Unless the handle is
    very verbose, it returns the name of the state for the codes 0 to 6,
    raises [AssertionError] for any other integer and [ValueError] for an
    answer that is no integer.  In particular an answer that holds a
    character which is neither a digit, a sign, an underscore nor white
    space that [int] skips, or that holds more than 4300 digits, is a
    [ValueError], very verbose or not. *)
Theorem get_state_decodes (s : world P) answer p' :
  replies (port s) "gom?" answer p' ->
  (very_verbose self = false ->
   fst (get_state self s) =
     match Py.int_of_str answer with
     | None => Raised ValueError
     | Some code =>
         if (0 <=? code) && (code <=? 6) then Returned (state_name code)
         else Raised AssertionError
     end) /\
  (unreadable answer -> fst (get_state self s) = Raised ValueError).
Proof.
  intros R. split.
  - intros VV. exact (get_state_table s answer p' VV R).
  - intros U.
    destruct (send_replies self "gom?" answer s p' eq_refl R)
      as (s1 & E & _ & _).
    unfold get_state.
    rewrite (bind_returned _ _ _ _ _ E), (int_of_str_unreadable answer U).
    reflexivity.
Qed.

Lemma rstrip_all_dropped drop t :
  Py.all_chars drop t = true -> Py.rstrip drop t = EmptyString.
Proof.
  induction t as [| c t IH]; [reflexivity |]. cbn [Py.all_chars Py.rstrip].
  intros H. apply andb_true_iff in H. destruct H as [Hc Ht].
  rewrite (IH Ht), Hc. reflexivity.
Qed.

Lemma rstrip_app_dropped drop s t :
  Py.all_chars drop t = true ->
  Py.rstrip drop (s ++ t) = Py.rstrip drop s.
Proof.
  intros H. induction s as [| c s IH]; cbn [String.append Py.rstrip].
  - apply rstrip_all_dropped. exact H.
  - rewrite IH. reflexivity.
Qed.

Lemma decode_of_string text :
  Py.all_chars Py.is_ascii text = true ->
  Py.decode_ascii (list_byte_of_string text) = Some text.
Proof.
  intros A. unfold Py.decode_ascii.
  rewrite string_of_list_byte_of_string, A. reflexivity.
Qed.

(** X11.  When the device answers with an ASCII line that neither starts
    nor ends with a carriage return or a line feed, followed by the
    terminator and nothing more, [_send] returns that line. *)
Theorem send_returns_the_line cmd line (s : world P) p' :
  Py.all_chars Py.is_ascii cmd = true ->
  Py.all_chars Py.is_ascii line = true ->
  Py.strip Py.CRLF line = line ->
  port_read_until (port_write (port s) (wire cmd)) terminator
  = (wire line, p') ->
  port_in_waiting p' = 0%N ->
  fst (_send self cmd s) = Returned line.
Proof.
  intros A L S E N.
  rewrite (send_run self cmd s (wire line) p' A E). cbn [fst].
  unfold answer_of, wire. rewrite N. cbn [N.eqb].
  rewrite decode_of_string by (rewrite all_chars_app, L; reflexivity).
  f_equal. unfold Py.strip, Py.strip_by in *.
  rewrite rstrip_app_dropped by reflexivity. exact S.
Qed.

End Queries.

Section Lifetime.

Context {P : Type} {T : Transport P}.
Local Open Scope list_scope.

Lemma get_model_number_performs (self : Laser) :
  performs (P := P) (get_model_number self) [wire "glm?"].
Proof. unfold get_model_number. performs_by_steps. Qed.

Lemma init_performs wavelength_nm verbose very_verbose :
  performs (P := P) (__init__ wavelength_nm verbose very_verbose)
           [wire "glm?"].
Proof.
  unfold __init__. cbv zeta.
  eapply performs_eq.
  - eapply performs_bind; [perf |]. intros _.
    eapply performs_bind; [apply get_model_number_performs |]. intros mn.
    perf.
  - reflexivity.
Qed.

Lemma get_model_number_run (self : Laser) (s : world P) mn p' :
  replies (port s) "glm?" mn p' ->
  exists s1, get_model_number self s = (Returned mn, s1).
Proof.
  intros R.
  destruct (send_replies self "glm?" mn s p' eq_refl R) as (s1 & E & _ & _).
  unfold get_model_number. rewrite (bind_returned _ _ _ _ _ E).
  destruct (very_verbose self); cbn [when];
    [rewrite bind_print | rewrite bind_ret]; eexists; reflexivity.
Qed.

(** What the constructor makes of the model number, in terms of what
    [int] makes of its fields. *)
Lemma init_table wavelength_nm verbose very_verbose :
  asks (P := P) (__init__ wavelength_nm verbose very_verbose) "glm?" /\
  forall (s : world P) mn p',
    replies (port s) "glm?" mn p' ->
    fst (__init__ wavelength_nm verbose very_verbose s) =
      match Py.split "-" mn with
      | [] => Raised IndexError
      | first :: _ =>
          match Py.int_of_str first with
          | None => Raised ValueError
          | Some wavelength =>
              if wavelength_nm =? wavelength then
                match nth_error (Py.split "-" mn) 3 with
                | None => Raised IndexError
                | Some fourth =>
                    match Py.int_of_str fourth with
                    | None => Raised ValueError
                    | Some max_power =>
                        Returned (Build_Laser verbose very_verbose
                                    wavelength_nm max_power)
                    end
                end
              else Raised AssertionError
          end
      end.
Proof.
  split.
  - intros s o s' H. unfold __init__, get_model_number in H. cbv zeta in H.
    run_inv H; chain; assumption.
  - intros s mn p' R. unfold __init__. cbv zeta.
    assert (exists s0, port s0 = port s /\
                       forall B (k : unit -> io P B),
                         bind (when verbose
                                 (print (cobolt (Build_Laser verbose very_verbose
                                                   wavelength_nm 0)
                                           "Initializing laser..."))) k s
                         = k tt s0) as (s0 & Pt0 & ->).
    { destruct verbose; cbn [when].
      - eexists. split; [| intros B k; apply bind_print]. reflexivity.
      - exists s. split; [| intros B k; apply bind_ret]. reflexivity. }
    rewrite <- Pt0 in R.
    destruct (get_model_number_run (Build_Laser verbose very_verbose
                                      wavelength_nm 0) s0 mn p' R)
      as (s1 & E).
    rewrite (bind_returned _ _ _ _ _ E).
    destruct (Py.split "-" mn) as [| first rest]; [reflexivity |].
    change (nth_error (first :: rest) 0) with (Some first).
    change (nth_error (first :: rest) 3) with (nth_error rest 2).
    cbn [or_raise]. rewrite bind_ret.
    destruct (Py.int_of_str first) as [wavelength |]; [| reflexivity].
    cbn [or_raise]. rewrite bind_ret.
    destruct (wavelength_nm =? wavelength); [| reflexivity].
    cbn [assert]. rewrite bind_ret.
    destruct (nth_error rest 2) as [fourth |]; [| reflexivity].
    cbn [or_raise]. rewrite bind_ret.
    destruct (Py.int_of_str fourth) as [max_power |]; [| reflexivity].
    cbn [or_raise]. rewrite bind_ret.
    destruct very_verbose, verbose; reflexivity.
Qed.

(** X12.  The constructor writes the model number query and nothing else,
    whatever happens.  It splits the answer at the hyphens and reads the
    first and the fourth field with [int]: a first field that is not the
    expected wavelength is an [AssertionError], a missing fourth field an
    [IndexError], a field that is no integer a [ValueError]; otherwise the
    handle keeps the expected wavelength and the fourth field as its
    maximum power.  In particular a first field that holds a character
    which is neither a digit, a sign, an underscore nor white space that
    [int] skips, or that holds more than 4300 digits, is a
    [ValueError]. *)
Theorem init_outcomes wavelength_nm verbose very_verbose :
  asks (P := P) (__init__ wavelength_nm verbose very_verbose) "glm?" /\
  (forall (s : world P) mn p',
      replies (port s) "glm?" mn p' ->
      fst (__init__ wavelength_nm verbose very_verbose s) =
        match Py.split "-" mn with
        | [] => Raised IndexError
        | first :: _ =>
            match Py.int_of_str first with
            | None => Raised ValueError
            | Some wavelength =>
                if wavelength_nm =? wavelength then
                  match nth_error (Py.split "-" mn) 3 with
                  | None => Raised IndexError
                  | Some fourth =>
                      match Py.int_of_str fourth with
                      | None => Raised ValueError
                      | Some max_power =>
                          Returned (Build_Laser verbose very_verbose
                                      wavelength_nm max_power)
                      end
                  end
                else Raised AssertionError
            end
        end) /\
  (forall (s : world P) mn p' first rest,
      replies (port s) "glm?" mn p' ->
      Py.split "-" mn = first :: rest ->
      unreadable first ->
      fst (__init__ wavelength_nm verbose very_verbose s) = Raised ValueError).
Proof.
  destruct (init_table wavelength_nm verbose very_verbose) as [A Tb].
  split; [exact A |]. split; [exact Tb |].
  intros s mn p' first rest R Sp U.
  rewrite (Tb s mn p' R), Sp, (int_of_str_unreadable first U). reflexivity.
Qed.

Variable self : Laser.

Lemma performs_keeps_port {A} (c : io P A) F : performs c F -> keeps_port c.
Proof. intros H s o s' R. destruct (H s o s' R) as (l & [_ C] & _). exact C. Qed.

Lemma turn_on_performs :
  performs (P := P) (turn_on self) [wire "ilk?"; wire "l1"; wire "l?"].
Proof. unfold turn_on. performs_by_steps. Qed.

Lemma run_autostart_performs :
  performs (P := P) (run_autostart self)
           [wire "ilk?"; wire "@cob1"; wire "l?"].
Proof. unfold run_autostart. performs_by_steps. Qed.

Lemma clear_fault_performs :
  performs (P := P) (clear_fault self) [wire "cf"].
Proof. unfold clear_fault. performs_by_steps. Qed.

Lemma set_mode_keeps_port mode : keeps_port (P := P) (set_mode self mode).
Proof.
  intros s o s' H. destruct (mode2command mode) as [cmd |] eqn:M.
  - destruct (set_mode_shape self mode cmd s o s' M H) as (l & [_ C] & _).
    exact C.
  - unfold set_mode in H. rewrite M in H. cbv [or_raise bind raise] in H.
    inversion H; reflexivity.
Qed.

Lemma configure_keeps_port mode power_mW digital analog :
  keeps_port (P := P) (configure self mode power_mW digital analog).
Proof.
  intros s o s' H. unfold configure in H.
  destruct (performs_then _ _ _ _ _ _
              (when_supplied_digital_performs self digital) H)
    as [(u1 & s1 & [_ C1] & K1) | (e & l & _ & [_ C] & _)]; [| exact C].
  destruct (performs_then _ _ _ _ _ _
              (when_supplied_analog_performs self analog) K1)
    as [(u2 & s2 & [_ C2] & K2) | (e & l & _ & [_ C] & _)];
    [| rewrite C; exact C1].
  destruct (performs_then _ _ _ _ _ _
              (set_power_for_performs self mode power_mW) K2)
    as [(u3 & s3 & [_ C3] & K3) | (e & l & _ & [_ C] & _)];
    [| rewrite C, C2; exact C1].
  rewrite (set_mode_keeps_port mode _ _ _ K3), C3, C2. exact C1.
Qed.

(** X13.  No method but [close] releases the port: after the constructor,
    [configure], [turn_on], [run_autostart], [turn_off], [set_mode], the
    set point and flag setters and [clear_fault], whatever their outcome,
    the port is released only if it already was before the call. *)
Theorem only_close_releases_the_port
    mode power_mW digital analog enabled wavelength_nm verbose very_verbose :
  keeps_port (P := P) (__init__ wavelength_nm verbose very_verbose) /\
  keeps_port (P := P) (configure self mode power_mW digital analog) /\
  keeps_port (P := P) (turn_on self) /\
  keeps_port (P := P) (run_autostart self) /\
  keeps_port (P := P) (turn_off self) /\
  keeps_port (P := P) (set_mode self mode) /\
  keeps_port (P := P) (set_power_setpoint self power_mW) /\
  keeps_port (P := P) (set_modulation_power_setpoint self power_mW) /\
  keeps_port (P := P) (set_digital_modulation_enable_state self enabled) /\
  keeps_port (P := P) (set_analog_modulation_enable_state self enabled) /\
  keeps_port (P := P) (clear_fault self).
Proof.
  repeat match goal with |- _ /\ _ => split end.
  - exact (performs_keeps_port _ _ (init_performs _ _ _)).
  - apply configure_keeps_port.
  - exact (performs_keeps_port _ _ turn_on_performs).
  - exact (performs_keeps_port _ _ run_autostart_performs).
  - exact (performs_keeps_port _ _ (turn_off_performs self)).
  - apply set_mode_keeps_port.
  - exact (performs_keeps_port _ _ (set_power_setpoint_performs self power_mW)).
  - exact (performs_keeps_port _ _
             (set_modulation_power_setpoint_performs self power_mW)).
  - exact (performs_keeps_port _ _ (set_digital_performs self enabled)).
  - exact (performs_keeps_port _ _ (set_analog_performs self enabled)).
  - exact (performs_keeps_port _ _ clear_fault_performs).
Qed.

End Lifetime.

Section Confirmation.

Context {P : Type} {T : Transport P}.
Variable self : Laser.
Local Open Scope list_scope.

Lemma get_power_setpoint_full_run (s : world P) text watts p' :
  replies (port s) "p?" text p' ->
  PyFloat.float_of_str text = Some watts ->
  exists s', get_power_setpoint self s =
             (Returned (PyFloat.fmul watts thousand), s') /\
             extends s s' [wire "p?"].
Proof.
  intros R F. destruct (get_power_setpoint_run self s text watts p' R F)
    as (s' & E).
  exists s'. split; [exact E |].
  destruct (get_power_setpoint_performs self s _ s' E) as (l & X & _ & L).
  rewrite (L (ex_intro _ _ eq_refl)) in X. exact X.
Qed.

Lemma get_modulation_power_setpoint_full_run (s : world P) text r p' :
  replies (port s) "glmp?" text p' ->
  PyFloat.float_of_str text = Some r ->
  exists s', get_modulation_power_setpoint self s = (Returned r, s') /\
             extends s s' [wire "glmp?"].
Proof.
  intros R F.
  destruct (get_modulation_power_setpoint_run self s text r p' R F)
    as (s' & E).
  exists s'. split; [exact E |].
  destruct (get_modulation_power_setpoint_performs self s _ s' E)
    as (l & X & _ & L).
  rewrite (L (ex_intro _ _ eq_refl)) in X. exact X.
Qed.

(** X14.  When the device acknowledges a power update with [OK] and
    answers the set point query with a number, the setter returns exactly
    when [round(power_mW, 4)] equals the rounded read-back (the answer
    times 1000 for the continuous set point, the answer itself for the
    modulation set point), and raises [AssertionError] otherwise. *)
Theorem power_update_confirms_readback power_mW asked (s : world P) :
  power_in_range self power_mW = true ->
  PyFloat.py_round 4 power_mW = Some asked ->
  (forall watts p1 text p2 answered got,
      PyFloat.fdiv power_mW thousand = Some watts ->
      replies (port s) ("p " ++ PyFloat.fmt_f 4 watts) "OK" p1 ->
      replies p1 "p?" text p2 ->
      PyFloat.float_of_str text = Some answered ->
      PyFloat.py_round 4 (PyFloat.fmul answered thousand) = Some got ->
      exists s',
        set_power_setpoint self power_mW s
        = (if PyFloat.feq asked got then Returned tt
           else Raised AssertionError, s') /\
        extends s s' [wire ("p " ++ PyFloat.fmt_f 4 watts); wire "p?"]) /\
  (forall p1 text p2 answered got,
      replies (port s) ("slmp " ++ PyFloat.fmt_f 1 power_mW) "OK" p1 ->
      replies p1 "glmp?" text p2 ->
      PyFloat.float_of_str text = Some answered ->
      PyFloat.py_round 4 answered = Some got ->
      exists s',
        set_modulation_power_setpoint self power_mW s
        = (if PyFloat.feq asked got then Returned tt
           else Raised AssertionError, s') /\
        extends s s' [wire ("slmp " ++ PyFloat.fmt_f 1 power_mW);
                      wire "glmp?"]).
Proof.
  intros Rg Ra. split.
  - intros watts p1 text p2 answered got D R1 R2 F Rr.
    unfold set_power_setpoint. rewrite Rg, D.
    cbn [assert or_raise]. rewrite !bind_ret.
    assert (Py.all_chars Py.is_ascii ("p " ++ PyFloat.fmt_f 4 watts) = true)
      as A by solve_ascii.
    destruct (send_replies self _ "OK" s p1 A R1) as (s1 & E1 & Pt1 & X1).
    rewrite (bind_returned _ _ _ _ _ E1), accepted_then, Ra.
    cbn [or_raise]. rewrite bind_ret.
    rewrite <- Pt1 in R2.
    destruct (get_power_setpoint_full_run s1 text answered p2 R2 F)
      as (s2 & E2 & X2).
    rewrite (bind_returned _ _ _ _ _ E2), Rr. cbn [or_raise]. rewrite bind_ret.
    pose proof (extends_trans _ _ _ _ _ X1 X2) as X. cbn [app] in X.
    destruct (PyFloat.feq asked got); cbn [assert].
    + rewrite bind_ret.
      match goal with
      | |- context [when (verbose self) (print ?t)] =>
          destruct (verbose_print_last self t s2) as (s' & -> & _ & X3)
      end.
      exists s'. split; [reflexivity |]. exact (extends_app_nil_r _ _ _ _ X X3).
    + exists s2. split; [reflexivity | exact X].
  - intros p1 text p2 answered got R1 R2 F Rr.
    unfold set_modulation_power_setpoint. rewrite Rg.
    cbn [assert]. rewrite bind_ret.
    assert (Py.all_chars Py.is_ascii ("slmp " ++ PyFloat.fmt_f 1 power_mW)
            = true) as A by solve_ascii.
    destruct (send_replies self _ "OK" s p1 A R1) as (s1 & E1 & Pt1 & X1).
    rewrite (bind_returned _ _ _ _ _ E1), accepted_then, Ra.
    cbn [or_raise]. rewrite bind_ret.
    rewrite <- Pt1 in R2.
    destruct (get_modulation_power_setpoint_full_run s1 text answered p2 R2 F)
      as (s2 & E2 & X2).
    rewrite (bind_returned _ _ _ _ _ E2), Rr. cbn [or_raise]. rewrite bind_ret.
    pose proof (extends_trans _ _ _ _ _ X1 X2) as X. cbn [app] in X.
    destruct (PyFloat.feq asked got); cbn [assert].
    + rewrite bind_ret.
      match goal with
      | |- context [when (verbose self) (print ?t)] =>
          destruct (verbose_print_last self t s2) as (s' & -> & _ & X3)
      end.
      exists s'. split; [reflexivity |]. exact (extends_app_nil_r _ _ _ _ X X3).
    + exists s2. split; [reflexivity | exact X].
Qed.

End Confirmation.

(** * Further runs on a scripted port *)

Lemma turn_off_outcomes_witness :
  (exists s',
      turn_off (Script.laser false) (Script.start ["error"%string])
      = (Raised (RuntimeError "Could not disable laser emission"), s')) /\
  (exists s',
      turn_off (Script.laser false) (Script.start ["OK"; "0"]%string)
      = (Returned tt, s')).
Proof.
  split.
  - assert (replies (port (Script.start ["error"%string])) "l0" "error"
              (Script.midway [] ["l0"%string])) as R1 by script_replies.
    destruct (proj1 (turn_off_outcomes (Script.laser false) _ _ _ R1)
                ltac:(discriminate)) as (s' & E & _).
    exists s'. exact E.
  - assert (replies (port (Script.start ["OK"; "0"]%string)) "l0" "OK"
              (Script.midway ["0"%string] ["l0"%string])) as R1
      by script_replies.
    assert (replies (Script.midway ["0"%string] ["l0"%string]) "l?" "0"
              (Script.midway [] ["l0"; "l?"]%string)) as R2
      by script_replies.
    destruct (proj2 (turn_off_outcomes (Script.laser false) _ _ _ R1)
                eq_refl _ _ 0 R2 eq_refl (or_introl eq_refl))
      as (s' & E & _).
    exists s'. exact E.
Defined.

Lemma clear_fault_outcome_witness :
  exists s',
    clear_fault (Script.laser false) (Script.start ["OK"%string])
    = (Returned tt, s').
Proof.
  assert (replies (port (Script.start ["OK"%string])) "cf" "OK"
            (Script.midway [] ["cf"%string])) as R by script_replies.
  destruct (clear_fault_outcome (Script.laser false) _ _ _ R) as (s' & E & _).
  exists s'. exact E.
Defined.

Lemma get_fault_decoding_witness :
  fst (get_fault (Script.laser false) (Script.start ["2"%string]))
  = Raised AssertionError.
Proof.
  assert (replies (port (Script.start ["2"%string])) "f?" "2"
            (Script.midway [] ["f?"%string])) as R by script_replies.
  exact (proj2 (get_fault_decoding (Script.laser false) _ _ _ R)).
Defined.

Lemma flag_update_outcomes_witness :
  (exists s',
      set_digital_modulation_enable_state (Script.laser false) true
        (Script.start ["OK"; "1"]%string) = (Returned tt, s')) /\
  (exists s',
      set_analog_modulation_enable_state (Script.laser false) false
        (Script.start ["OK"; "1"]%string) = (Raised AssertionError, s')).
Proof.
  split.
  - assert (replies (port (Script.start ["OK"; "1"]%string)) "sdmes 1" "OK"
              (Script.midway ["1"%string] ["sdmes 1"%string])) as R1
      by script_replies.
    assert (replies (Script.midway ["1"%string] ["sdmes 1"%string])
              "gdmes?" "1" (Script.midway [] ["sdmes 1"; "gdmes?"]%string))
      as R2 by script_replies.
    destruct (proj2 (proj1 (flag_update_outcomes (Script.laser false) true
                              _ _ _) R1)
                eq_refl _ _ 1 R2 eq_refl (or_intror eq_refl))
      as (s' & E & _).
    exists s'. exact E.
  - assert (replies (port (Script.start ["OK"; "1"]%string)) "sames 0" "OK"
              (Script.midway ["1"%string] ["sames 0"%string])) as R1
      by script_replies.
    assert (replies (Script.midway ["1"%string] ["sames 0"%string])
              "games?" "1" (Script.midway [] ["sames 0"; "games?"]%string))
      as R2 by script_replies.
    destruct (proj2 (proj2 (flag_update_outcomes (Script.laser false) false
                              _ _ _) R1)
                eq_refl _ _ 1 R2 eq_refl (or_intror eq_refl))
      as (s' & E & _).
    exists s'. exact E.
Defined.

Lemma rejected_power_update_witness :
  exists s',
    set_modulation_power_setpoint (Script.laser false) (PyFloat.of_int 10)
      (Script.start ["error"%string])
    = (Raised (RuntimeError "Unable to update power on 785 laser"), s') /\
    extends (Script.start ["error"%string]) s' [wire "slmp 10.0"].
Proof.
  assert (power_in_range (Script.laser false) (PyFloat.of_int 10) = true)
    as Rg by (vm_compute; reflexivity).
  assert (replies (port (Script.start ["error"%string]))
            ("slmp " ++ PyFloat.fmt_f 1 (PyFloat.of_int 10)) "error"
            (Script.midway [] ["slmp 10.0"%string])) as R
    by (unfold replies; do 2 eexists;
        split; [vm_compute; reflexivity
               | split; [reflexivity | split; reflexivity]]).
  destruct (proj2 (rejected_power_update_stops (Script.laser false)
                     (PyFloat.of_int 10) _ "error" _ Rg
                     ltac:(discriminate)) R) as (s' & E & X).
  exists s'. split; [exact E |].
  assert (wire ("slmp " ++ PyFloat.fmt_f 1 (PyFloat.of_int 10))
          = wire "slmp 10.0") as <- by (vm_compute; reflexivity).
  exact X.
Defined.

Lemma turn_on_outcomes_witness :
  exists s',
    turn_on (Script.laser false) (Script.start ["0"; "OK"; "1"]%string)
    = (Returned tt, s') /\
    extends (Script.start ["0"; "OK"; "1"]%string) s'
      [wire "ilk?"; wire "l1"; wire "l?"].
Proof.
  assert (replies (port (Script.start ["0"; "OK"; "1"]%string)) "ilk?" "0"
            (Script.midway ["OK"; "1"]%string ["ilk?"%string])) as R0
    by script_replies.
  assert (replies (Script.midway ["OK"; "1"]%string ["ilk?"%string]) "l1" "OK"
            (Script.midway ["1"%string] ["ilk?"; "l1"]%string)) as R1
    by script_replies.
  assert (replies (Script.midway ["1"%string] ["ilk?"; "l1"]%string) "l?" "1"
            (Script.midway [] ["ilk?"; "l1"; "l?"]%string)) as R2
    by script_replies.
  exact (proj2 (turn_on_outcomes (Script.laser false) _ _ _ _ _
                  eq_refl R0 eq_refl R1)
           eq_refl _ _ 1 R2 eq_refl (or_intror eq_refl)).
Defined.

Lemma autostart_settles_witness :
  exists s',
    run_autostart (Script.laser false) (Script.start ["0"; "OK"; "1"]%string)
    = (Returned tt, s') /\
    outline s' = [Write (wire "ilk?"); Write (wire "@cob1"); Sleep 500;
                  Write (wire "l?")].
Proof.
  assert (replies (port (Script.start ["0"; "OK"; "1"]%string)) "ilk?" "0"
            (Script.midway ["OK"; "1"]%string ["ilk?"%string])) as R0
    by script_replies.
  assert (replies (Script.midway ["OK"; "1"]%string ["ilk?"%string])
            "@cob1" "OK"
            (Script.midway ["1"%string] ["ilk?"; "@cob1"]%string)) as R1
    by script_replies.
  assert (replies (Script.midway ["1"%string] ["ilk?"; "@cob1"]%string)
            "l?" "1" (Script.midway [] ["ilk?"; "@cob1"; "l?"]%string)) as R2
    by script_replies.
  exact (proj2 (autostart_settles_before_confirming (Script.laser false)
                  _ _ _ _ _ eq_refl R0 eq_refl R1)
           eq_refl _ _ 1 R2 eq_refl (or_intror eq_refl)).
Defined.

Lemma queries_write_one_command_witness :
  extends (Script.start ["not a number"%string])
          (snd (get_serial_number (Script.laser false)
                  (Script.start ["not a number"%string])))
          [wire "gsn?"].
Proof.
  assert (get_serial_number (Script.laser false)
            (Script.start ["not a number"%string])
          = (Raised ValueError,
             snd (get_serial_number (Script.laser false)
                    (Script.start ["not a number"%string])))) as H
    by (vm_compute; reflexivity).
  destruct (queries_write_one_command (P := Script.port) (Script.laser false))
    as (_ & _ & _ & _ & _ & _ & _ & _ & _ & Q & _).
  exact (Q _ _ _ H).
Defined.

Lemma two_valued_queries_witness :
  fst (get_on_off_state (Script.laser false) (Script.start ["2"%string]))
  = Raised AssertionError /\
  fst (get_on_off_state (Script.laser false)
         (Script.start [String "028" "1"]))
  = Raised ValueError.
Proof.
  assert (replies (port (Script.start ["2"%string])) "l?" "2"
            (Script.midway [] ["l?"%string])) as R1 by script_replies.
  assert (replies (port (Script.start [String "028" "1"])) "l?"
            (String "028" "1") (Script.midway [] ["l?"%string])) as R2
    by script_replies.
  assert (unreadable (String "028" "1")) as U
    by (left; exists "028"%char; split; [left |]; reflexivity).
  split.
  - exact (proj1 (proj1 (two_valued_queries_decode (Script.laser false)
                           _ _ _)) R1).
  - exact (proj1 (proj2 (two_valued_queries_decode (Script.laser false)
                           _ _ _) U) R2).
Defined.

Lemma get_state_decodes_witness :
  fst (get_state (Script.laser false) (Script.start ["7"%string]))
  = Raised AssertionError /\
  fst (get_state (Script.laser false) (Script.start [String "029" "4"]))
  = Raised ValueError.
Proof.
  assert (replies (port (Script.start ["7"%string])) "gom?" "7"
            (Script.midway [] ["gom?"%string])) as R1 by script_replies.
  assert (replies (port (Script.start [String "029" "4"])) "gom?"
            (String "029" "4") (Script.midway [] ["gom?"%string])) as R2
    by script_replies.
  assert (unreadable (String "029" "4")) as U
    by (left; exists "029"%char; split; [left |]; reflexivity).
  split.
  - exact (proj1 (get_state_decodes (Script.laser false) _ _ _ R1) eq_refl).
  - exact (proj2 (get_state_decodes (Script.laser false) _ _ _ R2) U).
Defined.

Lemma send_returns_the_line_witness :
  fst (_send (Script.laser false) "glm?"
         (Script.start ["0785-06-01-0100-100"%string]))
  = Returned "0785-06-01-0100-100"%string.
Proof.
  assert (port_read_until
            (port_write (port (Script.start ["0785-06-01-0100-100"%string]))
               (wire "glm?")) terminator
          = (wire "0785-06-01-0100-100", Script.midway [] ["glm?"%string]))
    as R by reflexivity.
  exact (send_returns_the_line (Script.laser false) "glm?"
           "0785-06-01-0100-100" _ _ eq_refl eq_refl eq_refl R eq_refl).
Defined.

Lemma init_outcomes_witness :
  fst (__init__ 785 true false
         (Script.start ["0785-06-01-0100-100"%string]))
  = Returned (Build_Laser true false 785 100) /\
  fst (__init__ 785 true false
         (Script.start ["0660-06-01-0100-100"%string]))
  = Raised AssertionError /\
  fst (__init__ 785 true false
         (Script.start ["785" ++ String "030" "-06-01-100"]))
  = Raised ValueError.
Proof.
  assert (replies (port (Script.start ["0785-06-01-0100-100"%string]))
            "glm?" "0785-06-01-0100-100" (Script.midway [] ["glm?"%string]))
    as R1 by script_replies.
  assert (replies (port (Script.start ["0660-06-01-0100-100"%string]))
            "glm?" "0660-06-01-0100-100" (Script.midway [] ["glm?"%string]))
    as R2 by script_replies.
  assert (replies
            (port (Script.start ["785" ++ String "030" "-06-01-100"]))
            "glm?" ("785" ++ String "030" "-06-01-100")
            (Script.midway [] ["glm?"%string]))
    as R3 by script_replies.
  assert (Py.split "-" ("785" ++ String "030" "-06-01-100")
          = ("785" ++ String "030" EmptyString)
              :: ["06"; "01"; "100"]%string) as Sp by reflexivity.
  assert (unreadable ("785" ++ String "030" EmptyString)) as U
    by (left; exists "030"%char; split; [do 3 right; left |]; reflexivity).
  split; [| split].
  - exact (proj1 (proj2 (init_outcomes 785 true false)) _ _ _ R1).
  - exact (proj1 (proj2 (init_outcomes 785 true false)) _ _ _ R2).
  - exact (proj2 (proj2 (init_outcomes 785 true false)) _ _ _ _ _ R3 Sp U).
Defined.

Lemma only_close_releases_witness :
  closed (snd (turn_on (Script.laser false)
                 (Script.start ["0"; "OK"; "1"]%string))) = false.
Proof.
  assert (turn_on (Script.laser false) (Script.start ["0"; "OK"; "1"]%string)
          = (Returned tt,
             snd (turn_on (Script.laser false)
                    (Script.start ["0"; "OK"; "1"]%string)))) as H
    by (vm_compute; reflexivity).
  destruct (only_close_releases_the_port (P := Script.port)
              (Script.laser false) "continuous" (PyFloat.of_int 1) None None
              true 785 true false) as (_ & _ & K & _).
  exact (K _ _ _ H).
Defined.

Lemma power_update_confirms_witness :
  exists s',
    set_modulation_power_setpoint (Script.laser false) (PyFloat.of_int 10)
      (Script.start ["OK"; "9.9"]%string)
    = (Raised AssertionError, s').
Proof.
  assert (power_in_range (Script.laser false) (PyFloat.of_int 10) = true)
    as Rg by (vm_compute; reflexivity).
  assert (PyFloat.py_round 4 (PyFloat.of_int 10) = Some (PyFloat.of_int 10))
    as Ra by (vm_compute; reflexivity).
  assert (replies (port (Script.start ["OK"; "9.9"]%string))
            ("slmp " ++ PyFloat.fmt_f 1 (PyFloat.of_int 10)) "OK"
            (Script.midway ["9.9"%string] ["slmp 10.0"%string])) as R1
    by (unfold replies; do 2 eexists;
        split; [vm_compute; reflexivity
               | split; [reflexivity | split; reflexivity]]).
  assert (replies (Script.midway ["9.9"%string] ["slmp 10.0"%string])
            "glmp?" "9.9"
            (Script.midway [] ["slmp 10.0"; "glmp?"]%string)) as R2
    by script_replies.
  assert (exists answered got,
             PyFloat.float_of_str "9.9" = Some answered /\
             PyFloat.py_round 4 answered = Some got /\
             PyFloat.feq (PyFloat.of_int 10) got = false)
    as (answered & got & F & Rr & Ne)
    by (do 2 eexists; split; [vm_compute; reflexivity |];
        split; vm_compute; reflexivity).
  destruct (proj2 (power_update_confirms_readback (Script.laser false)
                     (PyFloat.of_int 10) _ _ Rg Ra)
              _ _ _ answered got R1 R2 F Rr) as (s' & E & _).
  rewrite Ne in E. exists s'. exact E.
Defined.

(** * Runs followed port by port *)

Section Dialogue.

Context {P : Type} {T : Transport P}.
Variable self : Laser.
Local Open Scope list_scope.

Lemma answers_sent {A} (c : io P A) p o p' l l' :
  l = l' -> answers c p o p' l -> answers c p o p' l'.
Proof. intros ->. exact (fun H => H). Qed.

Lemma answers_ret {A} (a : A) (p : P) : answers (ret a) p (Returned a) p [].
Proof.
  intros s Hp. exists s. split; [reflexivity |].
  split; [exact Hp | apply extends_refl].
Qed.

Lemma answers_raise {A} (e : exn) (p : P) :
  answers (raise (A := A) e) p (Raised e) p [].
Proof.
  intros s Hp. exists s. split; [reflexivity |].
  split; [exact Hp | apply extends_refl].
Qed.

Lemma answers_bind {A B} (c : io P A) (k : A -> io P B) p a p1 l1 o p' l2 :
  answers c p (Returned a) p1 l1 -> answers (k a) p1 o p' l2 ->
  answers (bind c k) p o p' (l1 ++ l2).
Proof.
  intros Hc Hk s Hp. destruct (Hc s Hp) as (s1 & E1 & P1 & X1).
  destruct (Hk s1 P1) as (s' & E2 & P2 & X2).
  exists s'. rewrite (bind_returned _ _ _ _ _ E1).
  split; [exact E2 |]. split; [exact P2 |].
  exact (extends_trans _ _ _ _ _ X1 X2).
Qed.

Lemma answers_bind_raised {A B} (c : io P A) (k : A -> io P B) p e p' l :
  answers c p (Raised e) p' l -> answers (bind c k) p (Raised e) p' l.
Proof.
  intros Hc s Hp. destruct (Hc s Hp) as (s' & E & P' & X).
  exists s'. rewrite (bind_raised _ _ _ _ _ E).
  split; [reflexivity |]. split; assumption.
Qed.

Lemma answers_print text (p : P) : answers (print text) p (Returned tt) p [].
Proof.
  intros s Hp. eexists. split; [reflexivity |]. split; [exact Hp |].
  apply (extends_event s). exact I.
Qed.

Lemma answers_when_print (b : bool) text (p : P) :
  answers (when b (print text)) p (Returned tt) p [].
Proof. destruct b; [apply answers_print | apply answers_ret]. Qed.

Lemma answers_accepted (c : io P unit) (p : P) :
  answers (when (negb (String.eqb "OK" "OK")) c) p (Returned tt) p [].
Proof. apply (answers_ret tt). Qed.

Lemma answers_rejected answer a e (p : P) :
  answer <> "OK"%string ->
  answers (when (negb (String.eqb answer "OK"))
             (bind (print2 a answer) (fun _ => raise e)))
          p (Raised e) p [].
Proof.
  intros N. apply String.eqb_neq in N. rewrite N. cbn [negb when].
  apply (answers_bind (print2 a answer) _ p tt p [] _ p []).
  - apply answers_print.
  - apply answers_raise.
Qed.

Lemma answers_send cmd text (p p' : P) :
  Py.all_chars Py.is_ascii cmd = true ->
  replies p cmd text p' ->
  answers (_send self cmd) p (Returned text) p' [wire cmd].
Proof.
  intros A R s Hp. subst p. exact (send_replies self cmd text s p' A R).
Qed.

Lemma answers_get_on_off_state status v (p p' : P) :
  replies p "l?" status p' ->
  Py.int_of_str status = Some v -> v = 0 \/ v = 1 ->
  answers (get_on_off_state self) p
    (Returned (if v =? 0 then "OFF"%string else "ON"%string)) p' [wire "l?"].
Proof.
  intros R Hv V s Hp. subst p.
  exact (get_on_off_state_run self s status p' v R Hv V).
Qed.

Lemma answers_get_state answer code (p p' : P) :
  very_verbose self = false ->
  replies p "gom?" answer p' ->
  Py.int_of_str answer = Some code -> 0 <= code <= 6 ->
  answers (get_state self) p (Returned (state_name code)) p' [wire "gom?"].
Proof.
  intros VV R Hc C s Hp. subst p.
  exact (get_state_run self s answer p' code VV R Hc C).
Qed.

Lemma answers_get_digital text v (p p' : P) :
  replies p "gdmes?" text p' ->
  Py.int_of_str text = Some v -> v = 0 \/ v = 1 ->
  answers (get_digital_modulation_enable_state self) p (Returned v) p'
    [wire "gdmes?"].
Proof.
  intros R Hv V s Hp. subst p. exact (get_digital_run self s text p' v R Hv V).
Qed.

Lemma answers_get_analog text v (p p' : P) :
  replies p "games?" text p' ->
  Py.int_of_str text = Some v -> v = 0 \/ v = 1 ->
  answers (get_analog_modulation_enable_state self) p (Returned v) p'
    [wire "games?"].
Proof.
  intros R Hv V s Hp. subst p. exact (get_analog_run self s text p' v R Hv V).
Qed.

Lemma answers_get_power_setpoint text watts (p p' : P) :
  replies p "p?" text p' ->
  PyFloat.float_of_str text = Some watts ->
  answers (get_power_setpoint self) p
    (Returned (PyFloat.fmul watts thousand)) p' [wire "p?"].
Proof.
  intros R F. unfold get_power_setpoint.
  apply (answers_sent _ _ _ _ ([wire "p?"] ++ [] ++ [] ++ [])); [reflexivity |].
  eapply answers_bind; [apply answers_send; [reflexivity | exact R] |].
  cbv beta. rewrite F. cbn [or_raise].
  eapply answers_bind; [apply answers_ret |]. cbv beta zeta.
  eapply answers_bind; [apply answers_when_print | apply answers_ret].
Qed.

Lemma answers_get_modulation_power_setpoint text r (p p' : P) :
  replies p "glmp?" text p' ->
  PyFloat.float_of_str text = Some r ->
  answers (get_modulation_power_setpoint self) p (Returned r) p'
    [wire "glmp?"].
Proof.
  intros R F. unfold get_modulation_power_setpoint.
  apply (answers_sent _ _ _ _ ([wire "glmp?"] ++ [] ++ [] ++ []));
    [reflexivity |].
  eapply answers_bind; [apply answers_send; [reflexivity | exact R] |].
  cbv beta. rewrite F. cbn [or_raise].
  eapply answers_bind; [apply answers_ret |]. cbv beta zeta.
  eapply answers_bind; [apply answers_when_print | apply answers_ret].
Qed.

(** ** The updates, when the device confirms them *)

Lemma flag_value_cases (enabled : bool) : Z.b2z enabled = 0 \/ Z.b2z enabled = 1.
Proof. destruct enabled; [right | left]; reflexivity. Qed.

Lemma answers_set_digital enabled (p p' : P) :
  flag_confirmed "sdmes" "gdmes?" enabled p p' ->
  answers (set_digital_modulation_enable_state self enabled) p (Returned tt)
    p' (flag_exchange "sdmes" "gdmes?" (Some enabled)).
Proof.
  intros (text & (p1 & R1 & R2) & Hv).
  unfold set_digital_modulation_enable_state, flag_exchange.
  eapply answers_sent; [| eapply answers_bind;
    [apply answers_send;
       [exact (flag_command_ascii "sdmes" enabled eq_refl) | exact R1] |]].
  2: { cbv beta. eapply answers_bind; [apply answers_accepted |].
       eapply answers_bind;
         [exact (answers_get_digital text _ p1 p' R2 Hv
                   (flag_value_cases enabled)) |].
       cbv beta. rewrite Z.eqb_refl. cbn [assert].
       eapply answers_bind; [apply answers_ret | apply answers_when_print]. }
  reflexivity.
Qed.

Lemma answers_set_analog enabled (p p' : P) :
  flag_confirmed "sames" "games?" enabled p p' ->
  answers (set_analog_modulation_enable_state self enabled) p (Returned tt)
    p' (flag_exchange "sames" "games?" (Some enabled)).
Proof.
  intros (text & (p1 & R1 & R2) & Hv).
  unfold set_analog_modulation_enable_state, flag_exchange.
  eapply answers_sent; [| eapply answers_bind;
    [apply answers_send;
       [exact (flag_command_ascii "sames" enabled eq_refl) | exact R1] |]].
  2: { cbv beta. eapply answers_bind; [apply answers_accepted |].
       eapply answers_bind;
         [exact (answers_get_analog text _ p1 p' R2 Hv
                   (flag_value_cases enabled)) |].
       cbv beta. rewrite Z.eqb_refl. cbn [assert].
       eapply answers_bind; [apply answers_ret | apply answers_when_print]. }
  reflexivity.
Qed.

Lemma answers_when_supplied_digital flag (p p' : P) :
  flag_settled "sdmes" "gdmes?" flag p p' ->
  answers (when_supplied flag (set_digital_modulation_enable_state self)) p
    (Returned tt) p' (flag_exchange "sdmes" "gdmes?" flag).
Proof.
  destruct flag as [enabled |]; cbn [flag_settled when_supplied].
  - apply answers_set_digital.
  - intros ->. apply answers_ret.
Qed.

Lemma answers_when_supplied_analog flag (p p' : P) :
  flag_settled "sames" "games?" flag p p' ->
  answers (when_supplied flag (set_analog_modulation_enable_state self)) p
    (Returned tt) p' (flag_exchange "sames" "games?" flag).
Proof.
  destruct flag as [enabled |]; cbn [flag_settled when_supplied].
  - apply answers_set_analog.
  - intros ->. apply answers_ret.
Qed.

Lemma answers_set_power_setpoint power_mW watts (p p' : P) :
  PyFloat.fdiv power_mW thousand = Some watts ->
  power_confirmed self power_mW p p' ->
  answers (set_power_setpoint self power_mW) p (Returned tt) p'
    [wire ("p " ++ PyFloat.fmt_f 4 watts); wire "p?"].
Proof.
  intros D (Rg & watts' & text & answered & asked & got & D' & (p1 & R1 & R2)
            & F & Ra & Rr & Eq).
  rewrite D in D'. injection D' as <-.
  unfold set_power_setpoint. rewrite Rg, D, Ra. cbn [assert or_raise].
  eapply answers_sent; [| eapply answers_bind; [apply answers_ret |]].
  2: { cbv beta. eapply answers_bind; [apply answers_ret |]. cbv beta.
       eapply answers_bind;
         [apply answers_send; [solve_ascii | exact R1] |].
       cbv beta. eapply answers_bind; [apply answers_accepted |].
       eapply answers_bind; [apply answers_ret |]. cbv beta.
       eapply answers_bind;
         [exact (answers_get_power_setpoint text answered p1 p' R2 F) |].
       cbv beta. rewrite Rr. cbn [or_raise].
       eapply answers_bind; [apply answers_ret |]. cbv beta.
       rewrite Eq. cbn [assert].
       eapply answers_bind; [apply answers_ret | apply answers_when_print]. }
  reflexivity.
Qed.

Lemma answers_set_modulation_power_setpoint power_mW (p p' : P) :
  modulation_power_confirmed self power_mW p p' ->
  answers (set_modulation_power_setpoint self power_mW) p (Returned tt) p'
    [wire ("slmp " ++ PyFloat.fmt_f 1 power_mW); wire "glmp?"].
Proof.
  intros (Rg & text & answered & asked & got & (p1 & R1 & R2)
            & F & Ra & Rr & Eq).
  unfold set_modulation_power_setpoint. rewrite Rg, Ra. cbn [assert or_raise].
  eapply answers_sent; [| eapply answers_bind; [apply answers_ret |]].
  2: { cbv beta.
       eapply answers_bind;
         [apply answers_send; [solve_ascii | exact R1] |].
       cbv beta. eapply answers_bind; [apply answers_accepted |].
       eapply answers_bind; [apply answers_ret |]. cbv beta.
       eapply answers_bind;
         [exact (answers_get_modulation_power_setpoint text answered p1 p'
                   R2 F) |].
       cbv beta. rewrite Rr. cbn [or_raise].
       eapply answers_bind; [apply answers_ret |]. cbv beta.
       rewrite Eq. cbn [assert].
       eapply answers_bind; [apply answers_ret | apply answers_when_print]. }
  reflexivity.
Qed.

Lemma answers_set_power_for mode cmd power_mW (p p' : P) :
  mode2command mode = Some cmd ->
  set_point_confirmed self mode power_mW p p' ->
  answers (set_power_for self mode power_mW) p (Returned tt) p'
    (power_exchange mode power_mW).
Proof.
  intros M C. unfold set_point_confirmed in C. unfold set_power_for, power_exchange.
  destruct (mode2command_some mode cmd M) as [[-> _] | [-> _]];
    cbn [String.eqb Ascii.eqb Bool.eqb] in *.
  - pose proof C as (_ & watts & _ & _ & _ & _ & D & _).
    rewrite D. exact (answers_set_power_setpoint power_mW watts p p' D C).
  - exact (answers_set_modulation_power_setpoint power_mW p p' C).
Qed.

End Dialogue.

(** * Runs that return, taken apart port by port *)

Section Returned.

Context {P : Type} {T : Transport P}.

Lemma bind_returned_inv {A B} (c : io P A) (k : A -> io P B) s b s' :
  bind c k s = (Returned b, s') ->
  exists a s1, c s = (Returned a, s1) /\ k a s1 = (Returned b, s').
Proof.
  intros H. apply bind_inv in H.
  destruct H as [H | (e & _ & D)]; [exact H | discriminate D].
Qed.

Lemma ret_returned {A} (a b : A) (s s' : world P) :
  ret a s = (Returned b, s') -> b = a /\ s' = s.
Proof. intros H. inversion H. split; reflexivity. Qed.

Lemma or_raise_returned {A} (o : option A) e a (s s' : world P) :
  or_raise o e s = (Returned a, s') -> o = Some a /\ s' = s.
Proof.
  destruct o as [x |]; cbn [or_raise]; intros H; inversion H.
  split; reflexivity.
Qed.

Lemma assert_returned (b : bool) u (s s' : world P) :
  assert b s = (Returned u, s') -> b = true /\ s' = s.
Proof.
  destruct b; cbn [assert]; intros H; inversion H. split; reflexivity.
Qed.

Lemma when_print_port (b : bool) text o (s s' : world P) :
  when b (print text) s = (o, s') -> port s' = port s.
Proof.
  destruct b; cbn [when]; intros H.
  - apply print_inv in H. destruct H as (_ & _ & H). exact H.
  - inversion H. reflexivity.
Qed.

Lemma accepted_returned answer a e u (s s' : world P) :
  when (negb (String.eqb answer "OK"))
    (bind (print2 a answer) (fun _ => raise e)) s = (Returned u, s') ->
  answer = "OK"%string /\ s' = s.
Proof.
  destruct (String.eqb_spec answer "OK") as [-> | N]; cbn [negb when];
    intros H.
  - inversion H. split; reflexivity.
  - discriminate H.
Qed.

Lemma send_returned (self : Laser) cmd text (s s' : world P) :
  Py.all_chars Py.is_ascii cmd = true ->
  _send self cmd s = (Returned text, s') ->
  replies (port s) cmd text (port s').
Proof.
  intros A H. destruct (send_inv self cmd s _ s' A H) as (got & E & O & _).
  unfold answer_of in O. unfold replies.
  destruct (port_in_waiting (port s') =? 0)%N eqn:N; [| discriminate O].
  destruct (Py.decode_ascii got) as [raw |] eqn:D; [| discriminate O].
  exists got, raw. split; [exact E |]. split; [apply N.eqb_eq; exact N |].
  split; [exact D |]. inversion O. reflexivity.
Qed.

End Returned.

(** Take apart a run [H] that returned, one step after the other; the
    calls of methods are left as they are. *)
Ltac returned_inv H :=
  lazymatch type of H with
  | bind _ _ _ = (Returned _, _) =>
      let R := fresh "R" in
      apply bind_returned_inv in H;
      destruct H as (? & ? & R & H);
      cbv beta zeta in H; returned_inv R; returned_inv H
  | ret _ _ = (Returned _, _) =>
      apply ret_returned in H; destruct H as [? ?]; subst
  | or_raise _ _ _ = (Returned _, _) =>
      apply or_raise_returned in H; destruct H as [H ?]; subst
  | assert _ _ = (Returned _, _) =>
      apply assert_returned in H; destruct H as [H ?]; subst
  | when _ (print _) _ = (_, _) => apply when_print_port in H
  | when (negb (String.eqb _ "OK")) _ _ = (Returned _, _) =>
      apply accepted_returned in H; destruct H as [? ?]; subst
  | _send _ _ _ = (Returned _, _) =>
      apply send_returned in H; [| solve_ascii]
  | _ => idtac
  end.

(** Worlds that share their port: keep the earlier one. *)
Ltac same_ports :=
  repeat match goal with
    | E : port _ = port _ |- _ => try rewrite E in *; clear E
    end.

Ltac zero_or_one B :=
  apply orb_true_iff in B; destruct B as [B | B]; apply Z.eqb_eq in B;
  [left | right]; exact B.

Section Inversions.

Context {P : Type} {T : Transport P}.
Variable self : Laser.
Local Open Scope list_scope.

Lemma get_on_off_state_returned status (s s' : world P) :
  get_on_off_state self s = (Returned status, s') ->
  exists text v,
    replies (port s) "l?" text (port s') /\
    Py.int_of_str text = Some v /\ (v = 0 \/ v = 1) /\
    status = if v =? 0 then "OFF"%string else "ON"%string.
Proof.
  intros H. unfold get_on_off_state in H. returned_inv H. same_ports.
  match goal with
  | R : replies _ _ ?text _, E : Py.int_of_str ?text = Some ?v,
    B : _ || _ = true |- _ =>
      exists text, v; split; [exact R |]; split; [exact E |];
      split; [zero_or_one B | reflexivity]
  end.
Qed.

Lemma get_state_returned state (s s' : world P) :
  get_state self s = (Returned state, s') ->
  exists answer code,
    replies (port s) "gom?" answer (port s') /\
    Py.int_of_str answer = Some code /\ 0 <= code <= 6 /\
    state = state_name code.
Proof.
  intros H. unfold get_state in H.
  apply bind_returned_inv in H. destruct H as (answer & s1 & R1 & H).
  apply send_returned in R1; [| reflexivity].
  apply bind_returned_inv in H. destruct H as (code & s2 & R2 & H).
  apply or_raise_returned in R2. destruct R2 as [Hc ->].
  apply bind_returned_inv in H. destruct H as (u & s3 & R3 & H).
  apply assert_returned in R3. destruct R3 as [B ->].
  cbv zeta in H.
  destruct (very_verbose self); cbn [when] in H.
  - discriminate H.
  - rewrite bind_ret in H. apply ret_returned in H. destruct H as [-> ->].
    exists answer, code. split; [exact R1 |]. split; [exact Hc |].
    split; [| reflexivity].
    apply andb_true_iff in B. destruct B as [B1 B2].
    apply Z.leb_le in B1. apply Z.leb_le in B2. split; assumption.
Qed.

Lemma get_flag_returned_digital v (s s' : world P) :
  get_digital_modulation_enable_state self s = (Returned v, s') ->
  exists text,
    replies (port s) "gdmes?" text (port s') /\ Py.int_of_str text = Some v.
Proof.
  intros H. unfold get_digital_modulation_enable_state in H.
  returned_inv H. same_ports.
  match goal with
  | R : replies _ _ ?text _, E : Py.int_of_str ?text = Some _ |- _ =>
      exists text; split; [exact R | exact E]
  end.
Qed.

Lemma get_flag_returned_analog v (s s' : world P) :
  get_analog_modulation_enable_state self s = (Returned v, s') ->
  exists text,
    replies (port s) "games?" text (port s') /\ Py.int_of_str text = Some v.
Proof.
  intros H. unfold get_analog_modulation_enable_state in H.
  returned_inv H. same_ports.
  match goal with
  | R : replies _ _ ?text _, E : Py.int_of_str ?text = Some _ |- _ =>
      exists text; split; [exact R | exact E]
  end.
Qed.

Lemma get_power_setpoint_returned r (s s' : world P) :
  get_power_setpoint self s = (Returned r, s') ->
  exists text watts,
    replies (port s) "p?" text (port s') /\
    PyFloat.float_of_str text = Some watts /\
    r = PyFloat.fmul watts thousand.
Proof.
  intros H. unfold get_power_setpoint in H. returned_inv H. same_ports.
  match goal with
  | R : replies _ _ ?text _, E : PyFloat.float_of_str ?text = Some ?x |- _ =>
      exists text, x; split; [exact R |]; split; [exact E | reflexivity]
  end.
Qed.

Lemma get_modulation_power_setpoint_returned r (s s' : world P) :
  get_modulation_power_setpoint self s = (Returned r, s') ->
  exists text,
    replies (port s) "glmp?" text (port s') /\
    PyFloat.float_of_str text = Some r.
Proof.
  intros H. unfold get_modulation_power_setpoint in H.
  returned_inv H. same_ports.
  match goal with
  | R : replies _ _ ?text _, E : PyFloat.float_of_str ?text = Some _ |- _ =>
      exists text; split; [exact R | exact E]
  end.
Qed.

Lemma set_digital_returned enabled u (s s' : world P) :
  set_digital_modulation_enable_state self enabled s = (Returned u, s') ->
  flag_confirmed "sdmes" "gdmes?" enabled (port s) (port s').
Proof.
  intros H. unfold set_digital_modulation_enable_state in H.
  apply bind_returned_inv in H. destruct H as (answer & s1 & R1 & H).
  apply send_returned in R1;
    [| exact (flag_command_ascii "sdmes" enabled eq_refl)].
  returned_inv H.
  match goal with
  | G : get_digital_modulation_enable_state _ _ = _ |- _ =>
      apply get_flag_returned_digital in G; destruct G as (text & R2 & Hv)
  end.
  same_ports.
  match goal with
  | B : (Z.b2z enabled =? _) = true |- _ =>
      apply Z.eqb_eq in B; rewrite <- B in Hv
  end.
  exists text. split; [| exact Hv]. eexists. split; [exact R1 | exact R2].
Qed.

Lemma set_analog_returned enabled u (s s' : world P) :
  set_analog_modulation_enable_state self enabled s = (Returned u, s') ->
  flag_confirmed "sames" "games?" enabled (port s) (port s').
Proof.
  intros H. unfold set_analog_modulation_enable_state in H.
  apply bind_returned_inv in H. destruct H as (answer & s1 & R1 & H).
  apply send_returned in R1;
    [| exact (flag_command_ascii "sames" enabled eq_refl)].
  returned_inv H.
  match goal with
  | G : get_analog_modulation_enable_state _ _ = _ |- _ =>
      apply get_flag_returned_analog in G; destruct G as (text & R2 & Hv)
  end.
  same_ports.
  match goal with
  | B : (Z.b2z enabled =? _) = true |- _ =>
      apply Z.eqb_eq in B; rewrite <- B in Hv
  end.
  exists text. split; [| exact Hv]. eexists. split; [exact R1 | exact R2].
Qed.

Lemma when_supplied_digital_returned flag u (s s' : world P) :
  when_supplied flag (set_digital_modulation_enable_state self) s
  = (Returned u, s') ->
  flag_settled "sdmes" "gdmes?" flag (port s) (port s').
Proof.
  destruct flag as [enabled |]; cbn [when_supplied flag_settled]; intros H.
  - exact (set_digital_returned enabled u s s' H).
  - inversion H. reflexivity.
Qed.

Lemma when_supplied_analog_returned flag u (s s' : world P) :
  when_supplied flag (set_analog_modulation_enable_state self) s
  = (Returned u, s') ->
  flag_settled "sames" "games?" flag (port s) (port s').
Proof.
  destruct flag as [enabled |]; cbn [when_supplied flag_settled]; intros H.
  - exact (set_analog_returned enabled u s s' H).
  - inversion H. reflexivity.
Qed.

End Inversions.

Section Updates.

Context {P : Type} {T : Transport P}.
Variable self : Laser.
Local Open Scope list_scope.

Lemma set_power_setpoint_returned power_mW u (s s' : world P) :
  set_power_setpoint self power_mW s = (Returned u, s') ->
  power_confirmed self power_mW (port s) (port s').
Proof.
  intros H. unfold set_power_setpoint in H.
  apply bind_returned_inv in H. destruct H as (u1 & s1 & R & H).
  apply assert_returned in R. destruct R as [Rg ->].
  apply bind_returned_inv in H. destruct H as (watts & s1 & R & H).
  apply or_raise_returned in R. destruct R as [D ->].
  apply bind_returned_inv in H. destruct H as (answer & s1 & R1 & H).
  apply send_returned in R1; [| solve_ascii].
  returned_inv H.
  match goal with
  | G : get_power_setpoint _ _ = _ |- _ =>
      apply get_power_setpoint_returned in G;
      destruct G as (text & answered & Q2 & Fq & ->)
  end.
  same_ports.
  split; [exact Rg |].
  match goal with
  | Ra : PyFloat.py_round 4 power_mW = Some ?asked,
    Rr : PyFloat.py_round 4 (PyFloat.fmul answered thousand) = Some ?got,
    Eq : PyFloat.feq ?asked ?got = true |- _ =>
      exists watts, text, answered, asked, got;
      split; [exact D |];
      split; [eexists; split; [exact R1 | exact Q2] |];
      split; [exact Fq |]; split; [exact Ra |]; split; [exact Rr | exact Eq]
  end.
Qed.

Lemma set_modulation_power_setpoint_returned power_mW u (s s' : world P) :
  set_modulation_power_setpoint self power_mW s = (Returned u, s') ->
  modulation_power_confirmed self power_mW (port s) (port s').
Proof.
  intros H. unfold set_modulation_power_setpoint in H.
  apply bind_returned_inv in H. destruct H as (u1 & s1 & R & H).
  apply assert_returned in R. destruct R as [Rg ->].
  apply bind_returned_inv in H. destruct H as (answer & s1 & R1 & H).
  apply send_returned in R1; [| solve_ascii].
  returned_inv H.
  match goal with
  | G : get_modulation_power_setpoint _ _ = _ |- _ =>
      apply get_modulation_power_setpoint_returned in G;
      destruct G as (text & Q2 & Fq)
  end.
  same_ports.
  split; [exact Rg |].
  match goal with
  | Ra : PyFloat.py_round 4 power_mW = Some ?asked,
    Rr : PyFloat.py_round 4 ?answered = Some ?got,
    Eq : PyFloat.feq ?asked ?got = true |- _ =>
      exists text, answered, asked, got;
      split; [eexists; split; [exact R1 | exact Q2] |];
      split; [exact Fq |]; split; [exact Ra |]; split; [exact Rr | exact Eq]
  end.
Qed.

Lemma set_power_for_returned mode power_mW u (s s' : world P) :
  set_power_for self mode power_mW s = (Returned u, s') ->
  set_point_confirmed self mode power_mW (port s) (port s').
Proof.
  unfold set_power_for, set_point_confirmed.
  destruct (String.eqb mode "continuous");
    [apply set_power_setpoint_returned |].
  destruct (String.eqb mode "modulation");
    [apply set_modulation_power_setpoint_returned |].
  intros H. inversion H. reflexivity.
Qed.

Lemma mode_confirmed_code mode code :
  mode_confirmed mode code = true -> 0 <= code <= 6.
Proof.
  unfold mode_confirmed. intros H. apply orb_true_iff in H.
  destruct H as [H | H]; apply andb_true_iff in H; destruct H as [_ H];
    apply Z.eqb_eq in H; lia.
Qed.

Lemma mode_command_ascii mode cmd :
  mode2command mode = Some cmd -> Py.all_chars Py.is_ascii cmd = true.
Proof.
  intros M. destruct (mode2command_some mode cmd M) as [[_ ->] | [_ ->]];
    reflexivity.
Qed.

Lemma set_mode_returned mode u (s s' : world P) :
  set_mode self mode s = (Returned u, s') ->
  mode_switch_confirmed mode (port s) (port s').
Proof.
  intros H. unfold set_mode in H.
  apply bind_returned_inv in H. destruct H as (cmd & s1 & R & H).
  apply or_raise_returned in R. destruct R as [M ->].
  apply bind_returned_inv in H. destruct H as (answer & s1 & R1 & H).
  apply send_returned in R1; [| exact (mode_command_ascii mode cmd M)].
  apply bind_returned_inv in H. destruct H as (u1 & s2 & R & H).
  apply accepted_returned in R. destruct R as [-> ->].
  apply bind_returned_inv in H. destruct H as (status & s2 & R2 & H).
  apply get_on_off_state_returned in R2.
  destruct R2 as (text & v & R2 & Hv & V & ->).
  apply bind_returned_inv in H. destruct H as (u2 & s3 & R3 & H).
  apply when_print_port in H.
  exists cmd, text, (port s2). split; [exact M |].
  split; [exists (port s1); split; [exact R1 | exact R2] |].
  destruct V as [-> | ->]; cbn [Z.eqb String.eqb Ascii.eqb Bool.eqb when] in R3.
  - left. split; [exact Hv |]. apply ret_returned in R3.
    destruct R3 as [_ ->]. exact H.
  - right. split; [exact Hv |].
    apply bind_returned_inv in R3. destruct R3 as (state & s4 & R4 & R5).
    apply get_state_returned in R4.
    destruct R4 as (answer & code & R4 & Hc & C & ->).
    apply assert_returned in R5. destruct R5 as [B ->].
    rewrite (confirmation_test mode cmd code M C) in B.
    rewrite H. exists answer, code.
    split; [exact R4 |]. split; [exact Hc | exact B].
Qed.

Lemma answers_set_mode mode (p p' : P) :
  very_verbose self = false ->
  mode_switch_confirmed mode p p' ->
  exists cmd sent,
    mode2command mode = Some cmd /\
    answers (set_mode self mode) p (Returned tt) p' sent /\
    (sent = [wire cmd; wire "l?"] \/
     sent = [wire cmd; wire "l?"; wire "gom?"]).
Proof.
  intros VV (cmd & status & p2 & M & (p1 & R1 & R2) & C).
  exists cmd. unfold set_mode. rewrite M. cbn [or_raise].
  destruct C as [[Hv ->] | (Hv & answer & code & R3 & Hc & B)].
  - exists [wire cmd; wire "l?"]. split; [reflexivity |].
    split; [| left; reflexivity].
    eapply answers_sent; [| eapply answers_bind; [apply answers_ret |]].
    2: { cbv beta. eapply answers_bind;
           [apply answers_send; [exact (mode_command_ascii mode cmd M)
                                | exact R1] |].
         cbv beta. eapply answers_bind; [apply answers_accepted |].
         eapply answers_bind;
           [exact (answers_get_on_off_state self status 0 p1 p2 R2 Hv
                     (or_introl eq_refl)) |].
         cbv beta. cbn [Z.eqb String.eqb Ascii.eqb Bool.eqb when].
         eapply answers_bind; [apply answers_ret | apply answers_when_print]. }
    reflexivity.
  - exists [wire cmd; wire "l?"; wire "gom?"]. split; [reflexivity |].
    split; [| right; reflexivity].
    pose proof (mode_confirmed_code mode code B) as C.
    eapply answers_sent; [| eapply answers_bind; [apply answers_ret |]].
    2: { cbv beta. eapply answers_bind;
           [apply answers_send; [exact (mode_command_ascii mode cmd M)
                                | exact R1] |].
         cbv beta. eapply answers_bind; [apply answers_accepted |].
         eapply answers_bind;
           [exact (answers_get_on_off_state self status 1 p1 p2 R2 Hv
                     (or_intror eq_refl)) |].
         cbv beta. cbn [Z.eqb String.eqb Ascii.eqb Bool.eqb when].
         eapply answers_bind; [| apply answers_when_print].
         eapply answers_bind;
           [exact (answers_get_state self answer code p2 p' VV R3 Hc C) |].
         cbv beta. rewrite (confirmation_test mode cmd code M C), B.
         apply answers_ret. }
    reflexivity.
Qed.

(** ** [turn_off] *)

Lemma turn_off_returned u (s s' : world P) :
  turn_off self s = (Returned u, s') ->
  emission_off_confirmed (port s) (port s').
Proof.
  intros H. unfold turn_off in H.
  apply bind_returned_inv in H. destruct H as (u0 & s0 & R0 & H).
  apply when_print_port in R0.
  apply bind_returned_inv in H. destruct H as (answer & s1 & R1 & H).
  apply send_returned in R1; [| reflexivity].
  apply bind_returned_inv in H. destruct H as (u1 & s2 & R & H).
  apply accepted_returned in R. destruct R as [-> ->].
  apply bind_returned_inv in H. destruct H as (status & s2 & R2 & H).
  apply get_on_off_state_returned in R2.
  destruct R2 as (text & v & R2 & Hv & V & ->).
  apply assert_returned in H. destruct H as [B ->].
  rewrite R0 in R1. exists text. split.
  - exists (port s1). split; [exact R1 | exact R2].
  - destruct V as [-> | ->]; [exact Hv | discriminate B].
Qed.

Lemma answers_turn_off_rejected answer (p p1 : P) :
  replies p "l0" answer p1 -> answer <> "OK"%string ->
  answers (turn_off self) p
    (Raised (RuntimeError "Could not disable laser emission")) p1
    [wire "l0"].
Proof.
  intros R1 N. unfold turn_off.
  eapply answers_sent; [| eapply answers_bind; [apply answers_when_print |]].
  2: { cbv beta. eapply answers_bind;
         [apply answers_send; [reflexivity | exact R1] |].
       cbv beta. apply answers_bind_raised.
       apply answers_rejected. exact N. }
  reflexivity.
Qed.

Lemma answers_turn_off status v (p p' : P) :
  acknowledged_then p "l0" "l?" status p' ->
  Py.int_of_str status = Some v -> v = 0 \/ v = 1 ->
  answers (turn_off self) p
    (if v =? 0 then Returned tt else Raised AssertionError) p'
    [wire "l0"; wire "l?"].
Proof.
  intros (p1 & R1 & R2) Hv V. unfold turn_off.
  eapply answers_sent; [| eapply answers_bind; [apply answers_when_print |]].
  2: { cbv beta. eapply answers_bind;
         [apply answers_send; [reflexivity | exact R1] |].
       cbv beta. eapply answers_bind; [apply answers_accepted |].
       eapply answers_bind;
         [exact (answers_get_on_off_state self status v p1 p' R2 Hv V) |].
       cbv beta.
       destruct V as [-> | ->]; cbn [Z.eqb String.eqb Ascii.eqb Bool.eqb assert];
         [apply answers_ret | apply answers_raise]. }
  destruct V as [-> | ->]; reflexivity.
Qed.

(** ** [configure] *)

Lemma configure_returned mode power_mW digital analog u (s s' : world P) :
  configure self mode power_mW digital analog s = (Returned u, s') ->
  configure_confirmed self mode power_mW digital analog (port s) (port s').
Proof.
  intros H. unfold configure in H.
  apply bind_returned_inv in H. destruct H as (u1 & s1 & R1 & H).
  apply bind_returned_inv in H. destruct H as (u2 & s2 & R2 & H).
  apply bind_returned_inv in H. destruct H as (u3 & s3 & R3 & H).
  exists (port s1), (port s2), (port s3).
  split; [exact (when_supplied_digital_returned self digital u1 s s1 R1) |].
  split; [exact (when_supplied_analog_returned self analog u2 s1 s2 R2) |].
  split; [exact (set_power_for_returned mode power_mW u3 s2 s3 R3) |].
  exact (set_mode_returned mode u s3 s' H).
Qed.

Lemma answers_configure mode power_mW digital analog (p p' : P) :
  very_verbose self = false ->
  configure_confirmed self mode power_mW digital analog p p' ->
  exists cmd sent,
    mode2command mode = Some cmd /\
    answers (configure self mode power_mW digital analog) p (Returned tt) p'
      (preparation mode power_mW digital analog ++ sent) /\
    (sent = [wire cmd; wire "l?"] \/
     sent = [wire cmd; wire "l?"; wire "gom?"]).
Proof.
  intros VV (p1 & p2 & p3 & C1 & C2 & C3 & C4).
  destruct (answers_set_mode mode p3 p' VV C4) as (cmd & sent & M & A4 & S).
  exists cmd, sent. split; [exact M |]. split; [| exact S].
  unfold configure, preparation. rewrite <- !app_assoc.
  eapply answers_bind; [exact (answers_when_supplied_digital self digital p p1 C1) |].
  eapply answers_bind; [exact (answers_when_supplied_analog self analog p1 p2 C2) |].
  eapply answers_bind;
    [exact (answers_set_power_for self mode cmd power_mW p2 p3 M C3) |].
  exact A4.
Qed.

(** ** [close] *)

Lemma release_run (s1 : world P) :
  exists s',
    bind port_release
      (fun _ => when (verbose self) (print (cobolt self "Closing"))) s1
    = (Returned tt, s') /\
    port s' = port_close (port s1) /\
    writes s' = writes s1 /\ closed s' = true.
Proof.
  destruct (verbose self).
  - exists (World (port_close (port s1))
              (Print (cobolt self "Closing") :: Close :: history s1)).
    split; [reflexivity |]. split; [reflexivity |]. split; [| reflexivity].
    rewrite (writes_cons _ (port s1)), (writes_cons _ (port s1)).
    rewrite !app_nil_r. destruct s1; reflexivity.
  - exists (World (port_close (port s1)) (Close :: history s1)).
    split; [reflexivity |]. split; [reflexivity |]. split; [| reflexivity].
    rewrite (writes_cons _ (port s1)).
    rewrite !app_nil_r. destruct s1; reflexivity.
Qed.

Lemma close_returned u (s s' : world P) :
  close self s = (Returned u, s') ->
  exists p1,
    emission_off_confirmed (port s) p1 /\
    port s' = port_close p1 /\
    writes s' = writes s ++ [wire "l0"; wire "l?"] /\
    closed s' = true.
Proof.
  intros H. unfold close in H.
  apply bind_returned_inv in H. destruct H as (u1 & s1 & R1 & H).
  destruct (turn_off_performs self s _ s1 R1) as (l & [W _] & _ & L).
  rewrite (L (ex_intro _ u1 eq_refl)) in W.
  destruct (release_run s1) as (s2 & E & Pt & W2 & C).
  rewrite E in H. inversion H; subst s2.
  exists (port s1). split; [exact (turn_off_returned u1 s s1 R1) |].
  split; [exact Pt |]. split; [rewrite W2; exact W | exact C].
Qed.

Lemma close_run (s : world P) p1 :
  emission_off_confirmed (port s) p1 ->
  exists s',
    close self s = (Returned tt, s') /\
    port s' = port_close p1 /\
    writes s' = writes s ++ [wire "l0"; wire "l?"] /\
    closed s' = true.
Proof.
  intros (status & A & Hv).
  destruct (answers_turn_off status 0 (port s) p1 A Hv (or_introl eq_refl)
              s eq_refl) as (s1 & E1 & Pt1 & [W1 _]).
  cbn [Z.eqb] in E1.
  destruct (release_run s1) as (s' & E & Pt & W & C).
  exists s'. unfold close. rewrite (bind_returned _ _ _ _ _ E1).
  split; [exact E |]. split; [rewrite Pt, Pt1; reflexivity |].
  split; [rewrite W; exact W1 | exact C].
Qed.

Lemma close_raises e (s : world P) p' sent :
  answers (turn_off self) (port s) (Raised e) p' sent ->
  exists s',
    close self s = (Raised e, s') /\ port s' = p' /\ extends s s' sent.
Proof.
  intros A. destruct (A s eq_refl) as (s' & E & Pt & X).
  exists s'. unfold close. rewrite (bind_raised _ _ _ _ _ E).
  split; [reflexivity |]. split; assumption.
Qed.

End Updates.

(** * Confirmed updates: [close] and [configure] *)

Section Safeguards.

Context {P : Type} {T : Transport P}.
Variable self : Laser.
Local Open Scope list_scope.

(** C8.  [close] runs [turn_off] first and releases the port only when
    [turn_off] has returned.  It returns exactly when the device confirms
    that emission is off: it acknowledges [l0] with [OK] and then answers
    the emission query [l?] with [0].  In that case [l0] and [l?] are what
    [close] has written, and the port it releases is the port as that
    dialogue left it.  When the device rejects [l0], [close] raises the
    [RuntimeError] of [turn_off] with [l0] alone written, and when the
    device acknowledges [l0] but reports emission on, [close] raises
    [AssertionError]; in both cases the port is not released.  In general,
    an exception of [turn_off] is the exception of [close], in the world
    [turn_off] left, and after a [turn_off] that returns the release is the
    next port event. *)
Theorem close_turns_off_before_release :
  (forall (s : world P) o s1,
      turn_off self s = (o, s1) ->
      closed s1 = closed s /\
      match o with
      | Raised e => close self s = (Raised e, s1)
      | Returned _ =>
          exists s', close self s = (Returned tt, s') /\
                     port s' = port_close (port s1) /\
                     port_events s' = port_events s1 ++ [Close] /\
                     closed s' = true
      end) /\
  (forall (s s' : world P),
      close self s = (Returned tt, s') ->
      exists p1,
        emission_off_confirmed (port s) p1 /\
        port s' = port_close p1 /\
        writes s' = writes s ++ [wire "l0"; wire "l?"] /\
        closed s' = true) /\
  (forall (s : world P) p1,
      emission_off_confirmed (port s) p1 ->
      exists s',
        close self s = (Returned tt, s') /\
        port s' = port_close p1 /\
        writes s' = writes s ++ [wire "l0"; wire "l?"] /\
        closed s' = true) /\
  (forall (s : world P) answer p1,
      replies (port s) "l0" answer p1 -> answer <> "OK"%string ->
      exists s',
        close self s
        = (Raised (RuntimeError "Could not disable laser emission"), s') /\
        port s' = p1 /\ extends s s' [wire "l0"]) /\
  (forall (s : world P) status p1,
      acknowledged_then (port s) "l0" "l?" status p1 ->
      Py.int_of_str status = Some 1 ->
      exists s',
        close self s = (Raised AssertionError, s') /\
        port s' = p1 /\ extends s s' [wire "l0"; wire "l?"]).
Proof.
  split; [exact (close_follows_turn_off self) |].
  split; [intros s s' H; exact (close_returned self tt s s' H) |].
  split; [exact (close_run self) |].
  split.
  - intros s answer p1 R N. apply close_raises.
    exact (answers_turn_off_rejected self answer (port s) p1 R N).
  - intros s status p1 A Hv. apply close_raises.
    exact (answers_turn_off self status 1 (port s) p1 A Hv (or_intror eq_refl)).
Qed.

(** C6.  For a valid mode, [configure] goes through its updates in this
    order: the digital modulation flag (if supplied), the analog modulation
    flag (if supplied), the set point that goes with the mode, and the mode
    command last.  Whatever its outcome, what it has written is a prefix of
    the payloads of these updates in that order, each command followed by
    its read-back query.  It returns only if every update was confirmed in
    turn: each command acknowledged with [OK], each flag read back as it
    was asked for, the set point read back equal to the power at four
    decimals, and the mode either left unchecked because the laser reports
    emission off or confirmed by the reported state.  Conversely, when the
    device confirms every update in turn, [configure] returns, having
    written all the payloads. *)
Theorem configure_order mode cmd power_mW digital analog :
  mode2command mode = Some cmd ->
  (forall (s : world P) o s',
      configure self mode power_mW digital analog s = (o, s') ->
      exists l,
        extends s s' l /\
        prefix_of l (preparation mode power_mW digital analog
                       ++ [wire cmd; wire "l?"; wire "gom?"]) /\
        (o = Returned tt ->
         l = preparation mode power_mW digital analog
               ++ [wire cmd; wire "l?"] \/
         l = preparation mode power_mW digital analog
               ++ [wire cmd; wire "l?"; wire "gom?"])) /\
  (forall (s s' : world P),
      configure self mode power_mW digital analog s = (Returned tt, s') ->
      configure_confirmed self mode power_mW digital analog
        (port s) (port s')) /\
  (very_verbose self = false ->
   forall (s : world P) p',
     configure_confirmed self mode power_mW digital analog (port s) p' ->
     exists s' sent,
       configure self mode power_mW digital analog s = (Returned tt, s') /\
       port s' = p' /\
       extends s s' (preparation mode power_mW digital analog ++ sent) /\
       (sent = [wire cmd; wire "l?"] \/
        sent = [wire cmd; wire "l?"; wire "gom?"])).
Proof.
  intros M.
  split; [intros s o s'; exact (configure_writes self mode cmd power_mW
                                  digital analog s o s' M) |].
  split; [intros s s' H;
          exact (configure_returned self mode power_mW digital analog
                   tt s s' H) |].
  intros VV s p' C.
  destruct (answers_configure self mode power_mW digital analog (port s) p'
              VV C) as (cmd' & sent & M' & A & S).
  rewrite M in M'. injection M' as <-.
  destruct (A s eq_refl) as (s' & E & Pt & X).
  exists s', sent. split; [exact E |]. split; [exact Pt |].
  split; [exact X | exact S].
Qed.

End Safeguards.

(** * The confirmed updates on a scripted port *)

Lemma close_witness :
  (exists s',
      close (Script.laser false) (Script.start ["OK"; "0"]%string)
      = (Returned tt, s') /\
      port s' = port_close (Script.midway [] ["l0"; "l?"]%string) /\
      closed s' = true) /\
  (exists s',
      close (Script.laser false) (Script.start ["error"%string])
      = (Raised (RuntimeError "Could not disable laser emission"), s') /\
      closed s' = false) /\
  (exists s',
      close (Script.laser false) (Script.start ["OK"; "1"]%string)
      = (Raised AssertionError, s') /\
      closed s' = false).
Proof.
  assert (replies (port (Script.start ["OK"; "0"]%string)) "l0" "OK"
            (Script.midway ["0"%string] ["l0"%string])) as R1
    by script_replies.
  assert (replies (Script.midway ["0"%string] ["l0"%string]) "l?" "0"
            (Script.midway [] ["l0"; "l?"]%string)) as R2
    by script_replies.
  assert (replies (port (Script.start ["error"%string])) "l0" "error"
            (Script.midway [] ["l0"%string])) as R3
    by script_replies.
  assert (replies (port (Script.start ["OK"; "1"]%string)) "l0" "OK"
            (Script.midway ["1"%string] ["l0"%string])) as R4
    by script_replies.
  assert (replies (Script.midway ["1"%string] ["l0"%string]) "l?" "1"
            (Script.midway [] ["l0"; "l?"]%string)) as R5
    by script_replies.
  destruct (close_turns_off_before_release (Script.laser false))
    as (_ & _ & Off & Rejected & On).
  split; [| split].
  - destruct (Off (Script.start ["OK"; "0"]%string)
                (Script.midway [] ["l0"; "l?"]%string)
                (ex_intro _ "0"%string
                   (conj (ex_intro _ _ (conj R1 R2)) eq_refl)))
      as (s' & E & Pt & _ & C).
    exists s'. split; [exact E |]. split; [exact Pt | exact C].
  - destruct (Rejected (Script.start ["error"%string]) "error"%string _ R3
                ltac:(discriminate)) as (s' & E & _ & [_ C]).
    exists s'. split; [exact E | exact C].
  - destruct (On (Script.start ["OK"; "1"]%string) "1"%string _
                (ex_intro _ _ (conj R4 R5)) eq_refl) as (s' & E & _ & [_ C]).
    exists s'. split; [exact E | exact C].
Defined.

Lemma configure_order_witness :
  exists s',
    configure (Script.laser false) "modulation" (PyFloat.of_int 10)
      (Some true) (Some false)
      (Script.start
         ["OK"; "1"; "OK"; "0"; "OK"; "10.0"; "OK"; "1"; "4"]%string)
    = (Returned tt, s') /\
    port s' =
      Script.midway []
        ["sdmes 1"; "gdmes?"; "sames 0"; "games?"; "slmp 10.0"; "glmp?";
         "em"; "l?"; "gom?"]%string.
Proof.
  assert (replies
            (port (Script.start
                     ["OK"; "1"; "OK"; "0"; "OK"; "10.0"; "OK"; "1"; "4"]%string))
            "sdmes 1" "OK"
            (Script.midway ["1"; "OK"; "0"; "OK"; "10.0"; "OK"; "1"; "4"]%string
               ["sdmes 1"%string])) as R1 by script_replies.
  assert (replies
            (Script.midway ["1"; "OK"; "0"; "OK"; "10.0"; "OK"; "1"; "4"]%string
               ["sdmes 1"%string])
            "gdmes?" "1"
            (Script.midway ["OK"; "0"; "OK"; "10.0"; "OK"; "1"; "4"]%string
               ["sdmes 1"; "gdmes?"]%string)) as R2 by script_replies.
  assert (replies
            (Script.midway ["OK"; "0"; "OK"; "10.0"; "OK"; "1"; "4"]%string
               ["sdmes 1"; "gdmes?"]%string)
            "sames 0" "OK"
            (Script.midway ["0"; "OK"; "10.0"; "OK"; "1"; "4"]%string
               ["sdmes 1"; "gdmes?"; "sames 0"]%string)) as R3
    by script_replies.
  assert (replies
            (Script.midway ["0"; "OK"; "10.0"; "OK"; "1"; "4"]%string
               ["sdmes 1"; "gdmes?"; "sames 0"]%string)
            "games?" "0"
            (Script.midway ["OK"; "10.0"; "OK"; "1"; "4"]%string
               ["sdmes 1"; "gdmes?"; "sames 0"; "games?"]%string)) as R4
    by script_replies.
  assert (replies
            (Script.midway ["OK"; "10.0"; "OK"; "1"; "4"]%string
               ["sdmes 1"; "gdmes?"; "sames 0"; "games?"]%string)
            ("slmp " ++ PyFloat.fmt_f 1 (PyFloat.of_int 10)) "OK"
            (Script.midway ["10.0"; "OK"; "1"; "4"]%string
               ["sdmes 1"; "gdmes?"; "sames 0"; "games?"; "slmp 10.0"]%string))
    as R5
    by (unfold replies; do 2 eexists;
        split; [vm_compute; reflexivity
               | split; [reflexivity | split; reflexivity]]).
  assert (replies
            (Script.midway ["10.0"; "OK"; "1"; "4"]%string
               ["sdmes 1"; "gdmes?"; "sames 0"; "games?"; "slmp 10.0"]%string)
            "glmp?" "10.0"
            (Script.midway ["OK"; "1"; "4"]%string
               ["sdmes 1"; "gdmes?"; "sames 0"; "games?"; "slmp 10.0";
                "glmp?"]%string)) as R6 by script_replies.
  assert (replies
            (Script.midway ["OK"; "1"; "4"]%string
               ["sdmes 1"; "gdmes?"; "sames 0"; "games?"; "slmp 10.0";
                "glmp?"]%string)
            "em" "OK"
            (Script.midway ["1"; "4"]%string
               ["sdmes 1"; "gdmes?"; "sames 0"; "games?"; "slmp 10.0";
                "glmp?"; "em"]%string)) as R7 by script_replies.
  assert (replies
            (Script.midway ["1"; "4"]%string
               ["sdmes 1"; "gdmes?"; "sames 0"; "games?"; "slmp 10.0";
                "glmp?"; "em"]%string)
            "l?" "1"
            (Script.midway ["4"%string]
               ["sdmes 1"; "gdmes?"; "sames 0"; "games?"; "slmp 10.0";
                "glmp?"; "em"; "l?"]%string)) as R8 by script_replies.
  assert (replies
            (Script.midway ["4"%string]
               ["sdmes 1"; "gdmes?"; "sames 0"; "games?"; "slmp 10.0";
                "glmp?"; "em"; "l?"]%string)
            "gom?" "4"
            (Script.midway []
               ["sdmes 1"; "gdmes?"; "sames 0"; "games?"; "slmp 10.0";
                "glmp?"; "em"; "l?"; "gom?"]%string)) as R9
    by script_replies.
  assert (power_in_range (Script.laser false) (PyFloat.of_int 10) = true)
    as Rg by (vm_compute; reflexivity).
  assert (PyFloat.float_of_str "10.0" = Some (PyFloat.of_int 10)) as F
    by (vm_compute; reflexivity).
  assert (PyFloat.py_round 4 (PyFloat.of_int 10) = Some (PyFloat.of_int 10))
    as Ra by (vm_compute; reflexivity).
  assert (PyFloat.feq (PyFloat.of_int 10) (PyFloat.of_int 10) = true) as Eq
    by (vm_compute; reflexivity).
  assert (configure_confirmed (Script.laser false) "modulation"
            (PyFloat.of_int 10) (Some true) (Some false)
            (port (Script.start
                     ["OK"; "1"; "OK"; "0"; "OK"; "10.0"; "OK"; "1"; "4"]%string))
            (Script.midway []
               ["sdmes 1"; "gdmes?"; "sames 0"; "games?"; "slmp 10.0";
                "glmp?"; "em"; "l?"; "gom?"]%string)) as C.
  { do 3 eexists. split; [| split; [| split]].
    - exists "1"%string. split; [| reflexivity].
      eexists. split; [exact R1 | exact R2].
    - exists "0"%string. split; [| reflexivity].
      eexists. split; [exact R3 | exact R4].
    - split; [exact Rg |].
      exists "10.0"%string, (PyFloat.of_int 10), (PyFloat.of_int 10),
        (PyFloat.of_int 10).
      split; [eexists; split; [exact R5 | exact R6] |].
      split; [exact F |]. split; [exact Ra |]. split; [exact Ra | exact Eq].
    - exists "em"%string, "1"%string. eexists. split; [reflexivity |].
      split; [eexists; split; [exact R7 | exact R8] |].
      right. split; [reflexivity |].
      exists "4"%string, 4. split; [exact R9 |]. split; reflexivity. }
  destruct (proj2 (proj2 (configure_order (Script.laser false) "modulation"
                            "em" (PyFloat.of_int 10) (Some true) (Some false)
                            eq_refl)) eq_refl _ _ C)
    as (s' & sent & E & Pt & _).
  exists s'. split; [exact E | exact Pt].
Defined.
